(** * aiProof: the course agent runner and the PDF chapter splitter

    A shallow embedding of [src/aiStudent/agent.py] and
    [scripts/pdf_restructure.py].  Python values, exceptions, printing and
    the file system are modelled explicitly; the calls into third-party
    services (the agent SDK, the generative model, the JSON parser, the
    Unicode tables) are inputs of the model. *)

From Stdlib Require Import ZArith NArith String Ascii List DecimalString Decimal.
From Stdlib Require Import Floats.PrimFloat.
From stdpp Require Import gmap strings list.

Set Warnings "-register-all".
Local Open Scope Z_scope.

(** ** Python strings

    A Python [str] is a sequence of Unicode code points. *)

Abbreviation str := (list N).

Definition lit (s : string) : str := map N_of_ascii (list_ascii_of_string s).
Arguments lit : simpl never.

(** [str(z)] for an [int]. *)
Definition str_of_Z (z : Z) : str := lit (NilZero.string_of_int (Z.to_int z)).

(** [format(z, "02d")]: the decimal digits, zero-filled up to a minimum
    width of two (the sign counts towards the width). *)
Definition format_02d (z : Z) : str :=
  if bool_decide (0 <= z < 10) then lit "0" ++ str_of_Z z else str_of_Z z.

(** [sub in s] *)
Definition contains (s sub : str) : Prop := exists pre post, s = pre ++ sub ++ post.

Definition is_digit (c : N) : bool := bool_decide (48 <= c <= 57)%N.

(** ** Python values, as [json.load] produces them *)

Inductive value :=
| VNone
| VBool (b : bool)
| VInt (z : Z)
| VFloat (f : float)
| VStr (s : str)
| VList (l : list value)
| VDict (d : list (str * value)).

Definition type_name (v : value) : str :=
  match v with
  | VNone => lit "NoneType"
  | VBool _ => lit "bool"
  | VInt _ => lit "int"
  | VFloat _ => lit "float"
  | VStr _ => lit "str"
  | VList _ => lit "list"
  | VDict _ => lit "dict"
  end.

(** ** Exceptions *)

Inductive exn :=
| FileNotFoundError (msg : str)
| IsADirectoryError (msg : str)
| UnicodeDecodeError (msg : str)
| JSONDecodeError (msg : str)
| CLIConnectionError (msg : str)
| KeyError (key : str)
| TypeError (msg : str)
| AttributeError (msg : str)
| IndexError (msg : str)
| ValueError (msg : str)
| OtherException (name msg : str)   (* any further subclass of Exception *)
| KeyboardInterrupt
| SystemExit (code : Z).

(** [isinstance(e, Exception)]: what [except Exception] catches. *)
Definition is_Exception (e : exn) : bool :=
  match e with
  | KeyboardInterrupt | SystemExit _ => false
  | _ => true
  end.

(** [str(e)] *)
Definition exn_str (e : exn) : str :=
  match e with
  | FileNotFoundError m | IsADirectoryError m | UnicodeDecodeError m
  | JSONDecodeError m | CLIConnectionError m | TypeError m
  | AttributeError m | IndexError m | ValueError m | OtherException _ m => m
  | KeyError k => lit "'" ++ k ++ lit "'"
  | KeyboardInterrupt => []
  | SystemExit c => str_of_Z c
  end.

Inductive outcome (A : Type) :=
| Ret (a : A)
| Raise (e : exn).
Arguments Ret {A} a.
Arguments Raise {A} e.

#[global] Instance outcome_ret : MRet outcome := fun A a => Ret a.
#[global] Instance outcome_bind : MBind outcome := fun A B f m =>
  match m with
  | Ret a => f a
  | Raise e => Raise e
  end.

(** ** Builtins on values *)

Fixpoint dict_lookup (k : str) (d : list (str * value)) : option value :=
  match d with
  | [] => None
  | (k', v) :: d' => if bool_decide (k = k') then Some v else dict_lookup k d'
  end.

(** The keys of a dict, each once, in order of first insertion. *)
Fixpoint dict_keys (d : list (str * value)) : list str :=
  match d with
  | [] => []
  | (k, _) :: d' => k :: filter (fun k' => k' <> k) (dict_keys d')
  end.

Definition no_attribute (v : value) (attr : string) : exn :=
  AttributeError (lit "'" ++ type_name v ++ lit "' object has no attribute '"
                  ++ lit attr ++ lit "'").

(** [v.get(k, dflt)] *)
Definition py_get (v : value) (k : str) (dflt : value) : outcome value :=
  match v with
  | VDict d => Ret (default dflt (dict_lookup k d))
  | _ => Raise (no_attribute v "get")
  end.

(** [v[k]] for a string key [k] *)
Definition py_getitem (v : value) (k : str) : outcome value :=
  match v with
  | VDict d =>
      match dict_lookup k d with
      | Some x => Ret x
      | None => Raise (KeyError k)
      end
  | VList _ =>
      Raise (TypeError (lit "list indices must be integers or slices, not str"))
  | VStr _ =>
      Raise (TypeError (lit "string indices must be integers, not 'str'"))
  | _ =>
      Raise (TypeError (lit "'" ++ type_name v ++ lit "' object is not subscriptable"))
  end.

(** [len(v)] *)
Definition py_len (v : value) : outcome nat :=
  match v with
  | VStr s => Ret (length s)
  | VList l => Ret (length l)
  | VDict d => Ret (length (dict_keys d))
  | _ => Raise (TypeError (lit "object of type '" ++ type_name v ++ lit "' has no len()"))
  end.

(** The items [for x in v] runs through. *)
Definition py_iter (v : value) : outcome (list value) :=
  match v with
  | VStr s => Ret (map (fun c => VStr [c]) s)
  | VList l => Ret l
  | VDict d => Ret (map VStr (dict_keys d))
  | _ => Raise (TypeError (lit "'" ++ type_name v ++ lit "' object is not iterable"))
  end.

(** [bool(v)] *)
Definition py_truthy (v : value) : bool :=
  match v with
  | VNone => false
  | VBool b => b
  | VInt z => negb (z =? 0)
  | VFloat f => negb (PrimFloat.eqb f 0%float)
  | VStr s => negb (bool_decide (s = []))
  | VList l => match l with [] => false | _ => true end
  | VDict d => match d with [] => false | _ => true end
  end.

(** [v == s] for a string [s] *)
Definition py_eq_str (v : value) (s : str) : bool :=
  match v with
  | VStr s' => bool_decide (s' = s)
  | _ => false
  end.

(** [[x for x in xs if p x]] where the test may raise *)
Fixpoint filterM {A} (p : A -> outcome bool) (xs : list A) : outcome (list A) :=
  match xs with
  | [] => Ret []
  | x :: xs' =>
      b ← p x;
      rest ← filterM p xs';
      Ret (if b : bool then x :: rest else rest)
  end.

(** ** Effects: process state threaded through calls that may raise *)

Definition M (S A : Type) : Type := S -> outcome A * S.

#[global] Instance M_ret {S} : MRet (M S) := fun A a s => (Ret a, s).
#[global] Instance M_bind {S} : MBind (M S) := fun A B f m s =>
  match m s with
  | (Ret a, s') => f a s'
  | (Raise e, s') => (Raise e, s')
  end.

Definition raise {S A} (e : exn) : M S A := fun s => (Raise e, s).
Definition lift {S A} (o : outcome A) : M S A := fun s => (o, s).
Definition gets {S A} (f : S -> A) : M S A := fun s => (Ret (f s), s).
Definition modify {S} (f : S -> S) : M S unit := fun s => (Ret tt, f s).

(** [try: body  except ...: handler].  [handlers e] is the body of the
    first [except] clause that matches [e], if one does. *)
Definition try_except {S A} (body : M S A) (handlers : exn -> option (M S A)) : M S A :=
  fun s =>
    match body s with
    | (Ret a, s') => (Ret a, s')
    | (Raise e, s') =>
        match handlers e with
        | Some h => h s'
        | None => (Raise e, s')
        end
    end.

(** [sys.exit(code)] *)
Definition sys_exit {S A} (code : Z) : M S A := raise (SystemExit code).

(** [for x in xs: body x] *)
Fixpoint for_each {S A} (xs : list A) (body : A -> M S unit) : M S unit :=
  match xs with
  | [] => mret tt
  | x :: xs' => body x;; for_each xs' body
  end.

Inductive stream := Stdout | Stderr.

#[global] Instance stream_eq_dec : EqDecision stream.
Proof. solve_decision. Defined.

(** Paths are normalised path strings; [path_join a b] is [a / b]. *)
Definition path_join (a b : str) : str :=
  if bool_decide (a = lit ".") then b
  else if bool_decide (last a = Some 47%N) then a ++ b
  else a ++ lit "/" ++ b.

(** ** The interpreter's runtime

    What the scripts use and the repository does not define: [repr] of
    floats and containers, fixed-point float formatting, the text of a
    traceback, the Unicode
    character tables beyond ASCII, and the JSON parser ([inl msg] stands
    for [json.JSONDecodeError(msg)]). *)

Class Runtime := {
  py_repr : value -> str;
  format_6f : float -> str;
  format_exc : exn -> str;
  unicode_isalnum : N -> bool;
  unicode_isspace : N -> bool;
  json_loads : str -> str + value;
}.

(** [str(v)], which is also [format(v, "")] inside an f-string. *)
Definition py_str `{Runtime} (v : value) : str :=
  match v with
  | VNone => lit "None"
  | VBool true => lit "True"
  | VBool false => lit "False"
  | VInt z => str_of_Z z
  | VStr s => s
  | VFloat _ | VList _ | VDict _ => py_repr v
  end.

Definition str_of_nat (n : nat) : str := str_of_Z (Z.of_nat n).

(** [c.isalnum()] and [c.isspace()] for one code point. *)
Definition char_isalnum `{Runtime} (c : N) : bool :=
  if (c <? 128)%N
  then bool_decide (48 <= c <= 57 \/ 65 <= c <= 90 \/ 97 <= c <= 122)%N
  else unicode_isalnum c.

Definition char_isspace `{Runtime} (c : N) : bool :=
  if (c <? 128)%N
  then bool_decide (9 <= c <= 13 \/ 28 <= c <= 32)%N
  else unicode_isspace c.

(** [s.isalnum()] *)
Definition str_isalnum `{Runtime} (s : str) : bool :=
  negb (bool_decide (s = [])) && forallb char_isalnum s.

Fixpoint lstrip `{Runtime} (s : str) : str :=
  match s with
  | c :: s' => if char_isspace c then lstrip s' else s
  | [] => []
  end.

(** [s.strip()] *)
Definition py_strip `{Runtime} (s : str) : str :=
  rev (lstrip (rev (lstrip s))).

(** [s.startswith(p)], [s.endswith(p)] *)
Definition startswith (s p : str) : bool := bool_decide (take (length p) s = p).
Definition endswith (s p : str) : bool :=
  bool_decide (drop (length s - length p) s = p) && bool_decide (length p <= length s)%nat.

(** [s.replace(" ", "_")] *)
Definition replace_space (s : str) : str :=
  map (fun c => if (c =? 32)%N then 95%N else c) s.

(** [v - 1] *)
Definition py_sub1 (v : value) : outcome value :=
  match v with
  | VInt z => Ret (VInt (z - 1))
  | VBool b => Ret (VInt (Z.b2z b - 1))
  | VFloat f => Ret (VFloat (PrimFloat.sub f 1%float))
  | _ => Raise (TypeError (lit "unsupported operand type(s) for -: '" ++ type_name v
                           ++ lit "' and 'int'"))
  end.

(** [operator.index(v)] *)
Definition py_index (v : value) : outcome Z :=
  match v with
  | VInt z => Ret z
  | VBool b => Ret (Z.b2z b)
  | _ => Raise (TypeError (lit "'" ++ type_name v
                           ++ lit "' object cannot be interpreted as an integer"))
  end.

(** [range(a, b)] as the list of its items *)
Definition py_range (a b : value) : outcome (list Z) :=
  lo ← py_index a;
  hi ← py_index b;
  Ret (map (fun i => lo + Z.of_nat i) (seq 0 (Z.to_nat (hi - lo)))).

(** [format(v, "02d")] *)
Definition py_format_02d (v : value) : outcome str :=
  match v with
  | VInt z => Ret (format_02d z)
  | VBool b => Ret (format_02d (Z.b2z b))
  | VFloat _ | VStr _ =>
      Raise (ValueError (lit "Unknown format code 'd' for object of type '"
                         ++ type_name v ++ lit "'"))
  | _ =>
      Raise (TypeError (lit "unsupported format string passed to "
                        ++ type_name v ++ lit ".__format__"))
  end.

(** [xs[i]] on a sequence: negative indices count from the end. *)
Definition seq_getitem {A} (xs : list A) (i : Z) : outcome A :=
  let j := if i <? 0 then i + Z.of_nat (length xs) else i in
  if (0 <=? j) && (j <? Z.of_nat (length xs))
  then match xs !! Z.to_nat j with
       | Some x => Ret x
       | None => Raise (IndexError (lit "Sequence index out of range"))
       end
  else Raise (IndexError (lit "Sequence index out of range")).

Fixpoint mapM {A B} (f : A -> outcome B) (xs : list A) : outcome (list B) :=
  match xs with
  | [] => Ret []
  | x :: xs' =>
      y ← f x;
      ys ← mapM f xs';
      Ret (y :: ys)
  end.

(** * The agent runner, [src/aiStudent/agent.py] *)

Module Agent.

(** A file holds text; [None] stands for bytes that are not valid UTF-8. *)
Inductive node :=
| Dir
| File (text : option str).

(** The process and its surroundings.  [total_cost] and [message_count]
    are the local variables of [run_autonomous_agent] that its [except]
    clauses read after the [try] body was left. *)
Record state := {
  fs : gmap str node;
  platform : str;
  environ : gmap str str;
  out : list (stream * str);
  total_cost : float;
  message_count : nat;
}.

Definition print (to : stream) (line : str) : M state unit :=
  modify (fun s => {| fs := fs s; platform := platform s; environ := environ s;
                      out := out s ++ [(to, line)];
                      total_cost := total_cost s; message_count := message_count s |}).

Definition set_counters (cost : float) (count : nat) : M state unit :=
  modify (fun s => {| fs := fs s; platform := platform s; environ := environ s;
                      out := out s; total_cost := cost; message_count := count |}).

(** [path.exists()] *)
Definition path_exists (p : str) : M state bool :=
  gets (fun s => bool_decide (is_Some (fs s !! p))).

(** What the script sees of the SDK. *)
Inductive block :=
| TextBlock (text : str)
| OtherBlock.

Inductive message :=
| AssistantMessage (content : list block)
| ResultMessage (total_cost_usd : option float)
| OtherMessage.

Record ClaudeAgentOptions := {
  cwd : str;
  system_prompt : option str;
  allowed_tools : list str;
  permission_mode : str;
  add_dirs : list str;
  setting_sources : list str;
  cli_path : option str;
}.

(** The external client: what entering the [async with] block raises, what
    [client.query] raises, and the messages [client.receive_messages()]
    yields, followed by the exception that ends the stream, if any. *)
Record sdk := {
  sdk_connect : ClaudeAgentOptions -> option exn;
  sdk_query : ClaudeAgentOptions -> str -> option exn;
  sdk_messages : ClaudeAgentOptions -> str -> list message * option exn;
}.

Section Agent.
Context `{Runtime}.

(** The f-string of [construct_autonomous_instruction], with its three
    replacement fields. *)
Definition counts_sentence (total_tasks pending : nat) : str :=
  lit "There are " ++ str_of_nat total_tasks ++ lit " total tasks, with "
  ++ str_of_nat pending ++ lit " currently pending.".

Definition prompt_text (course_name : str) (total_tasks pending : nat) : str :=
  lit "I need you to autonomously complete all course tasks for "
  ++ course_name
  ++ lit ".

You have access to:
- Course information and context
- Knowledge base materials in knowledge_base/ folder
- All task details in todo/course_tasks.json

"
  ++ counts_sentence total_tasks pending
  ++ lit "

Please begin working autonomously:
1. Review all tasks and decide on your approach
2. Start with the first task
3. Use the knowledge base as needed
4. Complete each task fully before moving to the next
5. Update task status in course_tasks.json as you progress
6. Save outputs to appropriate locations

Work independently and make your own decisions. Begin now.".

(** [t.get("status") == "pending"] *)
Definition status_is_pending (t : value) : outcome bool :=
  status ← py_get t (lit "status") VNone;
  Ret (py_eq_str status (lit "pending")).

Definition construct_autonomous_instruction
    (tasks_data course_info : value) : outcome str :=
  course_name ← py_get course_info (lit "course_name") (VStr (lit "Unknown Course"));
  tasks ← py_get tasks_data (lit "tasks") (VList []);
  total_tasks ← py_len tasks;
  tasks' ← py_get tasks_data (lit "tasks") (VList []);
  items ← py_iter tasks';
  pending_tasks ← filterM status_is_pending items;
  Ret (prompt_text (py_str course_name) total_tasks (length pending_tasks)).


(** [open(p, "r", encoding="utf-8")] followed by [json.load]. *)
Definition json_load_file (p : str) : M state value :=
  n ← gets (fun s => fs s !! p);
  match n with
  | None =>
      raise (FileNotFoundError (lit "[Errno 2] No such file or directory: '" ++ p ++ lit "'"))
  | Some Dir =>
      raise (IsADirectoryError (lit "[Errno 21] Is a directory: '" ++ p ++ lit "'"))
  | Some (File None) =>
      raise (UnicodeDecodeError (lit "'utf-8' codec can't decode bytes"))
  | Some (File (Some text)) =>
      match json_loads text with
      | inl msg => raise (JSONDecodeError msg)
      | inr v => mret v
      end
  end.

Definition tasks_file (course_path : str) : str :=
  path_join (path_join course_path (lit "todo")) (lit "course_tasks.json").

Definition info_file (course_path : str) : str :=
  path_join (path_join course_path (lit "todo")) (lit "course_information.json").

Definition load_course_data (course_path : str) : M state (value * value) :=
  let tasks_file := tasks_file course_path in
  let info_file := info_file course_path in
  tasks_present ← path_exists tasks_file;
  (if tasks_present : bool then mret tt
   else raise (FileNotFoundError (lit "Tasks file not found: " ++ tasks_file)));;
  info_present ← path_exists info_file;
  (if info_present : bool then mret tt
   else raise (FileNotFoundError (lit "Course info file not found: " ++ info_file)));;
  tasks_data ← json_load_file tasks_file;
  course_info ← json_load_file info_file;
  mret (tasks_data, course_info).

Definition find_claude_cli : M state (option str) :=
  plat ← gets platform;
  if bool_decide (plat = lit "win32") then
    appdata ← gets (fun s => environ s !! lit "APPDATA");
    match appdata with
    | Some ((_ :: _) as appdata) =>
        let npm_cli := path_join (path_join appdata (lit "npm")) (lit "claude.cmd") in
        present ← path_exists npm_cli;
        if present : bool then mret (Some npm_cli) else mret None
    | _ => mret None
    end
  else mret None.

Definition rule (c : N) : str := replicate 60 c.

(** The body of [for block in msg.content]. *)
Definition show_block (b : block) : M state unit :=
  match b with
  | TextBlock text =>
      if bool_decide (200 < length text)%nat
      then print Stdout (lit "Claude: " ++ take 200 text ++ lit "...")
      else print Stdout (lit "Claude: " ++ text)
  | OtherBlock => mret tt
  end.

(** The body of [async for msg in client.receive_messages()]. *)
Definition handle_message (msg : message) : M state unit :=
  cost0 ← gets total_cost;
  count ← gets message_count;
  set_counters cost0 (S count);;
  match msg with
  | AssistantMessage content => for_each content show_block
  | ResultMessage (Some cost) =>
      if negb (PrimFloat.eqb cost 0%float) then
        let total := PrimFloat.add cost0 cost in
        set_counters total (S count);;
        print Stdout ([10%N] ++ lit "[Cost for this response: $" ++ format_6f cost ++ lit "]");;
        print Stdout (lit "[Cumulative total: $" ++ format_6f total ++ lit "]" ++ [10%N])
      else mret tt
  | ResultMessage None => mret tt
  | OtherMessage => mret tt
  end.

Definition raise_if {S} (e : option exn) : M S unit :=
  match e with
  | Some e => raise e
  | None => mret tt
  end.

(** The [async with ClaudeSDKClient(options=options) as client:] block.
    Leaving the block (the client's disconnect) is taken not to raise, and
    what the external agent does to the course files is not part of the
    state. *)
Definition session (client : sdk) (options : ClaudeAgentOptions)
    (tasks_data course_info : value) : M state unit :=
  raise_if (sdk_connect client options);;
  initial_prompt ← lift (construct_autonomous_instruction tasks_data course_info);
  print Stdout ([10%N] ++ lit "Sending initial instruction to Claude...");;
  raise_if (sdk_query client options initial_prompt);;
  print Stdout ([10%N] ++ lit "Claude is now working autonomously...");;
  print Stdout (lit "(You can monitor progress below)" ++ [10%N]);;
  let '(msgs, stream_end) := sdk_messages client options initial_prompt in
  for_each msgs handle_message;;
  raise_if stream_end;;
  print Stdout ([10%N] ++ rule 61);;
  print Stdout (lit "Agent session completed");;
  count ← gets message_count;
  print Stdout (lit "Total messages processed: " ++ str_of_nat count);;
  cost ← gets total_cost;
  print Stdout (lit "Total cost: $" ++ format_6f cost);;
  print Stdout (rule 61).


(** The prints that open [run_autonomous_agent]; [course_path] is the
    resolved path. *)
Definition banner (course_path : str) : M state unit :=
  print Stdout (lit "AI Student - Autonomous Agent");;
  print Stdout (lit "Course directory: " ++ course_path);;
  print Stdout (lit "Knowledge base: " ++ path_join course_path (lit "knowledge_base"));;
  print Stdout (rule 45).

(** The body of the first [try]. *)
Definition load_phase (course_path : str) : M state (value * value) :=
  print Stdout (lit "Loading course data...");;
  '(tasks_data, course_info) ← load_course_data course_path;
  tasks ← lift (py_get tasks_data (lit "tasks") (VList []));
  n ← lift (py_len tasks);
  print Stdout (lit "Loaded " ++ str_of_nat n ++ lit " tasks");;
  name ← lift (py_get course_info (lit "course_name") (VStr (lit "Unknown")));
  print Stdout (lit "Course: " ++ py_str name);;
  mret (tasks_data, course_info).

Definition load_handlers {A} (e : exn) : option (M state A) :=
  match e with
  | FileNotFoundError _ =>
      Some (print Stderr (lit "Error: " ++ exn_str e);; sys_exit 1)
  | JSONDecodeError _ =>
      Some (print Stderr (lit "Error parsing JSON: " ++ exn_str e);; sys_exit 1)
  | _ => None
  end.

(** From [cli_path = find_claude_cli()] up to the second [try]. *)
Definition prepare (course_path : str) : M state ClaudeAgentOptions :=
  let knowledge_base_path := path_join course_path (lit "knowledge_base") in
  cli ← find_claude_cli;
  kb_present ← path_exists knowledge_base_path;
  let options :=
    {| cwd := course_path;
       system_prompt := None;
       allowed_tools := [lit "Read"; lit "Write"; lit "Bash"; lit "Skill"];
       permission_mode := lit "acceptEdits";
       add_dirs := if kb_present : bool then [knowledge_base_path] else [];
       setting_sources := [lit "project"];
       cli_path := cli |} in
  set_counters 0%float 0;;
  print Stdout ([10%N] ++ lit "Connecting to Claude SDK...");;
  print Stdout (lit "Starting autonomous task completion...");;
  print Stdout (rule 45);;
  mret options.

Definition session_handlers {A} (e : exn) : option (M state A) :=
  match e with
  | CLIConnectionError _ =>
      Some (print Stderr ([10%N] ++ lit "Connection error: " ++ exn_str e);;
            print Stdout (lit "Make sure Claude Code CLI is installed and ANTHROPIC_API_KEY is set.");;
            sys_exit 1)
  | KeyboardInterrupt =>
      Some (print Stdout ([10%N; 10%N] ++ lit "Interrupted by user");;
            cost ← gets total_cost;
            print Stdout (lit "Cost so far: $" ++ format_6f cost);;
            sys_exit 0)
  | SystemExit _ => None
  | _ =>
      Some (print Stderr ([10%N] ++ lit "Unexpected error: " ++ exn_str e);;
            print Stderr (format_exc e);;
            sys_exit 1)
  end.

Definition run_autonomous_agent (client : sdk) (course_path : str) : M state unit :=
  banner course_path;;
  present ← path_exists course_path;
  (if present : bool then mret tt
   else raise (FileNotFoundError (lit "Course directory not found: " ++ course_path)));;
  '(tasks_data, course_info) ← try_except (load_phase course_path) load_handlers;
  options ← prepare course_path;
  try_except (session client options tasks_data course_info) session_handlers.

(** [main()], with [sys.argv] and the resolved form of [sys.argv[1]]. *)
Definition main (client : sdk) (argv : list str) : M state unit :=
  match argv with
  | _ :: course_path :: _ => run_autonomous_agent client course_path
  | _ =>
      print Stderr (lit "Usage: ai-student <course_directory>");;
      print Stderr (lit "Example: ai-student courseX");;
      sys_exit 1
  end.

(** What the interpreter does with a finished script: [SystemExit] gives
    its code, any other exception that reaches the top is printed as a
    traceback on standard error, and the exit status is 1 (130 for a
    keyboard interrupt, on POSIX). *)
Definition run_process (script : M state unit) (s : state) : Z * state :=
  match script s with
  | (Ret _, s') => (0, s')
  | (Raise (SystemExit code), s') => (code, s')
  | (Raise KeyboardInterrupt, s') => (130, snd (print Stderr (format_exc KeyboardInterrupt) s'))
  | (Raise e, s') => (1, snd (print Stderr (format_exc e) s'))
  end.

End Agent.
End Agent.

(** * The chapter splitter, [scripts/pdf_restructure.py] *)

Module PdfRestructure.
Section Pdf.
Context `{Runtime}.

(** A page of a PDF document, as [pypdf] hands it over. *)
Variable page : Type.

(** A file is a PDF document, given by its pages, or something else. *)
Inductive node :=
| Dir
| Pdf (pages : list page)
| Other.

Record state := {
  fs : gmap str node;
  environ : gmap str str;
  out : list (stream * str);
}.

Definition print_to (to : stream) (line : str) : M state unit :=
  modify (fun s => {| fs := fs s; environ := environ s; out := out s ++ [(to, line)] |}).

(** Every [print] of this script goes to standard output. *)
Definition print (line : str) : M state unit := print_to Stdout line.

Definition set_node (p : str) (n : node) : M state unit :=
  modify (fun s => {| fs := <[p := n]> (fs s); environ := environ s; out := out s |}).

Definition path_exists (p : str) : M state bool :=
  gets (fun s => bool_decide (is_Some (fs s !! p))).

(** The generative-model service: each call returns or raises. *)
Record genai := {
  upload_file : str -> str -> exn + str;
  generate_content : str -> str -> exn + str;
  delete_file : str -> option exn;
}.

Definition call {A} (r : exn + A) : M state A :=
  match r with
  | inl e => raise e
  | inr a => mret a
  end.

Definition dq : str := [34%N].

Definition example_row (number first last : string) : str :=
  lit "    {" ++ dq ++ lit "chapter_number" ++ dq ++ lit ": " ++ lit number
  ++ lit ", " ++ dq ++ lit "chapter_title" ++ dq ++ lit ": " ++ dq
  ++ lit "Chapter Title" ++ dq ++ lit ", " ++ dq ++ lit "start_page" ++ dq
  ++ lit ": " ++ lit first ++ lit ", " ++ dq ++ lit "end_page" ++ dq
  ++ lit ": " ++ lit last ++ lit "},
".

Definition prompt : str :=
  lit "Analyze this PDF book and identify the exact page numbers where each chapter starts and ends, including all exercises for each chapter.

Return ONLY a valid JSON object with this exact format:
{
  " ++ dq ++ lit "chapters" ++ dq ++ lit ": [
" ++ example_row "1" "5" "45" ++ example_row "2" "46" "89" ++ lit "    ...
  ]
}

Page numbers should be 1-indexed (first page is page 1). Ensure end_page includes all exercises for that chapter. Return ONLY the JSON, no other text.".

(** The fence removal between [response.text] and [json.loads]. *)
Definition strip_fences (text : str) : str :=
  let t := py_strip text in
  let t := if startswith t (lit "```json") then drop 7 t else t in
  let t := if startswith t (lit "```") then drop 3 t else t in
  let t := if endswith t (lit "```") then take (length t - 3) t else t in
  py_strip t.

Definition get_chapter_boundaries (g : genai) (pdf_path api_key : str) : M state value :=
  print (lit "Uploading PDF to Gemini...");;
  file ← call (upload_file g api_key pdf_path);
  print (lit "Analyzing PDF structure...");;
  response_text ← call (generate_content g file prompt);
  result ← match json_loads (strip_fences response_text) with
           | inl msg => raise (JSONDecodeError msg)
           | inr v => mret v
           end;
  match delete_file g file with Some e => raise e | None => mret tt end;;
  lift (py_get result (lit "chapters") (VList [])).

(** [PdfReader(pdf_path)]: the pages of the document, read once. *)
Definition PdfReader (pdf_path : str) : M state (list page) :=
  n ← gets (fun s => fs s !! pdf_path);
  match n with
  | None =>
      raise (FileNotFoundError (lit "[Errno 2] No such file or directory: '"
                                ++ pdf_path ++ lit "'"))
  | Some Dir =>
      raise (IsADirectoryError (lit "[Errno 21] Is a directory: '" ++ pdf_path ++ lit "'"))
  | Some Other => raise (OtherException (lit "PdfReadError") (lit "invalid pdf"))
  | Some (Pdf pages) => mret pages
  end.

(** [with open(output_path, "wb") as f: writer.write(f)], in a directory
    [parent] that has to exist. *)
Definition write_pdf (parent output_path : str) (pages : list page) : M state unit :=
  d ← gets (fun s => fs s !! parent);
  target ← gets (fun s => fs s !! output_path);
  match d, target with
  | Some Dir, Some Dir =>
      raise (IsADirectoryError (lit "[Errno 21] Is a directory: '" ++ output_path ++ lit "'"))
  | Some Dir, _ => set_node output_path (Pdf pages)
  | Some _, _ =>
      raise (OtherException (lit "NotADirectoryError")
               (lit "[Errno 20] Not a directory: '" ++ output_path ++ lit "'"))
  | None, _ =>
      raise (FileNotFoundError (lit "[Errno 2] No such file or directory: '"
                                ++ output_path ++ lit "'"))
  end.

(** The characters the generator inside ["".join(...)] lets through. *)
Fixpoint safe_chars (cs : list value) : outcome str :=
  match cs with
  | [] => Ret []
  | VStr c :: cs' =>
      rest ← safe_chars cs';
      Ret (if str_isalnum c || bool_decide (c ∈ [lit " "; lit "-"; lit "_"])
           then c ++ rest else rest)
  | c :: _ => Raise (no_attribute c "isalnum")
  end.

Definition safe_title (title : value) : outcome str :=
  cs ← py_iter title;
  kept ← safe_chars cs;
  Ret (take 50 (replace_space (py_strip kept))).

Definition output_filename (chapter : value) : outcome str :=
  title ← py_getitem chapter (lit "chapter_title");
  safe ← safe_title title;
  number ← py_getitem chapter (lit "chapter_number");
  nn ← py_format_02d number;
  Ret (lit "Chapter_" ++ nn ++ lit "_" ++ safe ++ lit ".pdf").

(** The pages [writer] holds after the inner loop. *)
Definition chapter_pages (pages : list page) (chapter : value) : outcome (list page) :=
  first ← py_getitem chapter (lit "start_page");
  start_page ← py_sub1 first;
  end_page ← py_getitem chapter (lit "end_page");
  nums ← py_range start_page end_page;
  mapM (seq_getitem pages) nums.

(** The body of [for chapter in chapters]. *)
Definition split_chapter (pages : list page) (output_dir : str) (chapter : value)
    : M state unit :=
  selected ← lift (chapter_pages pages chapter);
  name ← lift (output_filename chapter);
  write_pdf output_dir (path_join output_dir name) selected;;
  first ← lift (py_getitem chapter (lit "start_page"));
  last ← lift (py_getitem chapter (lit "end_page"));
  print (lit "  Created: " ++ name ++ lit " (pages " ++ py_str first ++ lit "-"
         ++ py_str last ++ lit ")").

Definition split_pdf (pdf_path : str) (chapters : value) (output_dir : str) : M state unit :=
  pages ← PdfReader pdf_path;
  n ← lift (py_len chapters);
  print ([10%N] ++ lit "Splitting PDF into " ++ str_of_nat n ++ lit " chapters...");;
  items ← lift (py_iter chapters);
  for_each items (split_chapter pages output_dir).


(** [argparse]'s namespace. *)
Record arguments := {
  pdf_file : str;
  output_dir_arg : option str;
  api_key_arg : option str;
}.

(** [p.parent], [p.name] and [p.stem] *)
Fixpoint rsplit (sep : N) (p : str) : option (str * str) :=
  match p with
  | [] => None
  | c :: p' =>
      match rsplit sep p' with
      | Some (a, b) => Some (c :: a, b)
      | None => if (c =? sep)%N then Some ([], p') else None
      end
  end.

Definition path_parent (p : str) : str :=
  match rsplit 47 p with
  | None => lit "."
  | Some ([], _) => lit "/"
  | Some (a, _) => a
  end.

Definition path_name (p : str) : str :=
  match rsplit 47 p with
  | None => p
  | Some (_, b) => b
  end.

Definition path_stem (p : str) : str :=
  let name := path_name p in
  match rsplit 46 name with
  | Some ((_ :: _) as a, _ :: _) => a
  | _ => name
  end.

(** The ancestors of a path, outermost first. *)
Fixpoint ancestors (seen p : str) : list str :=
  match p with
  | [] => []
  | c :: p' =>
      (if (c =? 47)%N && negb (bool_decide (seen = [])) then [seen] else [])
      ++ ancestors (seen ++ [c]) p'
  end.

(** [p.mkdir(parents=True, exist_ok=True)] *)
Definition mkdir_one (p : str) : M state unit :=
  n ← gets (fun s => fs s !! p);
  match n with
  | None => set_node p Dir
  | Some Dir => mret tt
  | Some _ =>
      raise (OtherException (lit "FileExistsError")
               (lit "[Errno 17] File exists: '" ++ p ++ lit "'"))
  end.

Definition mkdir_parents (p : str) : M state unit :=
  for_each (ancestors [] p ++ [p]) mkdir_one.

(** [except Exception as e: print(f"Error: {e}"); sys.exit(1)] *)
Definition main_handlers {A} (e : exn) : option (M state A) :=
  if is_Exception e
  then Some (print (lit "Error: " ++ exn_str e);; sys_exit 1)
  else None.

(** The line [main] prints for a chapter before splitting. *)
Definition show_chapter (ch : value) : M state unit :=
  number ← lift (py_getitem ch (lit "chapter_number"));
  title ← lift (py_getitem ch (lit "chapter_title"));
  first ← lift (py_getitem ch (lit "start_page"));
  last ← lift (py_getitem ch (lit "end_page"));
  print (lit "  Chapter " ++ py_str number ++ lit ": " ++ py_str title
         ++ lit " (pages " ++ py_str first ++ lit "-" ++ py_str last ++ lit ")").

(** The listing [main] prints between the two [try] blocks; it returns
    [len(chapters)]. *)
Definition announce (chapters : value) : M state nat :=
  n ← lift (py_len chapters);
  print ([10%N] ++ lit "Found " ++ str_of_nat n ++ lit " chapters:");;
  items ← lift (py_iter chapters);
  for_each items show_chapter;;
  mret n.

(** The body of the second [try] of [main]; [n] is [len(chapters)]. *)
Definition split_and_report (pdf_path : str) (chapters : value) (output_dir : str)
    (n : nat) : M state unit :=
  split_pdf pdf_path chapters output_dir;;
  print ([10%N; 10003%N] ++ lit " Successfully split PDF into " ++ str_of_nat n
         ++ lit " chapters");;
  print (lit "  Output directory: " ++ output_dir).

(** [args.api_key or os.getenv("GEMINI_API_KEY")] *)
Definition api_key (args : arguments) (env_key : option str) : option str :=
  match api_key_arg args with
  | Some ((_ :: _) as k) => Some k
  | _ => env_key
  end.

(** [Path(args.output_dir) if args.output_dir else
    pdf_path.parent / f"{pdf_path.stem}_chapters"] *)
Definition output_dir (args : arguments) : str :=
  match output_dir_arg args with
  | Some ((_ :: _) as d) => d
  | _ => path_join (path_parent (pdf_file args)) (path_stem (pdf_file args) ++ lit "_chapters")
  end.

Definition main (g : genai) (args : arguments) : M state unit :=
  let pdf_path := pdf_file args in
  present ← path_exists pdf_path;
  (if present : bool then mret tt
   else print (lit "Error: File not found: " ++ pdf_path);; sys_exit 1);;
  env_key ← gets (fun s => environ s !! lit "GEMINI_API_KEY");
  match api_key args env_key with
  | Some ((_ :: _) as api_key) =>
      let output_dir := output_dir args in
      mkdir_parents output_dir;;
      chapters ← try_except (get_chapter_boundaries g pdf_path api_key) main_handlers;
      (if py_truthy chapters then mret tt
       else print (lit "Error: No chapters identified");; sys_exit 1);;
      n ← announce chapters;
      try_except (split_and_report pdf_path chapters output_dir n) main_handlers
  | _ => print (lit "Error: GEMINI_API_KEY required");; sys_exit 1
  end.

(** What the interpreter does with the finished script. *)
Definition run_process (script : M state unit) (s : state) : Z * state :=
  match script s with
  | (Ret _, s') => (0, s')
  | (Raise (SystemExit code), s') => (code, s')
  | (Raise KeyboardInterrupt, s') =>
      (130, snd (print_to Stderr (format_exc KeyboardInterrupt) s'))
  | (Raise e, s') => (1, snd (print_to Stderr (format_exc e) s'))
  end.

End Pdf.
End PdfRestructure.

(** * The words of the specification *)

(** The list under ["tasks"], or the empty list when the key is absent. *)
Definition task_list (tasks_data : value) : list value :=
  match tasks_data with
  | VDict d =>
      match dict_lookup (lit "tasks") d with
      | Some (VList ts) => ts
      | _ => []
      end
  | _ => []
  end.

(** An entry whose ["status"] field equals ["pending"]. *)
Definition is_pending (t : value) : bool :=
  match t with
  | VDict d =>
      match dict_lookup (lit "status") d with
      | Some (VStr s) => bool_decide (s = lit "pending")
      | _ => false
      end
  | _ => false
  end.

Definition is_dict (v : value) : bool :=
  match v with
  | VDict _ => true
  | _ => false
  end.

(** A well-formed tasks document: an object whose ["tasks"], when present,
    is a list of objects.  Nothing is asked of the fields of an entry. *)
Definition well_formed_tasks (tasks_data : value) : bool :=
  match tasks_data with
  | VDict d =>
      match dict_lookup (lit "tasks") d with
      | None => true
      | Some (VList ts) => forallb is_dict ts
      | Some _ => false
      end
  | _ => false
  end.

(** Source pages [s] through [e] inclusive, pages counted from 1. *)
Definition page_range {page} (pages : list page) (s e : Z) : list page :=
  take (Z.to_nat (e - s + 1)) (drop (Z.to_nat (s - 1)) pages).

(** A chapter-boundary record with all four fields, of the expected types. *)
Record chapter := {
  chapter_number : Z;
  chapter_title : str;
  start_page : Z;
  end_page : Z;
}.

Definition describes (c : chapter) (v : value) : Prop :=
  exists d, v = VDict d
    /\ dict_lookup (lit "chapter_number") d = Some (VInt (chapter_number c))
    /\ dict_lookup (lit "chapter_title") d = Some (VStr (chapter_title c))
    /\ dict_lookup (lit "start_page") d = Some (VInt (start_page c))
    /\ dict_lookup (lit "end_page") d = Some (VInt (end_page c)).

Definition chapter_value (c : chapter) : value :=
  VDict [(lit "chapter_number", VInt (chapter_number c));
         (lit "chapter_title", VStr (chapter_title c));
         (lit "start_page", VInt (start_page c));
         (lit "end_page", VInt (end_page c))].

(** The lines a run has added to one of the two streams. *)
Definition printed (to : stream) (before after : list (stream * str)) : list str :=
  map snd (filter (fun l => fst l = to) (drop (length before) after)).

(** * Sample data *)

Module Sample.

(** A runtime whose JSON parser knows the documents of [table]. *)
Definition runtime (table : list (str * value)) : Runtime := {|
  py_repr := fun _ => lit "<repr>";
  format_6f := fun _ => lit "<float>";
  format_exc := fun e => lit "Traceback (most recent call last): " ++ exn_str e;
  unicode_isalnum := fun _ => false;
  unicode_isspace := fun _ => false;
  json_loads := fun text =>
    match dict_lookup text table with
    | Some v => inr v
    | None => inl (lit "Expecting value: line 1 column 1 (char 0)")
    end;
|}.

Definition tasks_data : value :=
  VDict [(lit "tasks",
          VList [VDict [(lit "id", VInt 1); (lit "status", VStr (lit "pending"))];
                 VDict [(lit "id", VInt 2); (lit "status", VStr (lit "done"))];
                 VDict [(lit "id", VInt 3)]])].

Definition course_info : value := VDict [(lit "course_name", VStr (lit "Logic 101"))].

Definition documents : list (str * value) :=
  [(lit "TASKS", tasks_data); (lit "INFO", course_info); (lit "{}", VDict [])].

(** The runtime of the concrete runs below. *)
Definition rt : Runtime := runtime documents.

Definition course (tasks info : option Agent.node) : Agent.state := {|
  Agent.fs :=
    let base : gmap str Agent.node := {[ lit "/c" := Agent.Dir; lit "/c/todo" := Agent.Dir ]} in
    let with_tasks :=
      match tasks with
      | Some n => <[lit "/c/todo/course_tasks.json" := n]> base
      | None => base
      end in
    match info with
    | Some n => <[lit "/c/todo/course_information.json" := n]> with_tasks
    | None => with_tasks
    end;
  Agent.platform := lit "linux";
  Agent.environ := ∅;
  Agent.out := [];
  Agent.total_cost := 0%float;
  Agent.message_count := 0%nat;
|}.

Definition text (s : string) : option Agent.node := Some (Agent.File (Some (lit s))).

(** A client that connects, sends two messages and ends as [stream_end] says. *)
Definition client (connect stream_end : option exn) : Agent.sdk := {|
  Agent.sdk_connect := fun _ => connect;
  Agent.sdk_query := fun _ _ => None;
  Agent.sdk_messages := fun _ _ =>
    ([Agent.AssistantMessage [Agent.TextBlock (lit "Working on task 1")];
      Agent.ResultMessage (Some 0.5%float)], stream_end);
|}.

Definition argv : list str := [lit "ai-student"; lit "/c"].

(** The options [prepare] builds for the sample course on this host. *)
Definition options : Agent.ClaudeAgentOptions := {|
  Agent.cwd := lit "/c";
  Agent.system_prompt := None;
  Agent.allowed_tools := [lit "Read"; lit "Write"; lit "Bash"; lit "Skill"];
  Agent.permission_mode := lit "acceptEdits";
  Agent.add_dirs := [];
  Agent.setting_sources := [lit "project"];
  Agent.cli_path := None;
|}.

Definition book : PdfRestructure.state nat := {|
  PdfRestructure.fs :=
    {[ lit "/b" := PdfRestructure.Dir nat;
       lit "/b/book.pdf" := PdfRestructure.Pdf nat [10; 11; 12; 13; 14]%nat ]};
  PdfRestructure.environ := {[ lit "GEMINI_API_KEY" := lit "key" ]};
  PdfRestructure.out := [];
|}.

Definition chap (n : Z) (title : string) (s e : Z) : chapter :=
  {| chapter_number := n; chapter_title := lit title; start_page := s; end_page := e |}.

Definition args : PdfRestructure.arguments := {|
  PdfRestructure.pdf_file := lit "/b/book.pdf";
  PdfRestructure.output_dir_arg := None;
  PdfRestructure.api_key_arg := None;
|}.

(** A model service that answers every request with [response]. *)
Definition service (response : exn + str) : PdfRestructure.genai := {|
  PdfRestructure.upload_file := fun _ _ => inr (lit "files/1");
  PdfRestructure.generate_content := fun _ _ => response;
  PdfRestructure.delete_file := fun _ => None;
|}.

End Sample.

(** * The words of the specification, continued *)

(** A missing file, and a file that is there and does not parse: its bytes
    are not UTF-8 text, or the JSON parser rejects the text. *)
Definition missing (s : Agent.state) (p : str) : Prop := Agent.fs s !! p = None.



(** What becomes of a chapter title in a file name: letters, digits,
    spaces, hyphens and underscores are kept, surrounding blanks dropped,
    inner spaces turned into underscores, and at most 50 characters used. *)
Definition kept_char `{Runtime} (c : N) : bool :=
  char_isalnum c || bool_decide (c = 32 \/ c = 45 \/ c = 95)%N.

Definition title_part `{Runtime} (title : str) : str :=
  take 50 (replace_space (py_strip (List.filter kept_char title))).

Definition file_name `{Runtime} (c : chapter) : str :=
  lit "Chapter_" ++ format_02d (chapter_number c) ++ lit "_"
  ++ title_part (chapter_title c) ++ lit ".pdf".

(** The page bounds of a chapter lie within a document of [n] pages (an
    empty range, [end_page < start_page], selects nothing). *)
Definition within (n : nat) (c : chapter) : Prop :=
  start_page c <= end_page c -> 1 <= start_page c /\ end_page c <= Z.of_nat n.

(** The files of a directory tree that are PDF documents. *)
Definition pdf_files {page} (fs : gmap str (PdfRestructure.node page)) : gmap str (list page) :=
  omap (fun n => match n with PdfRestructure.Pdf _ pages => Some pages | _ => None end) fs.

(** Where the file of a chapter goes, and the line printed for it. *)
Definition chapter_path `{Runtime} (dir : str) (c : chapter) : str :=
  path_join dir (file_name c).

Definition created_line `{Runtime} (c : chapter) : str :=
  lit "  Created: " ++ file_name c ++ lit " (pages " ++ str_of_Z (start_page c)
  ++ lit "-" ++ str_of_Z (end_page c) ++ lit ")".

(** What [main] does in its [except Exception as e] clauses. *)
Definition report_error {page} (e : exn) (s : PdfRestructure.state page)
    : outcome unit * PdfRestructure.state page :=
  (Raise (SystemExit 1), snd (PdfRestructure.print page (lit "Error: " ++ exn_str e) s)).

(** * Further behaviour of the two scripts: vocabulary *)

(** What [construct_autonomous_instruction] can count and filter: a list of
    objects, or an empty string or object. *)
Definition countable_tasks (tasks : value) : bool :=
  match tasks with
  | VList ts => forallb is_dict ts
  | VStr [] => true
  | VDict [] => true
  | _ => false
  end.

(** The value [tasks_data.get("tasks", [])] of a tasks object. *)
Definition tasks_of (d : list (str * value)) : value :=
  default (VList []) (dict_lookup (lit "tasks") d).

(** What a run of the agent script leaves alone: the files, the platform
    and the environment; and what it does to the output: it appends. *)
Definition same_host (s s' : Agent.state) : Prop :=
  Agent.fs s' = Agent.fs s
  /\ Agent.platform s' = Agent.platform s
  /\ Agent.environ s' = Agent.environ s.

Definition appends (s s' : Agent.state) : Prop :=
  exists new, Agent.out s' = Agent.out s ++ new.

Definition reads_only {A} (m : M Agent.state A) : Prop :=
  forall s, same_host s (snd (m s)) /\ appends s (snd (m s)).

(** The total after one more message: a result message with a cost that is
    not zero adds its cost. *)
Definition add_cost (total : float) (msg : Agent.message) : float :=
  match msg with
  | Agent.ResultMessage (Some cost) =>
      if PrimFloat.eqb cost 0%float then total else PrimFloat.add total cost
  | _ => total
  end.

Definition is_text_block (b : Agent.block) : bool :=
  match b with
  | Agent.TextBlock _ => true
  | Agent.OtherBlock => false
  end.

(** The lines shown for a message: one for each text block of an assistant
    message, two for a result message with a cost, none otherwise. *)
Definition lines_shown (msg : Agent.message) : nat :=
  match msg with
  | Agent.AssistantMessage content => length (List.filter is_text_block content)
  | Agent.ResultMessage (Some cost) => if PrimFloat.eqb cost 0%float then 0 else 2
  | _ => 0
  end.

(** The characters a title contributes to a file name. *)
Definition file_name_char `{Runtime} (c : N) : Prop :=
  char_isalnum c = true \/ c = 45%N \/ c = 95%N.

(** What the PDF script keeps of the state it starts from: every file and
    directory stays where it is (a file may get new contents), the
    environment is the same, and the lines added to the output are on
    standard output. *)
Definition keeps_files {page} (s s' : PdfRestructure.state page) : Prop :=
  (forall p, is_Some (PdfRestructure.fs page s !! p) ->
             is_Some (PdfRestructure.fs page s' !! p))
  /\ (forall p, PdfRestructure.fs page s !! p = Some (PdfRestructure.Dir page) ->
                PdfRestructure.fs page s' !! p = Some (PdfRestructure.Dir page))
  /\ PdfRestructure.environ page s' = PdfRestructure.environ page s
  /\ exists new,
       PdfRestructure.out page s' = PdfRestructure.out page s ++ new
       /\ Forall (fun l => fst l = Stdout) new.

Definition tidy {page A} (m : M (PdfRestructure.state page) A) : Prop :=
  forall s, keeps_files s (snd (m s)).

(** No usable API key: none on the command line and none in the
    environment, an empty string counting as none. *)
Definition no_api_key {page} (args : PdfRestructure.arguments)
    (s : PdfRestructure.state page) : Prop :=
  (PdfRestructure.api_key_arg args = None \/ PdfRestructure.api_key_arg args = Some [])
  /\ (PdfRestructure.environ page s !! lit "GEMINI_API_KEY" = None
      \/ PdfRestructure.environ page s !! lit "GEMINI_API_KEY" = Some []).

(** A directory as [pathlib] writes it: not empty, no slash at the end, and
    no empty or "." component. *)
Fixpoint occurs (sub s : str) : bool :=
  startswith s sub
  || match s with
     | [] => false
     | _ :: s' => occurs sub s'
     end.

Definition plain_directory (dir : str) : Prop :=
  dir <> [] /\ last dir <> Some 47%N
  /\ occurs (lit "//") dir = false
  /\ occurs (lit "/./") (lit "/" ++ dir ++ lit "/") = false.

(** The line [main] prints for a chapter in its listing. *)
Definition listed_line (c : chapter) : str :=
  lit "  Chapter " ++ str_of_Z (chapter_number c) ++ lit ": " ++ chapter_title c
  ++ lit " (pages " ++ str_of_Z (start_page c) ++ lit "-" ++ str_of_Z (end_page c)
  ++ lit ")".

Definition on_stdout (lines : list str) : list (stream * str) :=
  map (fun line => (Stdout, line)) lines.

(** * More sample data *)

Module Runs.

Definition chapters : list chapter :=
  [Sample.chap 1 "Intro" 1 2; Sample.chap 2 "Methods" 3 5].

(** A record without "chapter_number". *)
Definition untitled : list (str * value) :=
  [(lit "chapter_title", VStr (lit "Appendix")); (lit "start_page", VInt 5);
   (lit "end_page", VInt 5)].

Definition documents : list (str * value) :=
  Sample.documents
  ++ [(lit "[ ]", VList []);
      (lit "CHAPTERS", VDict [(lit "chapters", VList (map chapter_value chapters))]);
      (lit "BROKEN",
       VDict [(lit "chapters",
               VList (map chapter_value chapters ++ [VDict untitled]))])].

Definition rt : Runtime := Sample.runtime documents.

Definition messages : list Agent.message :=
  [Agent.AssistantMessage [Agent.TextBlock (lit "Working on task 1")];
   Agent.ResultMessage (Some 0.5%float)].

(** A Windows host with the CLI installed through npm. *)
Definition windows : Agent.state := {|
  Agent.fs :=
    {[ lit "C:/course" := Agent.Dir;
       lit "C:/course/knowledge_base" := Agent.Dir;
       lit "C:/Users/a/AppData/npm/claude.cmd" := Agent.File (Some (lit "@echo off")) ]};
  Agent.platform := lit "win32";
  Agent.environ := {[ lit "APPDATA" := lit "C:/Users/a/AppData" ]};
  Agent.out := [];
  Agent.total_cost := 1%float;
  Agent.message_count := 7%nat;
|}.

Definition windows_options : Agent.ClaudeAgentOptions := {|
  Agent.cwd := lit "C:/course";
  Agent.system_prompt := None;
  Agent.allowed_tools := [lit "Read"; lit "Write"; lit "Bash"; lit "Skill"];
  Agent.permission_mode := lit "acceptEdits";
  Agent.add_dirs := [lit "C:/course/knowledge_base"];
  Agent.setting_sources := [lit "project"];
  Agent.cli_path := Some (lit "C:/Users/a/AppData/npm/claude.cmd");
|}.

(** The sample book on a host without an API key. *)
Definition book_without_key : PdfRestructure.state nat := {|
  PdfRestructure.fs := PdfRestructure.fs nat Sample.book;
  PdfRestructure.environ := ∅;
  PdfRestructure.out := [];
|}.

Definition other_args : PdfRestructure.arguments := {|
  PdfRestructure.pdf_file := lit "/b/thesis.pdf";
  PdfRestructure.output_dir_arg := None;
  PdfRestructure.api_key_arg := None;
|}.

Definition pages : list nat := [10; 11; 12; 13; 14]%nat.

End Runs.

(** * Verification *)

(** ** Stepping through effectful code *)

Lemma bind_run {S A B} (m : M S A) (f : A -> M S B) (s : S) :
  (m ≫= f) s = match m s with
               | (Ret a, s') => f a s'
               | (Raise e, s') => (Raise e, s')
               end.
Proof. reflexivity. Qed.
Lemma lift_run_ret {S A B} (a : A) (f : A -> M S B) (s : S) :
  (lift (Ret a) ≫= f) s = f a s.
Proof. reflexivity. Qed.
Lemma lift_run_raise {S A B} (e : exn) (f : A -> M S B) (s : S) :
  (lift (Raise e) ≫= f) s = (Raise e, s).
Proof. reflexivity. Qed.

Ltac unfold_M :=
  unfold mbind, M_bind, mret, M_ret, gets, raise, lift, modify, sys_exit in *;
  cbv beta iota in *.

Lemma contains_middle (a b c : str) : contains (a ++ b ++ c) b.
Proof. by exists a, c. Qed.

Lemma contains_suffix (a b : str) : contains (a ++ b) b.
Proof. exists a, []. by rewrite app_nil_r. Qed.

Lemma contains_cons (c : N) (a b : str) : contains a b -> contains (c :: a) b.
Proof. intros (pre & post & ->). by exists (c :: pre), post. Qed.

(** ** The agent runner *)

Section AgentProofs.
Context `{Runtime}.

Lemma prompt_contains_counts name n k :
  contains (Agent.prompt_text name n k) (Agent.counts_sentence n k).
Proof.
  unfold Agent.prompt_text.
  rewrite !(assoc_L (++) _ _ (Agent.counts_sentence n k ++ _)).
  apply contains_middle.
Qed.

Lemma filterM_dicts (ts : list value) :
  forallb is_dict ts = true ->
  filterM Agent.status_is_pending ts = Ret (List.filter is_pending ts).
Proof.
  induction ts as [|t ts IH]; [done|].
  cbn [forallb]. intros [Ht Hts]%andb_prop.
  destruct t; try discriminate.
  cbn [filterM List.filter]. rewrite (IH Hts).
  unfold Agent.status_is_pending, py_get, is_pending, py_eq_str.
  cbn. destruct (dict_lookup (lit "status") d) as [[]|]; reflexivity.
Qed.

Lemma filterM_length {A} (p : A -> outcome bool) xs ys :
  filterM p xs = Ret ys -> (length ys <= length xs)%nat.
Proof.
  revert ys. induction xs as [|x xs IH]; intros ys.
  - intros [= <-]. done.
  - cbn [filterM]. destruct (p x) as [b|e]; [|discriminate].
    cbn. destruct (filterM p xs) as [rest|e]; [|discriminate].
    cbn. intros [= <-]. specialize (IH rest eq_refl).
    destruct b; cbn; lia.
Qed.

Lemma len_iter v n items :
  py_len v = Ret n -> py_iter v = Ret items -> length items = n.
Proof.
  destruct v; try discriminate; cbn; intros [= <-] [= <-];
    rewrite ?length_map; reflexivity.
Qed.

Lemma construct_on_well_formed (tasks_data : value) (ci : list (str * value)) :
  well_formed_tasks tasks_data = true ->
  Agent.construct_autonomous_instruction tasks_data (VDict ci)
  = Ret (Agent.prompt_text
           (py_str (default (VStr (lit "Unknown Course")) (dict_lookup (lit "course_name") ci)))
           (length (task_list tasks_data))
           (length (List.filter is_pending (task_list tasks_data)))).
Proof.
  intros Ht.
  destruct tasks_data as [| | | | | |d]; try discriminate.
  unfold Agent.construct_autonomous_instruction, well_formed_tasks, task_list in *.
  cbn [py_get mbind outcome_bind].
  destruct (dict_lookup (lit "tasks") d) as [[]|] eqn:E; try discriminate;
    cbn [default from_option id py_len py_iter mbind outcome_bind].
  - by rewrite (filterM_dicts _ Ht).
  - reflexivity.
Qed.

(** C1: on well-formed documents the prompt states the number of entries of
    the "tasks" list (0 when the key is absent) and the number of those
    entries whose "status" equals "pending". *)
Theorem prompt_states_task_counts (tasks_data course_info : value) :
  well_formed_tasks tasks_data = true ->
  is_dict course_info = true ->
  exists p,
    Agent.construct_autonomous_instruction tasks_data course_info = Ret p
    /\ contains p (Agent.counts_sentence
                     (length (task_list tasks_data))
                     (length (List.filter is_pending (task_list tasks_data)))).
Proof.
  intros Ht Hc.
  destruct course_info as [| | | | | |ci]; try discriminate.
  rewrite (construct_on_well_formed _ ci Ht).
  eexists; split; [reflexivity|]. apply prompt_contains_counts.
Qed.

(** C9: whenever a prompt is produced, the pending count it embeds is the
    length of a filtered sub-list of the items whose number is the total
    count it embeds, hence at most that total. *)
Theorem pending_count_at_most_total (tasks_data course_info : value) (p : str) :
  Agent.construct_autonomous_instruction tasks_data course_info = Ret p ->
  exists course_name tasks items pending_tasks total_tasks,
    py_get tasks_data (lit "tasks") (VList []) = Ret tasks
    /\ py_len tasks = Ret total_tasks
    /\ py_iter tasks = Ret items
    /\ filterM Agent.status_is_pending items = Ret pending_tasks
    /\ p = Agent.prompt_text course_name total_tasks (length pending_tasks)
    /\ (length pending_tasks <= total_tasks)%nat.
Proof.
  unfold Agent.construct_autonomous_instruction.
  destruct (py_get course_info _ _) as [name|]; [|discriminate].
  cbn [mbind outcome_bind].
  destruct (py_get tasks_data _ _) as [tasks|] eqn:Hget; [|discriminate].
  cbn [mbind outcome_bind].
  destruct (py_len tasks) as [n|] eqn:Hlen; [|discriminate].
  cbn [mbind outcome_bind].
  destruct (py_iter tasks) as [items|] eqn:Hiter; [|discriminate].
  cbn [mbind outcome_bind].
  destruct (filterM _ items) as [pending|] eqn:Hf; [|discriminate].
  cbn [mbind outcome_bind]. intros [= <-].
  exists (py_str name), tasks, items, pending, n.
  repeat split; try done.
  rewrite <- (len_iter _ _ _ Hlen Hiter). by eapply filterM_length.
Qed.

Lemma json_load_file_frame p s : snd (Agent.json_load_file p s) = s.
Proof.
  unfold Agent.json_load_file. unfold_M.
  destruct (Agent.fs s !! p) as [[|[text|]]|]; try reflexivity.
  destruct (json_loads text); reflexivity.
Qed.

Lemma json_load_file_parsed p s text v :
  Agent.fs s !! p = Some (Agent.File (Some text)) ->
  json_loads text = inr v ->
  Agent.json_load_file p s = (Ret v, s).
Proof.
  intros Hp Hv. unfold Agent.json_load_file. unfold_M.
  by rewrite Hp, Hv.
Qed.

Lemma load_course_data_frame dir s : snd (Agent.load_course_data dir s) = s.
Proof.
  unfold Agent.load_course_data, Agent.path_exists. unfold_M.
  case_bool_decide; [|reflexivity].
  case_bool_decide; [|reflexivity].
  pose proof (json_load_file_frame (Agent.tasks_file dir) s) as F1.
  destruct (Agent.json_load_file _ s) as [[v1|e1] s1]; cbn in F1; subst s1; [|reflexivity].
  pose proof (json_load_file_frame (Agent.info_file dir) s) as F2.
  destruct (Agent.json_load_file _ s) as [[v2|e2] s2]; cbn in F2; subst s2; reflexivity.
Qed.

(** C7: loading the course data returns the state of the file system it was
    given, whatever it returns or raises, and what it returns for two
    parseable files is the pair of their parsed contents. *)
Theorem load_course_data_reads_only (dir : str) (s : Agent.state) :
  snd (Agent.load_course_data dir s) = s
  /\ forall t1 t2 v1 v2,
       Agent.fs s !! Agent.tasks_file dir = Some (Agent.File (Some t1)) ->
       Agent.fs s !! Agent.info_file dir = Some (Agent.File (Some t2)) ->
       json_loads t1 = inr v1 ->
       json_loads t2 = inr v2 ->
       fst (Agent.load_course_data dir s) = Ret (v1, v2).
Proof.
  split; [apply load_course_data_frame|].
  intros t1 t2 v1 v2 H1 H2 P1 P2.
  unfold Agent.load_course_data, Agent.path_exists. unfold_M.
  rewrite !bool_decide_eq_true_2 by (rewrite ?H1, ?H2; eauto).
  rewrite (json_load_file_parsed _ _ _ _ H1 P1), (json_load_file_parsed _ _ _ _ H2 P2).
  reflexivity.
Qed.
Lemma banner_run dir s : Agent.banner dir s = (Ret tt, snd (Agent.banner dir s)).
Proof. reflexivity. Qed.

Lemma banner_fs dir s : Agent.fs (snd (Agent.banner dir s)) = Agent.fs s.
Proof. reflexivity. Qed.

Lemma print_run to line s :
  Agent.print to line s =
    (Ret tt, {| Agent.fs := Agent.fs s; Agent.platform := Agent.platform s;
                Agent.environ := Agent.environ s;
                Agent.out := Agent.out s ++ [(to, line)];
                Agent.total_cost := Agent.total_cost s;
                Agent.message_count := Agent.message_count s |}).
Proof. reflexivity. Qed.

Lemma run_agent_eq client dir s :
  Agent.run_autonomous_agent client dir s =
    let s0 := snd (Agent.banner dir s) in
    if bool_decide (is_Some (Agent.fs s !! dir)) then
      match Agent.load_phase dir s0 with
      | (Ret (td, ci), s1) =>
          match Agent.prepare dir s1 with
          | (Ret opts, s2) =>
              try_except (Agent.session client opts td ci) Agent.session_handlers s2
          | (Raise e, s2) => (Raise e, s2)
          end
      | (Raise e, s1) =>
          match Agent.load_handlers (A:=unit) e with
          | Some h => h s1
          | None => (Raise e, s1)
          end
      end
    else (Raise (FileNotFoundError (lit "Course directory not found: " ++ dir)), s0).
Proof.
  unfold Agent.run_autonomous_agent.
  rewrite bind_run, banner_run. cbv zeta.
  rewrite bind_run. unfold Agent.path_exists at 1, gets at 1.
  rewrite banner_fs. case_bool_decide.
  - rewrite bind_run. unfold mret at 1, M_ret at 1.
    rewrite bind_run. unfold try_except at 1.
    destruct (Agent.load_phase dir _) as [[[td ci]|e] s1].
    + rewrite bind_run. by destruct (Agent.prepare dir s1) as [[opts|e] s2].
    + by destruct e.
  - reflexivity.
Qed.

Lemma py_get_raises v k d e : py_get v k d = Raise e -> is_Exception e = true.
Proof. destruct v; cbn; intros [= <-]; reflexivity. Qed.

Lemma py_len_raises v e : py_len v = Raise e -> is_Exception e = true.
Proof. destruct v; cbn; intros [= <-]; reflexivity. Qed.

Lemma json_load_file_raises p s e s' :
  Agent.json_load_file p s = (Raise e, s') -> is_Exception e = true.
Proof.
  unfold Agent.json_load_file. unfold_M.
  destruct (Agent.fs s !! p) as [[|[text|]]|]; try (intros [= <- _]; reflexivity).
  destruct (json_loads text); intros [= <- _]; reflexivity.
Qed.

Lemma load_course_data_raises dir s e s' :
  Agent.load_course_data dir s = (Raise e, s') -> is_Exception e = true.
Proof.
  unfold Agent.load_course_data, Agent.path_exists. unfold_M.
  case_bool_decide; [|intros [= <- _]; reflexivity].
  case_bool_decide; [|intros [= <- _]; reflexivity].
  destruct (Agent.json_load_file (Agent.tasks_file dir) s) as [[v1|e1] s1] eqn:E1.
  - destruct (Agent.json_load_file (Agent.info_file dir) s1) as [[v2|e2] s2] eqn:E2.
    + discriminate.
    + intros [= <- _]. eauto using json_load_file_raises.
  - intros [= <- _]. eauto using json_load_file_raises.
Qed.

Lemma load_phase_raises dir s e s' :
  Agent.load_phase dir s = (Raise e, s') -> is_Exception e = true.
Proof.
  unfold Agent.load_phase. rewrite bind_run, print_run, bind_run.
  destruct (Agent.load_course_data dir _) as [[[td ci]|e1] s1] eqn:E1.
  - unfold_M.
    destruct (py_get td _ _) as [tasks|e2] eqn:E2;
      [|intros [= <- _]; eauto using py_get_raises].
    destruct (py_len tasks) as [n|e3] eqn:E3;
      [|intros [= <- _]; eauto using py_len_raises].
    rewrite print_run.
    destruct (py_get ci _ _) as [name|e4] eqn:E4;
      [|intros [= <- _]; eauto using py_get_raises].
    rewrite print_run. discriminate.
  - intros [= <- _]. eauto using load_course_data_raises.
Qed.



Lemma find_claude_cli_returns s : exists cli, Agent.find_claude_cli s = (Ret cli, s).
Proof.
  unfold Agent.find_claude_cli, Agent.path_exists. unfold_M.
  case_bool_decide; [|eauto].
  destruct (Agent.environ s !! lit "APPDATA") as [[|c appdata]|]; [eauto| |eauto].
  case_bool_decide; eauto.
Qed.

Lemma prepare_returns dir s : exists opts s', Agent.prepare dir s = (Ret opts, s').
Proof.
  unfold Agent.prepare. rewrite bind_run.
  destruct (find_claude_cli_returns s) as [cli ->].
  cbv zeta. rewrite bind_run. unfold Agent.path_exists at 1, gets at 1.
  eexists _, _. reflexivity.
Qed.

Lemma uncaught_exit_1 (e : exn) (s s' : Agent.state) (script : M Agent.state unit) :
  script s = (Raise e, s') -> is_Exception e = true ->
  fst (Agent.run_process script s) = 1.
Proof.
  intros Hrun He. unfold Agent.run_process. rewrite Hrun.
  destruct e; try discriminate; reflexivity.
Qed.

Lemma exit_status (code : Z) (s s' : Agent.state) (script : M Agent.state unit) :
  script s = (Raise (SystemExit code), s') ->
  Agent.run_process script s = (code, s').
Proof. intros Hrun. unfold Agent.run_process. by rewrite Hrun. Qed.



Lemma show_block_returns b s : exists s', Agent.show_block b s = (Ret tt, s').
Proof.
  destruct b as [text|]; cbn [Agent.show_block]; [|by eexists].
  case_bool_decide; rewrite print_run; by eexists.
Qed.

Lemma for_each_returns {S A} (body : A -> M S unit) (xs : list A) :
  (forall x s, exists s', body x s = (Ret tt, s')) ->
  forall s, exists s', for_each xs body s = (Ret tt, s').
Proof.
  intros Hbody. induction xs as [|x xs IH]; intros s; cbn [for_each].
  - by eexists.
  - rewrite bind_run. destruct (Hbody x s) as [s1 ->]. apply IH.
Qed.

Lemma handle_message_returns msg s : exists s', Agent.handle_message msg s = (Ret tt, s').
Proof.
  unfold Agent.handle_message. unfold_M. unfold Agent.set_counters. unfold_M.
  destruct msg as [content|[cost|]|]; try by eexists.
  - apply for_each_returns, show_block_returns.
  - destruct (negb _); by eexists.
Qed.



End AgentProofs.

(** ** The chapter splitter *)

Section PdfProofs.
Context `{Runtime}.
Variable page : Type.

Local Abbreviation state := (PdfRestructure.state page).
Local Abbreviation Pdf := (PdfRestructure.Pdf page).
Local Abbreviation Dir := (PdfRestructure.Dir page).

(** *** Selecting pages *)

Lemma seq_getitem_nat (pages : list page) (k : nat) (x : page) :
  pages !! k = Some x -> seq_getitem pages (Z.of_nat k) = Ret x.
Proof.
  intros Hk. unfold seq_getitem.
  pose proof (lookup_lt_Some _ _ _ Hk) as Hlt.
  replace (Z.of_nat k <? 0) with false by lia.
  replace (0 <=? Z.of_nat k) with true by lia.
  replace (Z.of_nat k <? Z.of_nat (length pages)) with true by lia.
  cbn [andb]. by rewrite Nat2Z.id, Hk.
Qed.

Lemma mapM_pages (pages : list page) (n k : nat) :
  (k + n <= length pages)%nat ->
  mapM (seq_getitem pages) (map Z.of_nat (seq k n)) = Ret (take n (drop k pages)).
Proof.
  revert k. induction n as [|n IH]; intros k Hk; [done|].
  cbn [seq map mapM].
  destruct (lookup_lt_is_Some_2 pages k ltac:(lia)) as [x Hx].
  rewrite (seq_getitem_nat _ _ _ Hx). cbn [mbind outcome_bind].
  rewrite IH by lia. cbn [mbind outcome_bind].
  by rewrite (drop_S _ _ _ Hx).
Qed.

Lemma chapter_pages_range (pages : list page) (c : chapter) (v : value) :
  describes c v ->
  within (length pages) c ->
  PdfRestructure.chapter_pages page pages v
  = Ret (page_range pages (start_page c) (end_page c)).
Proof.
  intros (d & -> & _ & _ & Hs & He) Hin.
  unfold PdfRestructure.chapter_pages, py_getitem. rewrite Hs, He.
  cbn [mbind outcome_bind py_sub1 py_range py_index].
  unfold page_range, within in *.
  replace (end_page c - (start_page c - 1)) with (end_page c - start_page c + 1) by lia.
  destruct (decide (start_page c <= end_page c)) as [Hle|Hgt].
  - destruct (Hin Hle) as [H1 Hn].
    replace (map _ (seq 0 _))
      with (map Z.of_nat (seq (Z.to_nat (start_page c - 1))
                              (Z.to_nat (end_page c - start_page c + 1)))).
    + apply mapM_pages. lia.
    + rewrite <- (Nat.add_0_r (Z.to_nat (start_page c - 1))) at 1.
      rewrite <- fmap_add_seq, <- list_fmap_compose.
      apply list_fmap_ext. intros _ i _. cbn. lia.
  - by replace (Z.to_nat (end_page c - start_page c + 1)) with 0%nat by lia.
Qed.

(** *** File names *)

Lemma safe_chars_filter (t : str) :
  PdfRestructure.safe_chars (map (fun c => VStr [c]) t) = Ret (List.filter kept_char t).
Proof.
  induction t as [|c t IH]; [done|].
  cbn [map PdfRestructure.safe_chars List.filter]. rewrite IH.
  cbn [mbind outcome_bind]. f_equal.
  assert (str_isalnum [c] || bool_decide ([c] ∈ [lit " "; lit "-"; lit "_"])
          = kept_char c) as ->; [|by destruct (kept_char c)].
  unfold str_isalnum, kept_char. cbn [forallb].
  rewrite bool_decide_eq_false_2 by done. cbn [negb andb]. rewrite andb_true_r.
  f_equal. apply bool_decide_ext.
  change (lit " ") with [32%N]. change (lit "-") with [45%N]. change (lit "_") with [95%N].
  rewrite !elem_of_cons, elem_of_nil.
  split; [intros [E | [E | [E | E] ] ]; [injection E as ->; tauto..|destruct E]|intros [-> | [-> | ->] ]; tauto].
Qed.

Lemma output_filename_describes (c : chapter) (v : value) :
  describes c v -> PdfRestructure.output_filename v = Ret (file_name c).
Proof.
  intros (d & -> & Hn & Ht & _ & _).
  unfold PdfRestructure.output_filename, py_getitem. rewrite Hn, Ht.
  cbn [mbind outcome_bind]. unfold PdfRestructure.safe_title.
  cbn [py_iter mbind outcome_bind]. by rewrite safe_chars_filter.
Qed.


(** *** Writing one chapter *)

Lemma split_chapter_writes (pages : list page) (dir : str) (c : chapter) (v : value)
    (s : state) :
  describes c v ->
  within (length pages) c ->
  PdfRestructure.fs page s !! dir = Some Dir ->
  PdfRestructure.fs page s !! chapter_path dir c <> Some Dir ->
  PdfRestructure.split_chapter page pages dir v s
  = (Ret tt,
     {| PdfRestructure.fs :=
          <[chapter_path dir c := Pdf (page_range pages (start_page c) (end_page c))]>
            (PdfRestructure.fs page s);
        PdfRestructure.environ := PdfRestructure.environ page s;
        PdfRestructure.out := PdfRestructure.out page s ++ [(Stdout, created_line c)] |}).
Proof.
  intros Hd Hin Hdir Htarget. unfold PdfRestructure.split_chapter.
  rewrite (chapter_pages_range _ _ _ Hd Hin), lift_run_ret.
  rewrite (output_filename_describes _ _ Hd), lift_run_ret.
  destruct Hd as (d & -> & _ & _ & Hs & He).
  unfold py_getitem. rewrite Hs, He.
  unfold PdfRestructure.write_pdf. unfold_M. fold (chapter_path dir c) in *.
  rewrite Hdir.
  destruct (PdfRestructure.fs page s !! chapter_path dir c) as [[]|]; done.
Qed.


Lemma path_join_inj (dir a b : str) : path_join dir a = path_join dir b -> a = b.
Proof.
  unfold path_join. repeat case_bool_decide; intros E; simplify_list_eq; done.
Qed.

Lemma file_name_head (c : chapter) : exists rest, file_name c = 67%N :: rest.
Proof. unfold file_name. change (lit "Chapter_") with (67%N :: lit "hapter_"). by eexists. Qed.

Lemma chapter_path_ne_dir (dir : str) (c : chapter) : chapter_path dir c <> dir.
Proof.
  unfold chapter_path, path_join. destruct (file_name_head c) as [rest ->].
  repeat case_bool_decide; intros E; subst; try discriminate;
    apply (f_equal length) in E; rewrite ?length_app in E; cbn in E; lia.
Qed.

Lemma split_chapters (pages : list page) (dir : str) (cs : list chapter) (vs : list value) :
  Forall2 describes cs vs ->
  forall s : state,
  Forall (within (length pages)) cs ->
  NoDup (map file_name cs) ->
  PdfRestructure.fs page s !! dir = Some Dir ->
  Forall (fun c => PdfRestructure.fs page s !! chapter_path dir c <> Some Dir) cs ->
  exists s',
    for_each vs (PdfRestructure.split_chapter page pages dir) s = (Ret tt, s')
    /\ (forall c, c ∈ cs ->
          PdfRestructure.fs page s' !! chapter_path dir c
          = Some (Pdf (page_range pages (start_page c) (end_page c))))
    /\ (forall p, p ∉ map (chapter_path dir) cs ->
          PdfRestructure.fs page s' !! p = PdfRestructure.fs page s !! p)
    /\ PdfRestructure.out page s'
       = PdfRestructure.out page s ++ map (fun c => (Stdout, created_line c)) cs.
Proof.
  induction 1 as [|c v cs vs Hd _ IH]; intros s Hin Hnd Hdir Htarget.
  - exists s. cbn [for_each map]. rewrite app_nil_r. split_and!; try done.
    intros c Hc. by apply elem_of_nil in Hc.
  - apply Forall_cons in Hin as [Hin1 Hin], Htarget as [Ht1 Htarget].
    cbn [map] in Hnd. apply NoDup_cons in Hnd as [Hfresh Hnd].
    cbn [for_each]. rewrite bind_run, (split_chapter_writes _ _ _ _ _ Hd Hin1 Hdir Ht1).
    match goal with |- context [for_each vs _ ?s1] => set (s1' := s1) end.
    destruct (IH s1' Hin Hnd) as (s' & Hrun & Hfiles & Hframe & Hout).
    { cbn. rewrite lookup_insert_ne; [done|apply chapter_path_ne_dir]. }
    { eapply Forall_impl; [exact Htarget|]. cbn. intros c' Hc'.
      rewrite lookup_insert. case_decide; [done|exact Hc']. }
    assert (chapter_path dir c ∉ map (chapter_path dir) cs) as Hnew.
    { intros (c' & Heq & Hc')%list_elem_of_fmap. apply Hfresh.
      apply list_elem_of_fmap. exists c'. split; [|done].
      by apply (path_join_inj dir). }
    exists s'. split_and!; [done| | |].
    + intros c' [->|Hc']%elem_of_cons; [|by apply Hfiles].
      rewrite (Hframe _ Hnew). cbn. apply lookup_insert_eq.
    + intros p Hp. cbn [map] in Hp. apply not_elem_of_cons in Hp as [Hne Hp].
      rewrite (Hframe _ Hp). cbn. by apply lookup_insert_ne.
    + rewrite Hout. cbn. by rewrite <- app_assoc.
Qed.

(** C2, amended: for a list of N chapter records with all four fields,
    page bounds inside the document and pairwise distinct file names,
    written into an existing directory, [split_pdf] returns, the N paths it
    writes are distinct, each holds the source pages [start_page] through
    [end_page] inclusive, and nothing else in the file system changes. *)
Theorem split_pdf_writes_each_chapter (pdf_path dir : str) (pages : list page)
    (cs : list chapter) (vs : list value) (s : state) :
  PdfRestructure.fs page s !! pdf_path = Some (Pdf pages) ->
  PdfRestructure.fs page s !! dir = Some Dir ->
  Forall2 describes cs vs ->
  Forall (within (length pages)) cs ->
  NoDup (map file_name cs) ->
  Forall (fun c => PdfRestructure.fs page s !! chapter_path dir c <> Some Dir) cs ->
  exists s',
    PdfRestructure.split_pdf page pdf_path (VList vs) dir s = (Ret tt, s')
    /\ length (map (chapter_path dir) cs) = length vs
    /\ NoDup (map (chapter_path dir) cs)
    /\ (forall c, c ∈ cs ->
          PdfRestructure.fs page s' !! chapter_path dir c
          = Some (Pdf (page_range pages (start_page c) (end_page c))))
    /\ (forall p, p ∉ map (chapter_path dir) cs ->
          PdfRestructure.fs page s' !! p = PdfRestructure.fs page s !! p).
Proof.
  intros Hpdf Hdir Hd Hin Hnd Htarget.
  unfold PdfRestructure.split_pdf, PdfRestructure.PdfReader.
  rewrite !bind_run. unfold gets at 1. rewrite Hpdf. unfold mret at 1, M_ret at 1.
  cbn [py_len py_iter]. rewrite lift_run_ret, bind_run.
  unfold PdfRestructure.print at 1, PdfRestructure.print_to at 1, modify at 1.
  rewrite lift_run_ret.
  match goal with |- context [for_each vs _ ?s1] => set (s1' := s1) end.
  destruct (split_chapters pages dir cs vs Hd s1' Hin Hnd Hdir Htarget)
    as (s' & Hrun & Hfiles & Hframe & _).
  exists s'. split_and!; try done.
  - rewrite length_map. by eapply Forall2_length.
  - replace (map (chapter_path dir) cs) with (map (path_join dir) (map file_name cs))
      by (by rewrite map_map).
    assert (Inj (=) (=) (path_join dir)) by (intros a b; apply path_join_inj).
    by apply (NoDup_fmap_2 (path_join dir)).
Qed.


(** *** The script as a whole *)

Lemma pdf_print_run line (s : state) :
  PdfRestructure.print page line s
  = (Ret tt, {| PdfRestructure.fs := PdfRestructure.fs page s;
                PdfRestructure.environ := PdfRestructure.environ page s;
                PdfRestructure.out := PdfRestructure.out page s ++ [(Stdout, line)] |}).
Proof. reflexivity. Qed.

Lemma pdf_main_eq (g : PdfRestructure.genai) (args : PdfRestructure.arguments) (s : state) :
  PdfRestructure.main page g args s =
    let pdf_path := PdfRestructure.pdf_file args in
    let dir := PdfRestructure.output_dir args in
    if bool_decide (is_Some (PdfRestructure.fs page s !! pdf_path)) then
      match PdfRestructure.api_key args (PdfRestructure.environ page s !! lit "GEMINI_API_KEY") with
      | Some ((_ :: _) as key) =>
          match PdfRestructure.mkdir_parents page dir s with
          | (Ret _, s0) =>
              match PdfRestructure.get_chapter_boundaries page g pdf_path key s0 with
              | (Ret chapters, s1) =>
                  if py_truthy chapters then
                    match PdfRestructure.announce page chapters s1 with
                    | (Ret n, s2) =>
                        match PdfRestructure.split_and_report page pdf_path chapters dir n s2 with
                        | (Ret _, s3) => (Ret tt, s3)
                        | (Raise e, s3) =>
                            if is_Exception e then report_error e s3 else (Raise e, s3)
                        end
                    | (Raise e, s2) => (Raise e, s2)
                    end
                  else
                    (Raise (SystemExit 1),
                     snd (PdfRestructure.print page (lit "Error: No chapters identified") s1))
              | (Raise e, s1) =>
                  if is_Exception e then report_error e s1 else (Raise e, s1)
              end
          | (Raise e, s0) => (Raise e, s0)
          end
      | _ =>
          (Raise (SystemExit 1),
           snd (PdfRestructure.print page (lit "Error: GEMINI_API_KEY required") s))
      end
    else
      (Raise (SystemExit 1),
       snd (PdfRestructure.print page (lit "Error: File not found: " ++ pdf_path) s)).
Proof.
  unfold PdfRestructure.main. cbv zeta.
  rewrite bind_run. unfold PdfRestructure.path_exists at 1, gets at 1.
  case_bool_decide; [|reflexivity].
  rewrite bind_run. unfold mret at 1, M_ret at 1.
  rewrite bind_run. unfold gets at 1.
  destruct (PdfRestructure.api_key args _) as [[|c key]|]; [reflexivity| |reflexivity].
  rewrite bind_run.
  destruct (PdfRestructure.mkdir_parents page _ s) as [[[]|e] s0]; [|reflexivity].
  rewrite bind_run. unfold try_except at 1.
  destruct (PdfRestructure.get_chapter_boundaries page g _ _ s0) as [[chapters|e] s1].
  - rewrite bind_run. destruct (py_truthy chapters); [|reflexivity].
    unfold mret at 1, M_ret at 1. rewrite bind_run.
    destruct (PdfRestructure.announce page chapters s1) as [[n|e] s2]; [|reflexivity].
    unfold try_except.
    destruct (PdfRestructure.split_and_report page _ _ _ _ s2) as [[[]|e] s3]; [reflexivity|].
    unfold PdfRestructure.main_handlers. by destruct (is_Exception e).
  - unfold PdfRestructure.main_handlers. by destruct (is_Exception e).
Qed.

Lemma pdf_files_mkdir (p : str) (s s' : state) :
  PdfRestructure.mkdir_one page p s = (Ret tt, s') ->
  pdf_files (PdfRestructure.fs page s') = pdf_files (PdfRestructure.fs page s)
  /\ PdfRestructure.out page s' = PdfRestructure.out page s.
Proof.
  unfold PdfRestructure.mkdir_one, PdfRestructure.set_node. unfold_M.
  destruct (PdfRestructure.fs page s !! p) as [[]|] eqn:E; try discriminate.
  - by intros [= <-].
  - intros [= <-]. cbn. split; [|done]. unfold pdf_files.
    apply map_eq. intros q. rewrite !lookup_omap, lookup_insert.
    case_decide; [subst; by rewrite E|done].
Qed.

Lemma pdf_files_mkdirs (ps : list str) (s s' : state) :
  for_each ps (PdfRestructure.mkdir_one page) s = (Ret tt, s') ->
  pdf_files (PdfRestructure.fs page s') = pdf_files (PdfRestructure.fs page s)
  /\ PdfRestructure.out page s' = PdfRestructure.out page s.
Proof.
  revert s. induction ps as [|p ps IH]; intros s; cbn [for_each].
  - by intros [= <-].
  - rewrite bind_run.
    destruct (PdfRestructure.mkdir_one page p s) as [[[]|e] s1] eqn:E; [|discriminate].
    intros Hrest. destruct (pdf_files_mkdir _ _ _ E) as [F O].
    destruct (IH _ Hrest) as [F' O']. split; congruence.
Qed.

(** C10: when the object parsed from the model's response has no
    "chapters" key, [get_chapter_boundaries] returns the empty list, and
    the script prints "Error: No chapters identified" and exits with code 1
    without any new PDF file in the file system. *)
Theorem no_chapters_key_exits_1 (g : PdfRestructure.genai) (args : PdfRestructure.arguments)
    (s s0 : state) (key file text : str) (d : list (str * value)) :
  is_Some (PdfRestructure.fs page s !! PdfRestructure.pdf_file args) ->
  PdfRestructure.api_key args (PdfRestructure.environ page s !! lit "GEMINI_API_KEY")
    = Some key ->
  key <> [] ->
  PdfRestructure.mkdir_parents page (PdfRestructure.output_dir args) s = (Ret tt, s0) ->
  PdfRestructure.upload_file g key (PdfRestructure.pdf_file args) = inr file ->
  PdfRestructure.generate_content g file PdfRestructure.prompt = inr text ->
  json_loads (PdfRestructure.strip_fences text) = inr (VDict d) ->
  dict_lookup (lit "chapters") d = None ->
  PdfRestructure.delete_file g file = None ->
  exists s1 s2,
    PdfRestructure.get_chapter_boundaries page g (PdfRestructure.pdf_file args) key s0
      = (Ret (VList []), s1)
    /\ PdfRestructure.run_process page (PdfRestructure.main page g args) s = (1, s2)
    /\ PdfRestructure.out page s2
       = PdfRestructure.out page s
         ++ [(Stdout, lit "Uploading PDF to Gemini...");
             (Stdout, lit "Analyzing PDF structure...");
             (Stdout, lit "Error: No chapters identified")]
    /\ pdf_files (PdfRestructure.fs page s2) = pdf_files (PdfRestructure.fs page s).
Proof.
  intros Hpdf Hkey Hne Hmk Hup Hgen Hjson Hmiss Hdel.
  destruct (pdf_files_mkdirs _ _ _ Hmk) as [Hfiles Hout].
  assert (PdfRestructure.get_chapter_boundaries page g (PdfRestructure.pdf_file args) key s0
          = (Ret (VList []),
             snd (PdfRestructure.print page (lit "Analyzing PDF structure...")
                    (snd (PdfRestructure.print page (lit "Uploading PDF to Gemini...") s0)))))
    as Hget.
  { unfold PdfRestructure.get_chapter_boundaries.
    rewrite bind_run, pdf_print_run, bind_run, Hup. cbn [PdfRestructure.call].
    unfold mret at 1, M_ret at 1. rewrite bind_run, pdf_print_run, bind_run, Hgen.
    cbn [PdfRestructure.call]. unfold mret at 1, M_ret at 1.
    rewrite bind_run, Hjson. unfold mret at 1, M_ret at 1.
    rewrite bind_run, Hdel. unfold mret at 1, M_ret at 1.
    cbn [py_get]. rewrite Hmiss. reflexivity. }
  eexists _, _. split; [exact Hget|].
  unfold PdfRestructure.run_process. rewrite pdf_main_eq. cbv zeta.
  rewrite bool_decide_eq_true_2, Hkey by done.
  destruct key as [|c key]; [done|]. rewrite Hmk, Hget. cbn [py_truthy].
  split; [reflexivity|]. cbn. rewrite Hout, <- !app_assoc. split; [reflexivity|exact Hfiles].
Qed.

Lemma two_digits_table :
  forallb (fun k : nat =>
             bool_decide (format_02d (Z.of_nat k)
                          = [N.of_nat (48 + k / 10); N.of_nat (48 + k mod 10)]))
          (seq 0 100) = true.
Proof. vm_compute. reflexivity. Qed.

Lemma format_02d_two_digits (n : Z) :
  0 <= n <= 99 ->
  exists d1 d2 : N,
    is_digit d1 = true /\ is_digit d2 = true /\ format_02d n = [d1; d2]
    /\ n = 10 * (Z.of_N d1 - 48) + (Z.of_N d2 - 48).
Proof.
  intros Hn. pose proof two_digits_table as Htable.
  rewrite forallb_forall in Htable.
  specialize (Htable (Z.to_nat n)). rewrite Z2Nat.id in Htable by lia.
  apply bool_decide_eq_true in Htable; [|apply in_seq; lia].
  pose proof (Nat.mod_upper_bound (Z.to_nat n) 10 ltac:(lia)) as Hmod.
  pose proof (Nat.div_mod_eq (Z.to_nat n) 10) as Hdiv.
  assert (Z.to_nat n / 10 < 10)%nat as Hq by (apply Nat.Div0.div_lt_upper_bound; lia).
  eexists _, _. split_and!; [| |exact Htable|].
  - apply bool_decide_eq_true. lia.
  - apply bool_decide_eq_true. lia.
  - lia.
Qed.

(** C8, amended: the file of a chapter is written under
    [Chapter_<NN>_<title>.pdf], where <NN> is the chapter number in decimal,
    zero-filled to a width of at least two - exactly two digits for the
    numbers 0 to 99 - and <title> is the title reduced to letters, digits,
    hyphens and underscores (blanks become underscores), cut at 50
    characters. *)
Theorem chapter_file_is_named (pages : list page) (dir : str) (c : chapter) (v : value)
    (s : state) :
  describes c v ->
  within (length pages) c ->
  PdfRestructure.fs page s !! dir = Some Dir ->
  PdfRestructure.fs page s !! chapter_path dir c <> Some Dir ->
  let name := lit "Chapter_" ++ format_02d (chapter_number c) ++ lit "_"
              ++ title_part (chapter_title c) ++ lit ".pdf" in
  PdfRestructure.output_filename v = Ret name
  /\ (exists s',
        PdfRestructure.split_chapter page pages dir v s = (Ret tt, s')
        /\ PdfRestructure.fs page s' !! path_join dir name
           = Some (Pdf (page_range pages (start_page c) (end_page c)))
        /\ forall p, p <> path_join dir name ->
                     PdfRestructure.fs page s' !! p = PdfRestructure.fs page s !! p)
  /\ (0 <= chapter_number c <= 99 ->
      exists d1 d2 : N,
        is_digit d1 = true /\ is_digit d2 = true
        /\ format_02d (chapter_number c) = [d1; d2]
        /\ chapter_number c = 10 * (Z.of_N d1 - 48) + (Z.of_N d2 - 48))
  /\ (chapter_number c < 0 \/ 9 < chapter_number c ->
      format_02d (chapter_number c) = str_of_Z (chapter_number c)).
Proof.
  intros Hd Hin Hdir Htarget name. split_and!.
  - apply (output_filename_describes _ _ Hd).
  - eexists. split; [apply (split_chapter_writes _ _ _ _ _ Hd Hin Hdir Htarget)|].
    cbn. split; [apply lookup_insert_eq|].
    intros p Hp. by apply lookup_insert_ne.
  - apply format_02d_two_digits.
  - intros Hn. unfold format_02d. rewrite bool_decide_eq_false_2; [done|lia].
Qed.

End PdfProofs.

(** ** Both scripts *)

Section Scripts.
Context `{Runtime}.

(** C6, amended: the fields of a task record and of the course-info record
    are read with [.get] and a default, so a record without them raises
    nothing; the fields of a chapter-boundary record are read by subscript,
    and a record without one raises [KeyError]. *)
Theorem missing_fields (tasks_data course_info : value) :
  well_formed_tasks tasks_data = true ->
  is_dict course_info = true ->
  (exists p, Agent.construct_autonomous_instruction tasks_data course_info = Ret p)
  /\ (forall k dflt, exists x, py_get course_info k dflt = Ret x)
  /\ (forall t, t ∈ task_list tasks_data ->
      forall k dflt, exists x, py_get t k dflt = Ret x)
  /\ (forall d k, dict_lookup k d = None -> py_getitem (VDict d) k = Raise (KeyError k))
  /\ (forall (page : Type) (pages : list page) dir d (s : PdfRestructure.state page),
        dict_lookup (lit "start_page") d = None ->
        PdfRestructure.split_chapter page pages dir (VDict d) s
        = (Raise (KeyError (lit "start_page")), s))
  /\ (forall (page : Type) d (s : PdfRestructure.state page),
        dict_lookup (lit "chapter_number") d = None ->
        PdfRestructure.show_chapter page (VDict d) s
        = (Raise (KeyError (lit "chapter_number")), s)).
Proof.
  intros Ht Hc. destruct course_info as [| | | | | |ci]; try discriminate.
  split_and!.
  - rewrite (construct_on_well_formed _ ci Ht). by eexists.
  - intros k dflt. by eexists.
  - intros t Hin k dflt.
    destruct tasks_data as [| | | | | |d]; try discriminate.
    unfold well_formed_tasks, task_list in *.
    destruct (dict_lookup (lit "tasks") d) as [[]|]; try discriminate;
      try by apply elem_of_nil in Hin.
    rewrite forallb_forall in Ht. apply list_elem_of_In, Ht in Hin.
    destruct t; try discriminate. by eexists.
  - intros d k Hk. cbn. by rewrite Hk.
  - intros page pages dir d s Hk.
    unfold PdfRestructure.split_chapter, PdfRestructure.chapter_pages, py_getitem.
    by rewrite Hk.
  - intros page d s Hk. unfold PdfRestructure.show_chapter, py_getitem. by rewrite Hk.
Qed.

Lemma printed_app to (before new : list (stream * str)) :
  printed to before (before ++ new) = map snd (filter (fun l => fst l = to) new).
Proof. unfold printed. by rewrite drop_app_length. Qed.

(** C4, amended: an error the agent runner catches is reported on standard
    error and the process exits with code 1; an error the PDF script
    catches is reported on standard output, and the process exits with
    code 1. *)
Theorem caught_errors_are_reported :
  (forall client dir (s s1 : Agent.state) e,
      is_Some (Agent.fs s !! dir) ->
      Agent.load_phase dir (snd (Agent.banner dir s)) = (Raise e, s1) ->
      is_Some (Agent.load_handlers (A:=unit) e) ->
      exists line,
        contains line (exn_str e)
        /\ Agent.run_process (Agent.run_autonomous_agent client dir) s
           = (1, snd (Agent.print Stderr line s1)))
  /\ (forall client dir (s s1 s2 s3 : Agent.state) td ci opts e,
      is_Some (Agent.fs s !! dir) ->
      Agent.load_phase dir (snd (Agent.banner dir s)) = (Ret (td, ci), s1) ->
      Agent.prepare dir s1 = (Ret opts, s2) ->
      Agent.session client opts td ci s2 = (Raise e, s3) ->
      is_Exception e = true ->
      exists line s',
        contains line (exn_str e)
        /\ Agent.run_process (Agent.run_autonomous_agent client dir) s = (1, s')
        /\ line ∈ printed Stderr (Agent.out s3) (Agent.out s'))
  /\ (forall (page : Type) g args (s s0 s1 : PdfRestructure.state page) key e,
      is_Some (PdfRestructure.fs page s !! PdfRestructure.pdf_file args) ->
      PdfRestructure.api_key args (PdfRestructure.environ page s !! lit "GEMINI_API_KEY")
        = Some key ->
      key <> [] ->
      PdfRestructure.mkdir_parents page (PdfRestructure.output_dir args) s = (Ret tt, s0) ->
      PdfRestructure.get_chapter_boundaries page g (PdfRestructure.pdf_file args) key s0
        = (Raise e, s1) ->
      is_Exception e = true ->
      PdfRestructure.run_process page (PdfRestructure.main page g args) s
      = (1, snd (PdfRestructure.print page (lit "Error: " ++ exn_str e) s1)))
  /\ (forall (page : Type) g args (s s0 s1 s2 s3 : PdfRestructure.state page)
        key chapters n e,
      is_Some (PdfRestructure.fs page s !! PdfRestructure.pdf_file args) ->
      PdfRestructure.api_key args (PdfRestructure.environ page s !! lit "GEMINI_API_KEY")
        = Some key ->
      key <> [] ->
      PdfRestructure.mkdir_parents page (PdfRestructure.output_dir args) s = (Ret tt, s0) ->
      PdfRestructure.get_chapter_boundaries page g (PdfRestructure.pdf_file args) key s0
        = (Ret chapters, s1) ->
      py_truthy chapters = true ->
      PdfRestructure.announce page chapters s1 = (Ret n, s2) ->
      PdfRestructure.split_and_report page (PdfRestructure.pdf_file args) chapters
        (PdfRestructure.output_dir args) n s2 = (Raise e, s3) ->
      is_Exception e = true ->
      PdfRestructure.run_process page (PdfRestructure.main page g args) s
      = (1, snd (PdfRestructure.print page (lit "Error: " ++ exn_str e) s3))).
Proof.
  split_and!.
  - intros client dir s s1 e Hdir Hload Hcaught.
    pose proof (run_agent_eq client dir s) as Hrun. cbv zeta in Hrun.
    rewrite bool_decide_eq_true_2, Hload in Hrun by done.
    destruct e; try by destruct Hcaught.
    + exists (lit "Error: " ++ msg). split; [apply contains_suffix|].
      by apply exit_status.
    + exists (lit "Error parsing JSON: " ++ msg). split; [apply contains_suffix|].
      by apply exit_status.
  - intros client dir s s1 s2 s3 td ci opts e Hdir Hload Hprep Hsession He.
    pose proof (run_agent_eq client dir s) as Hrun. cbv zeta in Hrun.
    rewrite bool_decide_eq_true_2, Hload, Hprep in Hrun by done.
    unfold try_except in Hrun. rewrite Hsession in Hrun.
    assert (forall line tail s',
               Agent.run_autonomous_agent client dir s = (Raise (SystemExit 1), s') ->
               Agent.out s' = Agent.out s3 ++ (Stderr, line) :: tail ->
               contains line (exn_str e) ->
               exists line s',
                 contains line (exn_str e)
                 /\ Agent.run_process (Agent.run_autonomous_agent client dir) s = (1, s')
                 /\ line ∈ printed Stderr (Agent.out s3) (Agent.out s')) as Hfin.
    { intros line tail s' Hr Ho Hc. exists line, s'.
      split_and!; [done|by apply exit_status|].
      rewrite Ho, printed_app. cbn. rewrite decide_True by done.
      apply elem_of_cons; by left. }
    destruct e; try discriminate; cbn [Agent.session_handlers] in Hrun;
      (eapply Hfin;
       [rewrite Hrun; reflexivity
       |cbn; rewrite <- app_assoc; reflexivity
       |first [apply contains_cons, contains_suffix
              |rewrite app_assoc; apply contains_suffix]]).
  - intros page g args s s0 s1 key e Hpdf Hkey Hne Hmk Hget He.
    unfold PdfRestructure.run_process. rewrite pdf_main_eq. cbv zeta.
    rewrite bool_decide_eq_true_2, Hkey by done.
    destruct key as [|c key]; [done|]. by rewrite Hmk, Hget, He.
  - intros page g args s s0 s1 s2 s3 key chapters n e
      Hpdf Hkey Hne Hmk Hget Htrue Hann Hsplit He.
    unfold PdfRestructure.run_process. rewrite pdf_main_eq. cbv zeta.
    rewrite bool_decide_eq_true_2, Hkey by done.
    destruct key as [|c key]; [done|]. by rewrite Hmk, Hget, Htrue, Hann, Hsplit, He.
Qed.

End Scripts.

(** * Concrete runs *)

#[local] Existing Instance Sample.rt.

Lemma describes_chapter_value (c : chapter) : describes c (chapter_value c).
Proof. eexists. split; [reflexivity|]. by vm_compute. Qed.

(** C2 fails as stated: two records with the same number and title are
    written to one file, and a record that reaches past the last page stops
    the run with an [IndexError]; either way two records leave one new
    file. *)
Lemma two_records_one_file :
  let run chapters :=
    PdfRestructure.split_pdf nat (lit "/b/book.pdf")
      (VList (map chapter_value chapters)) (lit "/b") Sample.book in
  let same := run [Sample.chap 1 "Intro" 1 2; Sample.chap 1 "Intro" 3 4] in
  let beyond := run [Sample.chap 1 "Intro" 1 2; Sample.chap 2 "Methods" 3 6] in
  size (pdf_files (PdfRestructure.fs nat Sample.book)) = 1%nat
  /\ fst same = Ret tt
  /\ size (pdf_files (PdfRestructure.fs nat (snd same))) = 2%nat
  /\ pdf_files (PdfRestructure.fs nat (snd same)) !! lit "/b/Chapter_01_Intro.pdf"
     = Some [12; 13]%nat
  /\ fst beyond = Raise (IndexError (lit "Sequence index out of range"))
  /\ size (pdf_files (PdfRestructure.fs nat (snd beyond))) = 2%nat.
Proof. vm_compute. repeat split. Qed.

(** C4 fails as stated: an error caught by the PDF script is printed on
    standard output, and nothing goes to standard error. *)
Lemma pdf_error_goes_to_stdout :
  let failing :=
    Sample.service (inl (OtherException (lit "ResourceExhausted") (lit "quota exceeded"))) in
  let r := PdfRestructure.run_process nat
             (PdfRestructure.main nat failing Sample.args) Sample.book in
  fst r = 1
  /\ printed Stdout [] (PdfRestructure.out nat (snd r))
     = [lit "Uploading PDF to Gemini..."; lit "Analyzing PDF structure...";
        lit "Error: quota exceeded"]
  /\ printed Stderr [] (PdfRestructure.out nat (snd r)) = [].
Proof. vm_compute. repeat split. Qed.

(** C6 fails as stated: a chapter record without "start_page" makes
    [split_pdf] raise [KeyError], and so does the listing in [main] for a
    record without "chapter_number". *)
Lemma chapter_record_without_field_raises :
  let no_start :=
    VDict [(lit "chapter_number", VInt 1); (lit "chapter_title", VStr (lit "Intro"));
           (lit "end_page", VInt 2)] in
  fst (PdfRestructure.split_pdf nat (lit "/b/book.pdf")
         (VList [no_start]) (lit "/b") Sample.book)
  = Raise (KeyError (lit "start_page"))
  /\ fst (PdfRestructure.announce nat
            (VList [VDict [(lit "chapter_title", VStr (lit "Intro"))]]) Sample.book)
     = Raise (KeyError (lit "chapter_number")).
Proof. vm_compute. repeat split. Qed.

(** C8 fails as stated: chapter 100 goes to [Chapter_100_B.pdf], whose
    number is not two digits. *)
Lemma chapter_100_has_three_digits :
  let v := chapter_value (Sample.chap 100 "B" 3 5) in
  let r := PdfRestructure.split_pdf nat (lit "/b/book.pdf")
             (VList [v]) (lit "/b") Sample.book in
  PdfRestructure.output_filename v = Ret (lit "Chapter_100_B.pdf")
  /\ PdfRestructure.fs nat (snd r) !! lit "/b/Chapter_100_B.pdf"
     = Some (PdfRestructure.Pdf nat [12; 13; 14]%nat)
  /\ ~ exists (d1 d2 : N) (title : str),
         lit "Chapter_100_B.pdf" = lit "Chapter_" ++ [d1; d2] ++ lit "_" ++ title ++ lit ".pdf".
Proof.
  split_and!; [by vm_compute..|].
  intros (d1 & d2 & title & E). vm_compute in E. discriminate E.
Qed.

(** ** The theorems at the sample data *)

Lemma prompt_states_task_counts_witness :
  well_formed_tasks Sample.tasks_data = true
  /\ is_dict Sample.course_info = true
  /\ exists p,
       Agent.construct_autonomous_instruction Sample.tasks_data Sample.course_info = Ret p
       /\ contains p (Agent.counts_sentence 3 1).
Proof.
  split; [reflexivity|]. split; [reflexivity|].
  apply (prompt_states_task_counts Sample.tasks_data Sample.course_info); reflexivity.
Defined.

Lemma pending_count_at_most_total_witness :
  exists (p course_name : str) (tasks : value) (items pending_tasks : list value)
         (total_tasks : nat),
    Agent.construct_autonomous_instruction Sample.tasks_data Sample.course_info = Ret p
    /\ py_get Sample.tasks_data (lit "tasks") (VList []) = Ret tasks
    /\ py_len tasks = Ret total_tasks
    /\ py_iter tasks = Ret items
    /\ filterM Agent.status_is_pending items = Ret pending_tasks
    /\ p = Agent.prompt_text course_name total_tasks (length pending_tasks)
    /\ (length pending_tasks <= total_tasks)%nat.
Proof.
  eexists.
  destruct (pending_count_at_most_total Sample.tasks_data Sample.course_info _ eq_refl)
    as (name & tasks & items & pending & total & Hrest).
  exists name, tasks, items, pending, total. split; [reflexivity|exact Hrest].
Defined.

Lemma load_course_data_reads_only_witness :
  let s := Sample.course (Sample.text "TASKS") (Sample.text "INFO") in
  Agent.load_course_data (lit "/c") s = (Ret (Sample.tasks_data, Sample.course_info), s).
Proof.
  intros s.
  destruct (load_course_data_reads_only (lit "/c") s) as [Hframe Hvalue].
  specialize (Hvalue (lit "TASKS") (lit "INFO") Sample.tasks_data Sample.course_info
                ltac:(vm_compute; reflexivity) ltac:(vm_compute; reflexivity)
                ltac:(vm_compute; reflexivity) ltac:(vm_compute; reflexivity)).
  destruct (Agent.load_course_data (lit "/c") s) as [r s']. cbn in *. congruence.
Defined.



Lemma no_chapters_key_exits_1_witness :
  let g := Sample.service (inr (lit "```json
{}
```")) in
  exists s,
    PdfRestructure.run_process nat (PdfRestructure.main nat g Sample.args) Sample.book = (1, s)
    /\ PdfRestructure.out nat s
       = [(Stdout, lit "Uploading PDF to Gemini...");
          (Stdout, lit "Analyzing PDF structure...");
          (Stdout, lit "Error: No chapters identified")]
    /\ pdf_files (PdfRestructure.fs nat s) = pdf_files (PdfRestructure.fs nat Sample.book).
Proof.
  intros g.
  pose (s0 := snd (PdfRestructure.mkdir_parents nat (PdfRestructure.output_dir Sample.args)
                     Sample.book)).
  destruct (no_chapters_key_exits_1 nat g Sample.args Sample.book s0
              (lit "key") (lit "files/1") (lit "```json
{}
```") [])
    as (s1 & s2 & _ & Hrun & Hout & Hfiles).
  - eexists. vm_compute. reflexivity.
  - vm_compute. reflexivity.
  - discriminate.
  - vm_compute. reflexivity.
  - reflexivity.
  - reflexivity.
  - vm_compute. reflexivity.
  - vm_compute. reflexivity.
  - reflexivity.
  - exists s2. split_and!; [exact Hrun|exact Hout|exact Hfiles].
Defined.

Lemma split_pdf_writes_each_chapter_witness :
  let cs := [Sample.chap 1 "Intro" 1 2; Sample.chap 2 "Methods" 3 5] in
  exists s',
    PdfRestructure.split_pdf nat (lit "/b/book.pdf") (VList (map chapter_value cs))
      (lit "/b") Sample.book = (Ret tt, s')
    /\ PdfRestructure.fs nat s' !! lit "/b/Chapter_01_Intro.pdf"
       = Some (PdfRestructure.Pdf nat [10; 11]%nat)
    /\ PdfRestructure.fs nat s' !! lit "/b/Chapter_02_Methods.pdf"
       = Some (PdfRestructure.Pdf nat [12; 13; 14]%nat)
    /\ PdfRestructure.fs nat s' !! lit "/b/book.pdf"
       = Some (PdfRestructure.Pdf nat [10; 11; 12; 13; 14]%nat).
Proof.
  intros cs.
  destruct (split_pdf_writes_each_chapter nat (lit "/b/book.pdf") (lit "/b")
              [10; 11; 12; 13; 14]%nat cs (map chapter_value cs) Sample.book)
    as (s' & Hrun & _ & _ & Hfiles & Hframe).
  - vm_compute. reflexivity.
  - vm_compute. reflexivity.
  - repeat constructor; apply describes_chapter_value.
  - repeat constructor; unfold within; cbn; lia.
  - apply (bool_decide_unpack _). vm_compute. reflexivity.
  - repeat constructor; vm_compute; discriminate.
  - exists s'. split_and!.
    + exact Hrun.
    + apply (Hfiles (Sample.chap 1 "Intro" 1 2)). apply elem_of_cons. by left.
    + apply (Hfiles (Sample.chap 2 "Methods" 3 5)).
      apply elem_of_cons. right. apply elem_of_cons. by left.
    + rewrite Hframe; [vm_compute; reflexivity|].
      apply (bool_decide_unpack _). vm_compute. reflexivity.
Defined.

Lemma chapter_file_is_named_witness :
  let c := Sample.chap 7 " Sets & maps " 2 3 in
  PdfRestructure.output_filename (chapter_value c) = Ret (lit "Chapter_07_Sets__maps.pdf")
  /\ exists s',
       PdfRestructure.split_chapter nat [10; 11; 12; 13; 14]%nat (lit "/b") (chapter_value c)
         Sample.book = (Ret tt, s')
       /\ PdfRestructure.fs nat s' !! lit "/b/Chapter_07_Sets__maps.pdf"
          = Some (PdfRestructure.Pdf nat [11; 12]%nat).
Proof.
  intros c.
  destruct (chapter_file_is_named nat [10; 11; 12; 13; 14]%nat (lit "/b") c
              (chapter_value c) Sample.book)
    as (Hname & (s' & Hrun & Hfile & _) & _ & _).
  - apply describes_chapter_value.
  - unfold within; cbn; lia.
  - vm_compute. reflexivity.
  - vm_compute. discriminate.
  - split; [exact Hname|]. exists s'. split; [exact Hrun|exact Hfile].
Defined.

Lemma missing_fields_witness :
  let bare := VDict [(lit "tasks", VList [VDict []; VDict [(lit "id", VInt 2)]])] in
  (exists p, Agent.construct_autonomous_instruction bare (VDict []) = Ret p)
  /\ PdfRestructure.show_chapter nat (VDict [(lit "chapter_title", VStr (lit "Intro"))])
       Sample.book
     = (Raise (KeyError (lit "chapter_number")), Sample.book).
Proof.
  intros bare.
  destruct (missing_fields bare (VDict []) eq_refl eq_refl)
    as (Hprompt & _ & _ & _ & _ & Hshow).
  split; [exact Hprompt|]. apply Hshow. reflexivity.
Defined.

Lemma caught_errors_are_reported_witness :
  let s := Sample.course None (Sample.text "INFO") in
  let failing :=
    Sample.service (inl (OtherException (lit "ResourceExhausted") (lit "quota exceeded"))) in
  (exists line s',
      Agent.run_process (Agent.run_autonomous_agent (Sample.client None None) (lit "/c")) s
      = (1, s')
      /\ contains line (lit "Tasks file not found: /c/todo/course_tasks.json")
      /\ last (Agent.out s') = Some (Stderr, line))
  /\ (exists s',
      PdfRestructure.run_process nat (PdfRestructure.main nat failing Sample.args) Sample.book
      = (1, s')
      /\ last (PdfRestructure.out nat s') = Some (Stdout, lit "Error: quota exceeded")).
Proof.
  intros s failing.
  destruct caught_errors_are_reported as (Hload & _ & Hboundaries & _).
  split.
  - pose (r := Agent.load_phase (lit "/c") (snd (Agent.banner (lit "/c") s))).
    destruct (Hload (Sample.client None None) (lit "/c") s (snd r)
                (FileNotFoundError (lit "Tasks file not found: /c/todo/course_tasks.json")))
      as (line & Hline & Hrun).
    + eexists. vm_compute. reflexivity.
    + vm_compute. reflexivity.
    + eexists. reflexivity.
    + exists line. eexists. split_and!; [exact Hrun|exact Hline|].
      cbn. apply last_snoc.
  - pose (s0 := snd (PdfRestructure.mkdir_parents nat (PdfRestructure.output_dir Sample.args)
                       Sample.book)).
    pose (r := PdfRestructure.get_chapter_boundaries nat failing
                 (PdfRestructure.pdf_file Sample.args) (lit "key") s0).
    eexists. split.
    + apply (Hboundaries nat failing Sample.args Sample.book s0 (snd r) (lit "key")
               (OtherException (lit "ResourceExhausted") (lit "quota exceeded"))).
      * eexists. vm_compute. reflexivity.
      * vm_compute. reflexivity.
      * discriminate.
      * vm_compute. reflexivity.
      * vm_compute. reflexivity.
      * reflexivity.
    + cbn. apply last_snoc.
Defined.

(** * Further behaviour of the agent runner *)

Section AgentBehaviour.
Context `{Runtime}.

Lemma filterM_status_returns (items kept : list value) :
  filterM Agent.status_is_pending items = Ret kept -> forallb is_dict items = true.
Proof.
  revert kept. induction items as [|t items IH]; intros kept; [done|].
  cbn [filterM forallb].
  destruct t; try discriminate. cbn [is_dict andb].
  unfold Agent.status_is_pending at 1. cbn [py_get mbind outcome_bind].
  destruct (filterM _ items) as [rest|e]; [|discriminate]. intros _. by eapply IH.
Qed.

Lemma countable_tasks_iter (tasks : value) (n : nat) (items kept : list value) :
  py_len tasks = Ret n ->
  py_iter tasks = Ret items ->
  filterM Agent.status_is_pending items = Ret kept ->
  countable_tasks tasks = true.
Proof.
  intros Hlen Hiter Hfilter. apply filterM_status_returns in Hfilter.
  destruct tasks as [| | | |s|l|d]; try discriminate; injection Hiter as <-.
  - by destruct s.
  - exact Hfilter.
  - destruct d as [|[k v] d]; [done|]. discriminate.
Qed.

Lemma construct_raise_kind (tasks_data course_info : value) (e : exn) :
  Agent.construct_autonomous_instruction tasks_data course_info = Raise e ->
  exists msg, e = AttributeError msg \/ e = TypeError msg.
Proof.
  unfold Agent.construct_autonomous_instruction.
  assert (forall items, forall e',
             filterM Agent.status_is_pending items = Raise e' ->
             exists msg, e' = AttributeError msg) as Hfilter.
  { induction items as [|t items IH]; intros e'; [discriminate|].
    cbn [filterM]. unfold Agent.status_is_pending at 1.
    destruct t; cbn [py_get mbind outcome_bind];
      try (intros [= <-]; by eexists).
    destruct (filterM _ items) as [rest|e1]; [discriminate|].
    intros [= <-]. by apply IH. }
  destruct course_info as [| | | | | |ci]; cbn [py_get mbind outcome_bind];
    try (intros [= <-]; eexists; left; reflexivity).
  destruct tasks_data as [| | | | | |d]; cbn [py_get mbind outcome_bind];
    try (intros [= <-]; eexists; left; reflexivity).
  fold (tasks_of d).
  destruct (tasks_of d) as [| | | |s|l|d']; cbn [py_len py_iter mbind outcome_bind];
    try (intros [= <-]; eexists; right; reflexivity).
  all: match goal with
       | |- context [filterM _ ?xs] =>
           destruct (filterM Agent.status_is_pending xs) as [kept|e1] eqn:E;
           [discriminate|]
       end;
       cbn [mbind outcome_bind]; intros [= <-];
       destruct (Hfilter _ _ E) as [msg ->]; eexists; left; reflexivity.
Qed.

(** X1: A prompt is built exactly when the course information and the tasks
    document are objects and "tasks" is absent, a list of objects, or an
    empty string or object; any other input raises [AttributeError] or
    [TypeError]. *)
Theorem construct_returns_iff (tasks_data course_info : value) :
  ((exists p, Agent.construct_autonomous_instruction tasks_data course_info = Ret p)
   <-> is_dict course_info = true
       /\ exists d, tasks_data = VDict d /\ countable_tasks (tasks_of d) = true)
  /\ forall e,
       Agent.construct_autonomous_instruction tasks_data course_info = Raise e ->
       exists msg, e = AttributeError msg \/ e = TypeError msg.
Proof.
  split; [split|].
  - intros [p Hp]. unfold Agent.construct_autonomous_instruction in Hp.
    destruct course_info as [| | | | | |ci]; try discriminate.
    destruct tasks_data as [| | | | | |d]; try discriminate.
    cbn [py_get mbind outcome_bind] in Hp. fold (tasks_of d) in Hp.
    split; [done|]. exists d. split; [done|].
    destruct (py_len (tasks_of d)) as [n|] eqn:Hlen; [|discriminate].
    cbn [mbind outcome_bind] in Hp.
    destruct (py_iter (tasks_of d)) as [items|] eqn:Hiter; [|discriminate].
    cbn [mbind outcome_bind] in Hp.
    destruct (filterM _ items) as [kept|] eqn:Hkept; [|discriminate].
    by eapply countable_tasks_iter.
  - intros (Hci & d & -> & Hd).
    destruct course_info as [| | | | | |ci]; try discriminate.
    unfold Agent.construct_autonomous_instruction.
    cbn [py_get mbind outcome_bind]. fold (tasks_of d).
    destruct (tasks_of d) as [| | | |[|c s]|ts|[|kv d']]; try discriminate;
      cbn [py_len py_iter mbind outcome_bind]; try by eexists.
    rewrite (filterM_dicts _ Hd). by eexists.
  - apply construct_raise_kind.
Qed.


Lemma load_course_data_checks (dir : str) (s : Agent.state) :
  (missing s (Agent.tasks_file dir) ->
   Agent.load_course_data dir s
   = (Raise (FileNotFoundError (lit "Tasks file not found: " ++ Agent.tasks_file dir)), s))
  /\ (~ missing s (Agent.tasks_file dir) ->
      missing s (Agent.info_file dir) ->
      Agent.load_course_data dir s
      = (Raise (FileNotFoundError
                  (lit "Course info file not found: " ++ Agent.info_file dir)), s)).
Proof.
  unfold missing, Agent.load_course_data, Agent.path_exists. unfold_M. split.
  - intros Ht. rewrite bool_decide_eq_false_2; [done|]. rewrite Ht. by intros [].
  - intros Ht Hi. rewrite bool_decide_eq_true_2.
    + rewrite bool_decide_eq_false_2; [done|]. rewrite Hi. by intros [].
    + by destruct (Agent.fs s !! Agent.tasks_file dir).
Qed.

Lemma load_course_data_rejects (dir text msg : str) (s : Agent.state) :
  Agent.fs s !! Agent.tasks_file dir = Some (Agent.File (Some text)) ->
  Agent.fs s !! Agent.info_file dir <> None ->
  json_loads text = inl msg ->
  Agent.load_course_data dir s = (Raise (JSONDecodeError msg), s).
Proof.
  intros Hf Hm Hp.
  unfold Agent.load_course_data, Agent.path_exists, Agent.json_load_file. unfold_M.
  rewrite !bool_decide_eq_true_2.
  - rewrite Hf. cbv beta iota. by rewrite Hp.
  - by destruct (Agent.fs s !! Agent.info_file dir).
  - by rewrite Hf.
Qed.

Lemma load_course_data_parsed (dir t1 t2 : str) (v1 v2 : value) (s : Agent.state) :
  Agent.fs s !! Agent.tasks_file dir = Some (Agent.File (Some t1)) ->
  Agent.fs s !! Agent.info_file dir = Some (Agent.File (Some t2)) ->
  json_loads t1 = inr v1 ->
  json_loads t2 = inr v2 ->
  Agent.load_course_data dir s = (Ret (v1, v2), s).
Proof.
  intros H1 H2 P1 P2.
  unfold Agent.load_course_data, Agent.path_exists. unfold_M.
  rewrite !bool_decide_eq_true_2 by (rewrite ?H1, ?H2; eauto).
  by rewrite (json_load_file_parsed _ _ _ _ H1 P1), (json_load_file_parsed _ _ _ _ H2 P2).
Qed.

(** X2: Two files that parse to objects are loaded with three lines of output:
    the number printed is [len] of "tasks" (its entries are not looked at),
    and a course without "course_name" is shown as "Unknown". *)
Theorem load_phase_output (dir t1 t2 : str) (d ci : list (str * value)) (n : nat)
    (s : Agent.state) :
  Agent.fs s !! Agent.tasks_file dir = Some (Agent.File (Some t1)) ->
  Agent.fs s !! Agent.info_file dir = Some (Agent.File (Some t2)) ->
  json_loads t1 = inr (VDict d) ->
  json_loads t2 = inr (VDict ci) ->
  py_len (tasks_of d) = Ret n ->
  exists s',
    Agent.load_phase dir s = (Ret (VDict d, VDict ci), s')
    /\ same_host s s'
    /\ Agent.out s'
       = Agent.out s
         ++ [(Stdout, lit "Loading course data...");
             (Stdout, lit "Loaded " ++ str_of_nat n ++ lit " tasks");
             (Stdout, lit "Course: "
                      ++ py_str (default (VStr (lit "Unknown"))
                                   (dict_lookup (lit "course_name") ci)))].
Proof.
  intros H1 H2 P1 P2 Hn. unfold Agent.load_phase.
  rewrite bind_run, print_run, bind_run.
  rewrite (load_course_data_parsed dir t1 t2 (VDict d) (VDict ci)) by done.
  cbn [py_get]. rewrite lift_run_ret. fold (tasks_of d). rewrite Hn, lift_run_ret.
  rewrite bind_run, print_run, lift_run_ret, bind_run, print_run.
  eexists. split; [reflexivity|]. split; [done|].
  cbn. by rewrite <- !app_assoc.
Qed.

(** X3: A tasks file that holds valid JSON other than an object is not caught
    by the loader's handlers: the [AttributeError] of [.get] leaves the
    script as a traceback, with exit status 1. *)
Theorem tasks_not_an_object (client : Agent.sdk) (prog dir t1 t2 : str) (rest : list str)
    (v1 v2 : value) (s : Agent.state) :
  is_Some (Agent.fs s !! dir) ->
  Agent.fs s !! Agent.tasks_file dir = Some (Agent.File (Some t1)) ->
  Agent.fs s !! Agent.info_file dir = Some (Agent.File (Some t2)) ->
  json_loads t1 = inr v1 ->
  json_loads t2 = inr v2 ->
  is_dict v1 = false ->
  Agent.run_process (Agent.main client (prog :: dir :: rest)) s
  = (1, snd ((Agent.banner dir;;
              Agent.print Stdout (lit "Loading course data...");;
              Agent.print Stderr (format_exc (no_attribute v1 "get"))) s)).
Proof.
  intros Hdir H1 H2 P1 P2 Hv. cbn [Agent.main]. unfold Agent.run_process.
  rewrite run_agent_eq. cbv zeta. rewrite bool_decide_eq_true_2 by done.
  unfold Agent.load_phase. rewrite bind_run, print_run, bind_run.
  rewrite (load_course_data_parsed dir t1 t2 v1 v2) by done.
  by destruct v1.
Qed.

(** X4: What the script reports when a file is missing or the tasks file does
    not parse: one line on standard error after the banner, exit status 1,
    and no use of the client. *)
Theorem load_errors_reported (client : Agent.sdk) (prog dir : str) (rest : list str)
    (s : Agent.state) :
  is_Some (Agent.fs s !! dir) ->
  let report line :=
    (1, snd ((Agent.banner dir;;
              Agent.print Stdout (lit "Loading course data...");;
              Agent.print Stderr line) s)) in
  let run := Agent.run_process (Agent.main client (prog :: dir :: rest)) s in
  (missing s (Agent.tasks_file dir) ->
   run = report (lit "Error: Tasks file not found: " ++ Agent.tasks_file dir))
  /\ (~ missing s (Agent.tasks_file dir) -> missing s (Agent.info_file dir) ->
      run = report (lit "Error: Course info file not found: " ++ Agent.info_file dir))
  /\ (forall text msg,
        Agent.fs s !! Agent.tasks_file dir = Some (Agent.File (Some text)) ->
        ~ missing s (Agent.info_file dir) ->
        json_loads text = inl msg ->
        run = report (lit "Error parsing JSON: " ++ msg)).
Proof.
  intros Hdir report run. subst report run. cbn [Agent.main]. unfold Agent.run_process.
  rewrite run_agent_eq. cbv zeta. rewrite bool_decide_eq_true_2 by done.
  unfold Agent.load_phase. rewrite bind_run, print_run, bind_run.
  match goal with |- context [Agent.load_course_data dir ?st] => set (s1 := st) end.
  assert (Agent.fs s1 = Agent.fs s) as Hfs by done.
  destruct (load_course_data_checks dir s1) as [Ht Hi].
  unfold missing in *. rewrite Hfs in Ht, Hi.
  split_and!.
  - intros Hm. by rewrite Ht.
  - intros Hm Hm'. by rewrite Hi.
  - intros text msg Hf Hm Hp.
    rewrite (load_course_data_rejects dir text msg s1); [done|by rewrite Hfs..|done].
Qed.


(** X5: A course directory that does not exist is not reported by a handler:
    the [FileNotFoundError] is raised before the first [try], so the script
    ends in a traceback after the banner, with exit status 1. *)
Theorem missing_course_directory (client : Agent.sdk) (prog dir : str) (rest : list str)
    (s : Agent.state) :
  Agent.fs s !! dir = None ->
  Agent.run_process (Agent.main client (prog :: dir :: rest)) s
  = (1, snd ((Agent.banner dir;;
              Agent.print Stderr
                (format_exc (FileNotFoundError (lit "Course directory not found: " ++ dir)))) s)).
Proof.
  intros Hdir. cbn [Agent.main]. unfold Agent.run_process.
  rewrite run_agent_eq. cbv zeta. rewrite bool_decide_eq_false_2; [done|].
  rewrite Hdir. by intros [].
Qed.

(** *** What a run leaves alone *)

Lemma same_host_refl s : same_host s s.
Proof. done. Qed.

Lemma same_host_trans s1 s2 s3 : same_host s1 s2 -> same_host s2 s3 -> same_host s1 s3.
Proof. unfold same_host. intros (-> & -> & ->) (-> & -> & ->). done. Qed.

Lemma appends_refl s : appends s s.
Proof. exists []. by rewrite app_nil_r. Qed.

Lemma appends_trans s1 s2 s3 : appends s1 s2 -> appends s2 s3 -> appends s1 s3.
Proof. intros [a Ha] [b Hb]. exists (a ++ b). by rewrite Hb, Ha, app_assoc. Qed.

Lemma reads_only_ret {A} (a : A) : reads_only (mret a).
Proof. intros s. split; [apply same_host_refl|apply appends_refl]. Qed.

Lemma reads_only_raise {A} (e : exn) : reads_only (raise (A:=A) e).
Proof. intros s. split; [apply same_host_refl|apply appends_refl]. Qed.

Lemma reads_only_exit {A} (code : Z) : reads_only (sys_exit (A:=A) code).
Proof. apply reads_only_raise. Qed.

Lemma reads_only_lift {A} (o : outcome A) : reads_only (lift o).
Proof. intros s. split; [apply same_host_refl|apply appends_refl]. Qed.

Lemma reads_only_gets {A} (f : Agent.state -> A) : reads_only (gets f).
Proof. intros s. split; [apply same_host_refl|apply appends_refl]. Qed.

Lemma reads_only_print to line : reads_only (Agent.print to line).
Proof. intros s. split; [done|]. by eexists. Qed.

Lemma reads_only_set_counters cost count : reads_only (Agent.set_counters cost count).
Proof. intros s. split; [done|]. exists []. cbn. by rewrite app_nil_r. Qed.

Lemma reads_only_bind {A B} (m : M Agent.state A) (f : A -> M Agent.state B) :
  reads_only m -> (forall a, reads_only (f a)) -> reads_only (m ≫= f).
Proof.
  intros Hm Hf s. rewrite bind_run. specialize (Hm s).
  destruct (m s) as [[a|e] s1]; [|exact Hm].
  destruct Hm as [Hh Ha], (Hf a s1) as [Hh' Ha'].
  split; [by eapply same_host_trans|by eapply appends_trans].
Qed.

Lemma reads_only_try {A} (body : M Agent.state A) handlers :
  reads_only body ->
  (forall e h, handlers e = Some h -> reads_only h) ->
  reads_only (try_except body handlers).
Proof.
  intros Hb Hh s. unfold try_except. specialize (Hb s).
  destruct (body s) as [[a|e] s1]; [exact Hb|].
  destruct (handlers e) as [h|] eqn:E; [|exact Hb].
  destruct Hb as [H1 H2], (Hh e h E s1) as [H3 H4].
  split; [by eapply same_host_trans|by eapply appends_trans].
Qed.

Lemma reads_only_for_each {A} (xs : list A) (body : A -> M Agent.state unit) :
  (forall x, reads_only (body x)) -> reads_only (for_each xs body).
Proof.
  intros Hb. induction xs as [|x xs IH]; cbn [for_each].
  - apply reads_only_ret.
  - apply reads_only_bind; [apply Hb|intros _; apply IH].
Qed.

Ltac reads_only_step :=
  lazymatch goal with
  | |- reads_only (mret _) => apply reads_only_ret
  | |- reads_only (raise _) => apply reads_only_raise
  | |- reads_only (sys_exit _) => apply reads_only_exit
  | |- reads_only (lift _) => apply reads_only_lift
  | |- reads_only (gets _) => apply reads_only_gets
  | |- reads_only (Agent.print _ _) => apply reads_only_print
  | |- reads_only (Agent.set_counters _ _) => apply reads_only_set_counters
  | |- reads_only (_ ≫= _) => apply reads_only_bind; [|intros ?]
  | |- reads_only (for_each _ _) => apply reads_only_for_each; intros ?
  | |- reads_only (match ?x with _ => _ end) => destruct x
  end.

Lemma reads_only_json_load_file p : reads_only (Agent.json_load_file p).
Proof. unfold Agent.json_load_file, Agent.path_exists. repeat reads_only_step. Qed.

Lemma reads_only_load_course_data dir : reads_only (Agent.load_course_data dir).
Proof.
  unfold Agent.load_course_data, Agent.path_exists.
  repeat first [reads_only_step | apply reads_only_json_load_file].
Qed.

Lemma reads_only_load_phase dir : reads_only (Agent.load_phase dir).
Proof.
  unfold Agent.load_phase.
  repeat first [reads_only_step | apply reads_only_load_course_data].
Qed.

Lemma reads_only_prepare dir : reads_only (Agent.prepare dir).
Proof.
  unfold Agent.prepare, Agent.find_claude_cli, Agent.path_exists.
  repeat reads_only_step.
Qed.

Lemma reads_only_handle_message msg : reads_only (Agent.handle_message msg).
Proof. unfold Agent.handle_message, Agent.show_block. repeat reads_only_step. Qed.

Lemma reads_only_session client opts td ci : reads_only (Agent.session client opts td ci).
Proof.
  unfold Agent.session, Agent.raise_if.
  repeat first [reads_only_step | apply reads_only_handle_message].
Qed.

Lemma reads_only_run client dir : reads_only (Agent.run_autonomous_agent client dir).
Proof.
  unfold Agent.run_autonomous_agent, Agent.banner, Agent.path_exists.
  repeat first
    [ reads_only_step
    | apply reads_only_prepare
    | apply reads_only_try;
      [first [apply reads_only_load_phase | apply reads_only_session]
      |intros e h Hh; destruct e; try discriminate; injection Hh as <-] ].
Qed.

(** X6: The script's own code writes nothing: with the client taken as a
    source of messages and exceptions (what its tools do to the files is
    not part of this model), a run leaves the files, the platform and the
    environment as they were, however it ends, and only adds lines to the
    output. *)
Theorem agent_script_reads_only (client : Agent.sdk) (argv : list str) (s : Agent.state) :
  same_host s (snd (Agent.run_process (Agent.main client argv) s))
  /\ appends s (snd (Agent.run_process (Agent.main client argv) s)).
Proof.
  assert (reads_only (Agent.main client argv)) as Hmain.
  { unfold Agent.main.
    repeat first [reads_only_step | apply reads_only_run]. }
  unfold Agent.run_process. specialize (Hmain s).
  destruct (Agent.main client argv s) as [[[]|e] s1]; [exact Hmain|].
  destruct Hmain as [Hh Ha].
  destruct e; try exact (conj Hh Ha);
    (split; [exact Hh|]; eapply appends_trans; [exact Ha|]; by eexists).
Qed.


(** *** The message loop *)

Lemma show_blocks_effect (content : list Agent.block) (s : Agent.state) :
  exists new,
    for_each content Agent.show_block s
    = (Ret tt, {| Agent.fs := Agent.fs s; Agent.platform := Agent.platform s;
                  Agent.environ := Agent.environ s; Agent.out := Agent.out s ++ new;
                  Agent.total_cost := Agent.total_cost s;
                  Agent.message_count := Agent.message_count s |})
    /\ length new = length (List.filter is_text_block content)
    /\ Forall (fun l => fst l = Stdout /\ (length (snd l) <= 211)%nat) new.
Proof.
  revert s. induction content as [|b content IH]; intros s; cbn [for_each].
  - exists []. rewrite app_nil_r. by destruct s.
  - rewrite bind_run. destruct b as [text|]; cbn [Agent.show_block List.filter is_text_block].
    + set (line := if bool_decide (200 < length text)%nat
                   then lit "Claude: " ++ take 200 text ++ lit "..."
                   else lit "Claude: " ++ text).
      assert (length line <= 211)%nat as Hline.
      { assert (length (lit "Claude: ") = 8%nat) as H8 by reflexivity.
        assert (length (lit "...") = 3%nat) as H3 by reflexivity.
        subst line. case_bool_decide; rewrite !length_app, ?length_take, ?H8, ?H3; lia. }
      assert ((if bool_decide (200 < length text)%nat
               then Agent.print Stdout (lit "Claude: " ++ take 200 text ++ lit "...")
               else Agent.print Stdout (lit "Claude: " ++ text)) s
              = Agent.print Stdout line s) as -> by (subst line; by case_bool_decide).
      rewrite print_run.
      match goal with |- context [for_each content _ ?s1] =>
        destruct (IH s1) as (new & -> & Hlen & Hall) end.
      exists ((Stdout, line) :: new). cbn. rewrite <- app_assoc. split_and!; [done|lia|].
      by constructor.
    + unfold mret at 1, M_ret at 1. apply IH.
Qed.

Lemma handle_message_effect (msg : Agent.message) (s : Agent.state) :
  exists new,
    Agent.handle_message msg s
    = (Ret tt, {| Agent.fs := Agent.fs s; Agent.platform := Agent.platform s;
                  Agent.environ := Agent.environ s; Agent.out := Agent.out s ++ new;
                  Agent.total_cost := add_cost (Agent.total_cost s) msg;
                  Agent.message_count := S (Agent.message_count s) |})
    /\ length new = lines_shown msg
    /\ Forall (fun l => fst l = Stdout) new.
Proof.
  unfold Agent.handle_message, Agent.set_counters, Agent.print. unfold_M.
  destruct msg as [content|[cost|]|]; cbn [add_cost lines_shown].
  - match goal with |- context [for_each content _ ?s1] =>
      destruct (show_blocks_effect content s1) as (new & -> & Hlen & Hall) end.
    exists new. split_and!; [done..|].
    eapply Forall_impl; [exact Hall|]. by intros l [].
  - destruct (PrimFloat.eqb cost 0%float); cbn [negb].
    + exists []. by rewrite app_nil_r.
    + eexists [_; _]. cbn. rewrite <- app_assoc. split_and!; [done..|].
      by repeat constructor.
  - exists []. by rewrite app_nil_r.
  - exists []. by rewrite app_nil_r.
Qed.

Lemma message_loop_effect (msgs : list Agent.message) (s : Agent.state) :
  exists s' new,
    for_each msgs Agent.handle_message s = (Ret tt, s')
    /\ Agent.message_count s' = (Agent.message_count s + length msgs)%nat
    /\ Agent.total_cost s' = fold_left add_cost msgs (Agent.total_cost s)
    /\ same_host s s'
    /\ Agent.out s' = Agent.out s ++ new
    /\ length new = list_sum (map lines_shown msgs)
    /\ Forall (fun l => fst l = Stdout) new.
Proof.
  revert s. induction msgs as [|msg msgs IH]; intros s; cbn [for_each].
  - exists s, []. rewrite app_nil_r. cbn. split_and!; try done; lia.
  - rewrite bind_run.
    destruct (handle_message_effect msg s) as (new1 & -> & Hlen1 & Hall1).
    match goal with |- context [for_each msgs _ ?s1] =>
      destruct (IH s1) as (s' & new2 & -> & Hcount & Hcost & Hhost & Hout & Hlen2 & Hall2) end.
    cbn [Agent.message_count Agent.total_cost Agent.out] in Hcount, Hcost, Hout.
    exists s', (new1 ++ new2). cbn [length map list_sum fold_left]. split_and!.
    + reflexivity.
    + lia.
    + exact Hcost.
    + destruct Hhost as (? & ? & ?). done.
    + by rewrite Hout, app_assoc.
    + rewrite length_app, Hlen1, Hlen2. reflexivity.
    + by apply Forall_app.
Qed.


(** X7: A text block is shown on one line of at most 211 characters: in full
    when it has at most 200 characters, and cut after 200 characters with
    three dots otherwise. *)
Theorem text_block_line (text : str) (s : Agent.state) :
  exists line,
    Agent.show_block (Agent.TextBlock text) s = Agent.print Stdout line s
    /\ (length line <= 211)%nat
    /\ take 8 line = lit "Claude: "
    /\ ((length text <= 200)%nat -> drop 8 line = text)
    /\ ((200 < length text)%nat ->
        drop 8 line = take 200 text ++ lit "..." /\ length line = 211%nat).
Proof.
  assert (length (lit "Claude: ") = 8%nat) as H8 by reflexivity.
  assert (length (lit "...") = 3%nat) as H3 by reflexivity.
  cbn [Agent.show_block]. case_bool_decide as Hlong.
  - exists (lit "Claude: " ++ take 200 text ++ lit "..."). split_and!.
    + reflexivity.
    + rewrite !length_app, length_take, H8, H3. lia.
    + by rewrite take_app_length' by done.
    + lia.
    + intros _. split.
      * by rewrite drop_app_length' by done.
      * rewrite !length_app, length_take, H8, H3. lia.
  - exists (lit "Claude: " ++ text). split_and!.
    + reflexivity.
    + rewrite length_app, H8. lia.
    + by rewrite take_app_length' by done.
    + intros _. by rewrite drop_app_length' by done.
    + lia.
Qed.

(** X8: A session that runs to its end closes with a summary: the number of
    messages received and the sum of the costs that were not zero; in
    between it shows one line for each text block and two for each cost. *)
Theorem session_summary (client : Agent.sdk) (opts : Agent.ClaudeAgentOptions)
    (td ci : value) (p : str) (msgs : list Agent.message) (s : Agent.state) :
  Agent.sdk_connect client opts = None ->
  Agent.construct_autonomous_instruction td ci = Ret p ->
  Agent.sdk_query client opts p = None ->
  Agent.sdk_messages client opts p = (msgs, None) ->
  exists s' shown,
    Agent.session client opts td ci s = (Ret tt, s')
    /\ length shown = list_sum (map lines_shown msgs)
    /\ Agent.message_count s' = (Agent.message_count s + length msgs)%nat
    /\ Agent.total_cost s' = fold_left add_cost msgs (Agent.total_cost s)
    /\ Agent.out s'
       = Agent.out s
         ++ [(Stdout, [10%N] ++ lit "Sending initial instruction to Claude...");
             (Stdout, [10%N] ++ lit "Claude is now working autonomously...");
             (Stdout, lit "(You can monitor progress below)" ++ [10%N])]
         ++ shown
         ++ [(Stdout, [10%N] ++ Agent.rule 61);
             (Stdout, lit "Agent session completed");
             (Stdout, lit "Total messages processed: "
                      ++ str_of_nat (Agent.message_count s + length msgs));
             (Stdout, lit "Total cost: $"
                      ++ format_6f (fold_left add_cost msgs (Agent.total_cost s)));
             (Stdout, Agent.rule 61)].
Proof.
  intros Hc Hp Hq Hm. unfold Agent.session.
  rewrite bind_run, Hc. cbn [Agent.raise_if]. unfold mret at 1, M_ret at 1.
  rewrite Hp, lift_run_ret, bind_run, print_run, bind_run, Hq.
  cbn [Agent.raise_if]. unfold mret at 1, M_ret at 1.
  rewrite bind_run, print_run, bind_run, print_run, Hm, bind_run.
  match goal with |- context [for_each msgs _ ?s1] =>
    destruct (message_loop_effect msgs s1)
      as (s2 & shown & -> & Hcount & Hcost & Hhost & Hout & Hlen & _) end.
  cbn [Agent.message_count Agent.total_cost Agent.out] in Hcount, Hcost, Hout.
  unfold Agent.raise_if, Agent.print. unfold_M.
  eexists _, shown. split; [reflexivity|].
  cbn [Agent.message_count Agent.total_cost Agent.out].
  split_and!; [done..|]. rewrite Hout, Hcount, Hcost, <- !app_assoc. reflexivity.
Qed.

(** X9: An interrupt that ends the message stream is answered with the cost
    accumulated over the messages received so far, and [sys.exit(0)]. *)
Theorem interrupted_session_reports_cost (client : Agent.sdk)
    (opts : Agent.ClaudeAgentOptions) (td ci : value) (p : str)
    (msgs : list Agent.message) (s : Agent.state) :
  Agent.sdk_connect client opts = None ->
  Agent.construct_autonomous_instruction td ci = Ret p ->
  Agent.sdk_query client opts p = None ->
  Agent.sdk_messages client opts p = (msgs, Some KeyboardInterrupt) ->
  exists s' shown,
    try_except (Agent.session client opts td ci) Agent.session_handlers s
    = (Raise (SystemExit 0), s')
    /\ length shown = list_sum (map lines_shown msgs)
    /\ Agent.out s'
       = Agent.out s
         ++ [(Stdout, [10%N] ++ lit "Sending initial instruction to Claude...");
             (Stdout, [10%N] ++ lit "Claude is now working autonomously...");
             (Stdout, lit "(You can monitor progress below)" ++ [10%N])]
         ++ shown
         ++ [(Stdout, [10%N; 10%N] ++ lit "Interrupted by user");
             (Stdout, lit "Cost so far: $"
                      ++ format_6f (fold_left add_cost msgs (Agent.total_cost s)))].
Proof.
  intros Hc Hp Hq Hm. unfold try_except, Agent.session.
  rewrite bind_run, Hc. cbn [Agent.raise_if]. unfold mret at 1, M_ret at 1.
  rewrite Hp, lift_run_ret, bind_run, print_run, bind_run, Hq.
  cbn [Agent.raise_if]. unfold mret at 1, M_ret at 1.
  rewrite bind_run, print_run, bind_run, print_run, Hm, bind_run.
  match goal with |- context [for_each msgs _ ?s1] =>
    destruct (message_loop_effect msgs s1)
      as (s2 & shown & -> & Hcount & Hcost & Hhost & Hout & Hlen & _) end.
  cbn [Agent.message_count Agent.total_cost Agent.out] in Hcount, Hcost, Hout.
  unfold Agent.raise_if, Agent.session_handlers, Agent.print. unfold_M.
  eexists _, shown. split; [reflexivity|].
  cbn [Agent.message_count Agent.total_cost Agent.out].
  split; [done|]. rewrite Hout, Hcost, <- !app_assoc. reflexivity.
Qed.


(** *** The options handed to the client *)

Lemma find_claude_cli_result (s : Agent.state) (cli : option str) (s' : Agent.state) :
  Agent.find_claude_cli s = (Ret cli, s') ->
  s' = s
  /\ forall p, cli = Some p ->
       Agent.platform s = lit "win32" /\ is_Some (Agent.fs s !! p).
Proof.
  unfold Agent.find_claude_cli, Agent.path_exists. unfold_M.
  case_bool_decide as Hplat.
  - destruct (Agent.environ s !! lit "APPDATA") as [[|c appdata]|] eqn:Henv.
    + intros [= <- <-]. split; [done|]. discriminate.
    + case_bool_decide as Hp; intros [= <- <-]; (split; [done|]); [|discriminate].
      intros p [= <-]. by split.
    + intros [= <- <-]. split; [done|]. discriminate.
  - intros [= <- <-]. split; [done|]. discriminate.
Qed.

(** X10: The options refer only to what is there: the working directory is the
    course directory, the knowledge base is added exactly when it exists,
    and a CLI path is given only on Windows, and only one that exists.
    The counters start at zero. *)
Theorem prepare_options (dir : str) (s s' : Agent.state) (opts : Agent.ClaudeAgentOptions) :
  Agent.prepare dir s = (Ret opts, s') ->
  Agent.cwd opts = dir
  /\ Agent.add_dirs opts
     = (if bool_decide (is_Some (Agent.fs s !! path_join dir (lit "knowledge_base")))
        then [path_join dir (lit "knowledge_base")] else [])
  /\ (forall p, Agent.cli_path opts = Some p ->
        Agent.platform s = lit "win32" /\ is_Some (Agent.fs s !! p))
  /\ (Agent.platform s <> lit "win32" -> Agent.cli_path opts = None)
  /\ Agent.allowed_tools opts = [lit "Read"; lit "Write"; lit "Bash"; lit "Skill"]
  /\ Agent.total_cost s' = 0%float
  /\ Agent.message_count s' = 0%nat
  /\ same_host s s'.
Proof.
  unfold Agent.prepare. rewrite bind_run.
  destruct (Agent.find_claude_cli s) as [[cli|e] s1] eqn:Hcli; [|discriminate].
  destruct (find_claude_cli_result _ _ _ Hcli) as [-> Hpath].
  cbv zeta. unfold Agent.path_exists, Agent.set_counters, Agent.print. unfold_M.
  intros [= <- <-]. cbn. split_and!; try done.
  intros Hplat. destruct cli as [p|]; [|done]. by destruct (Hpath p eq_refl).
Qed.

(** *** Exit statuses *)

Lemma session_raise_source client opts td ci s e s' :
  Agent.session client opts td ci s = (Raise e, s') ->
  Agent.sdk_connect client opts = Some e
  \/ Agent.construct_autonomous_instruction td ci = Raise e
  \/ (exists p, Agent.sdk_query client opts p = Some e)
  \/ (exists p, snd (Agent.sdk_messages client opts p) = Some e).
Proof.
  unfold Agent.session. rewrite bind_run.
  destruct (Agent.sdk_connect client opts) as [e1|]; cbn [Agent.raise_if].
  { intros [= <- _]. by left. }
  unfold mret at 1, M_ret at 1.
  destruct (Agent.construct_autonomous_instruction td ci) as [p|e1].
  2:{ rewrite lift_run_raise. intros [= <- _]. right; by left. }
  rewrite lift_run_ret, bind_run, print_run, bind_run.
  destruct (Agent.sdk_query client opts p) as [e1|] eqn:Hq; cbn [Agent.raise_if].
  { intros [= <- _]. right; right; left. by exists p. }
  unfold mret at 1, M_ret at 1. rewrite bind_run, print_run, bind_run, print_run.
  destruct (Agent.sdk_messages client opts p) as [msgs stream_end] eqn:Hm.
  rewrite bind_run.
  match goal with |- context [for_each msgs _ ?s1] =>
    destruct (for_each_returns Agent.handle_message msgs handle_message_returns s1)
      as [s2 ->] end.
  rewrite bind_run. destruct stream_end as [e1|]; cbn [Agent.raise_if].
  - intros [= <- _]. right; right; right. exists p. by rewrite Hm.
  - discriminate.
Qed.

(** X11: Unless the client itself raises [SystemExit], the agent script ends
    with status 0 or 1, whatever the arguments, the files and the client
    do. *)
Theorem agent_exit_status_0_or_1 (client : Agent.sdk) (argv : list str) (s : Agent.state) :
  (forall opts p code,
      Agent.sdk_connect client opts <> Some (SystemExit code)
      /\ Agent.sdk_query client opts p <> Some (SystemExit code)
      /\ snd (Agent.sdk_messages client opts p) <> Some (SystemExit code)) ->
  fst (Agent.run_process (Agent.main client argv) s) = 0
  \/ fst (Agent.run_process (Agent.main client argv) s) = 1.
Proof.
  intros Hclient.
  destruct argv as [|prog [|dir rest]]; [by right..|]. cbn [Agent.main].
  pose proof (run_agent_eq client dir s) as Hrun. cbv zeta in Hrun.
  case_bool_decide as Hdir; [|right; by eapply uncaught_exit_1].
  destruct (Agent.load_phase dir _) as [[[td ci]|e] s1] eqn:Hload.
  - destruct (prepare_returns dir s1) as (opts & s2 & Hprep). rewrite Hprep in Hrun.
    unfold try_except in Hrun.
    destruct (Agent.session client opts td ci s2) as [[[]|e] s3] eqn:Hsession.
    + left. unfold Agent.run_process. by rewrite Hrun.
    + destruct e; cbn [Agent.session_handlers] in Hrun;
        try (right; by rewrite (exit_status 1 _ _ _ Hrun)).
      * left. by rewrite (exit_status 0 _ _ _ Hrun).
      * exfalso. apply session_raise_source in Hsession.
        destruct Hsession as [Hs|[Hs|[[p Hs]|[p Hs]]]].
        -- by destruct (Hclient opts [] code) as (Hc & _ & _).
        -- by destruct (construct_raise_kind td ci _ Hs) as [msg [?|?]].
        -- by destruct (Hclient opts p code) as (_ & Hq & _).
        -- by destruct (Hclient opts p code) as (_ & _ & Hm).
  - pose proof (load_phase_raises _ _ _ _ Hload) as He. right.
    destruct (Agent.load_handlers e) as [h|] eqn:Hh.
    + destruct e; try discriminate; injection Hh as <-;
        by rewrite (exit_status 1 _ _ _ Hrun).
    + by eapply uncaught_exit_1.
Qed.

End AgentBehaviour.

(** * Further behaviour of the chapter splitter *)

Section SplitterBehaviour.
Context `{Runtime}.
Variable page : Type.

Local Abbreviation state := (PdfRestructure.state page).
Local Abbreviation Pdf := (PdfRestructure.Pdf page).
Local Abbreviation Dir := (PdfRestructure.Dir page).

(** *** File names stay inside the output directory *)

Lemma string_of_uint_digits (d : Decimal.uint) :
  Forall (fun c => is_digit c = true) (lit (NilEmpty.string_of_uint d)).
Proof.
  induction d; cbn [NilEmpty.string_of_uint]; [by constructor|..];
    (change (lit (String ?c ?s)) with (N_of_ascii c :: lit s);
     constructor; [reflexivity|assumption]).
Qed.

Lemma str_of_Z_chars (z : Z) :
  Forall (fun c => is_digit c = true \/ c = 45%N) (str_of_Z z).
Proof.
  assert (forall d, Forall (fun c => is_digit c = true \/ c = 45%N)
                      (lit (NilZero.string_of_uint d))) as Huint.
  { intros d. eapply Forall_impl; [|intros c Hc; left; exact Hc].
    destruct d; try apply string_of_uint_digits. by repeat constructor. }
  unfold str_of_Z, NilZero.string_of_int.
  destruct (Z.to_int z) as [d|d]; [apply Huint|].
  change (lit (String ?c ?s)) with (N_of_ascii c :: lit s).
  constructor; [by right|apply Huint].
Qed.

Lemma format_02d_chars (z : Z) :
  Forall (fun c => is_digit c = true \/ c = 45%N) (format_02d z).
Proof.
  unfold format_02d. case_bool_decide; [|apply str_of_Z_chars].
  apply Forall_app. split; [|apply str_of_Z_chars]. by repeat constructor.
Qed.

Lemma lstrip_suffix (s : str) : exists blanks, s = blanks ++ lstrip s.
Proof.
  induction s as [|c s [blanks IH]]; cbn [lstrip]; [by exists []|].
  destruct (char_isspace c); [|by exists []].
  exists (c :: blanks). cbn. by f_equal.
Qed.

Lemma py_strip_Forall (P : N -> Prop) (s : str) : Forall P s -> Forall P (py_strip s).
Proof.
  intros Hs. unfold py_strip.
  destruct (lstrip_suffix s) as [b1 E1]. rewrite E1 in Hs.
  apply Forall_app in Hs as [_ Hs].
  destruct (lstrip_suffix (rev (lstrip s))) as [b2 E2].
  apply Forall_rev in Hs. rewrite E2 in Hs.
  apply Forall_app in Hs as [_ Hs]. by apply Forall_rev.
Qed.

Lemma safe_chars_kept (cs : list value) (kept : str) :
  PdfRestructure.safe_chars cs = Ret kept -> Forall (fun c => kept_char c = true) kept.
Proof.
  revert kept. induction cs as [|v cs IH]; intros kept.
  - intros [= <-]. constructor.
  - cbn [PdfRestructure.safe_chars]. destruct v as [| | | |s| |]; try discriminate.
    destruct (PdfRestructure.safe_chars cs) as [rest|]; [|discriminate].
    cbn [mbind outcome_bind]. specialize (IH rest eq_refl).
    destruct (str_isalnum s) eqn:Halnum; cbn [orb].
    + intros [= <-]. apply Forall_app. split; [|done].
      unfold str_isalnum in Halnum. apply andb_prop in Halnum as [_ Hall].
      rewrite forallb_forall in Hall. apply Forall_forall. intros c Hc.
      unfold kept_char. rewrite Hall; [done|]. by apply list_elem_of_In.
    + case_bool_decide as Hin; intros [= <-]; [|done].
      apply Forall_app. split; [|done].
      change (lit " ") with [32%N] in Hin. change (lit "-") with [45%N] in Hin.
      change (lit "_") with [95%N] in Hin.
      rewrite !elem_of_cons, elem_of_nil in Hin.
      destruct Hin as [-> | [-> | [-> | [] ] ] ];
        (constructor; [|constructor]); unfold kept_char;
        apply orb_true_iff; right; apply bool_decide_eq_true; tauto.
Qed.

Lemma safe_title_chars (title : value) (safe : str) :
  PdfRestructure.safe_title title = Ret safe ->
  (length safe <= 50)%nat /\ Forall file_name_char safe.
Proof.
  unfold PdfRestructure.safe_title.
  destruct (py_iter title) as [cs|]; [|discriminate]. cbn [mbind outcome_bind].
  destruct (PdfRestructure.safe_chars cs) as [kept|] eqn:Hkept; [|discriminate].
  cbn [mbind outcome_bind]. intros [= <-]. split.
  - rewrite length_take. lia.
  - apply Forall_take. unfold replace_space. apply Forall_fmap.
    apply py_strip_Forall. eapply Forall_impl; [by eapply safe_chars_kept|].
    intros c Hc. unfold kept_char in Hc. cbn. unfold file_name_char.
    destruct (N.eqb_spec c 32) as [->|Hne]; [tauto|].
    apply orb_true_iff in Hc as [Hc|Hc]; [tauto|].
    apply bool_decide_eq_true in Hc. tauto.
Qed.

Lemma file_name_char_not_slash (c : N) : file_name_char c -> c <> 47%N /\ c <> 32%N.
Proof.
  unfold file_name_char, char_isalnum. intros Hc. split; intros ->;
    destruct Hc as [Hc|[Hc|Hc]]; try discriminate;
    cbn in Hc; apply bool_decide_eq_true in Hc; lia.
Qed.

(** X12: Whatever a chapter record holds, a file name that is built has the
    shape [Chapter_<number>_<title>.pdf] with a title of at most 50
    characters, and has neither a slash nor a blank in it: the file stays
    in the output directory. *)
Theorem output_filename_safe (chapter : value) (name : str) :
  PdfRestructure.output_filename chapter = Ret name ->
  exists number title,
    name = lit "Chapter_" ++ number ++ lit "_" ++ title ++ lit ".pdf"
    /\ Forall (fun c => is_digit c = true \/ c = 45%N) number
    /\ (length title <= 50)%nat
    /\ Forall file_name_char title
    /\ (47%N ∉ name) /\ (32%N ∉ name).
Proof.
  unfold PdfRestructure.output_filename.
  destruct (py_getitem chapter (lit "chapter_title")) as [title|]; [|discriminate].
  cbn [mbind outcome_bind].
  destruct (PdfRestructure.safe_title title) as [safe|] eqn:Hsafe; [|discriminate].
  cbn [mbind outcome_bind].
  destruct (py_getitem chapter (lit "chapter_number")) as [number|]; [|discriminate].
  cbn [mbind outcome_bind].
  destruct (py_format_02d number) as [nn|] eqn:Hnn; [|discriminate].
  cbn [mbind outcome_bind]. intros Hname.
  assert (name = lit "Chapter_" ++ nn ++ lit "_" ++ safe ++ lit ".pdf") as -> by congruence.
  clear Hname.
  destruct (safe_title_chars _ _ Hsafe) as [Hlen Hchars].
  assert (Forall (fun c => is_digit c = true \/ c = 45%N) nn) as Hdigits.
  { destruct number; try discriminate; injection Hnn as <-; apply format_02d_chars. }
  exists nn, safe.
  split_and!; [reflexivity|exact Hdigits|exact Hlen|exact Hchars|..].
  all: rewrite !not_elem_of_app; split_and!;
    try (apply (bool_decide_unpack _); vm_compute; reflexivity).
  all: intros Hin.
  all: try (rewrite Forall_forall in Hdigits; destruct (Hdigits _ Hin) as [Hd|Hd];
            [vm_compute in Hd|]; discriminate).
  all: rewrite Forall_forall in Hchars;
    destruct (file_name_char_not_slash _ (Hchars _ Hin)); done.
Qed.


(** *** Page ranges at and past the bounds *)

Lemma mapM_pages_past_end (pages : list page) (n k : nat) :
  (0 < n)%nat -> (length pages < k + n)%nat ->
  mapM (seq_getitem pages) (map Z.of_nat (seq k n))
  = Raise (IndexError (lit "Sequence index out of range")).
Proof.
  revert k. induction n as [|n IH]; intros k Hn Hk; [lia|].
  cbn [seq map mapM].
  destruct (decide (k < length pages)%nat) as [Hlt|Hge].
  - destruct (lookup_lt_is_Some_2 pages k Hlt) as [x Hx].
    rewrite (seq_getitem_nat page _ _ _ Hx). cbn [mbind outcome_bind].
    rewrite IH by lia. reflexivity.
  - unfold seq_getitem.
    replace (Z.of_nat k <? 0) with false by lia.
    replace (Z.of_nat k <? Z.of_nat (length pages)) with false by lia.
    by rewrite andb_false_r.
Qed.

Lemma range_from (lo : Z) (n k : nat) :
  lo = Z.of_nat k ->
  map (fun i => lo + Z.of_nat i) (seq 0 n) = map Z.of_nat (seq k n).
Proof.
  intros ->.
  replace (seq k n) with (Nat.add k <$> seq 0 n)
    by (rewrite fmap_add_seq; f_equal; lia).
  rewrite <- list_fmap_compose. apply list_fmap_ext. intros _ i _. cbn. lia.
Qed.

(** X13: A chapter that ends past the last page raises [IndexError], and
    nothing is written or printed for it. *)
Theorem chapter_past_last_page (pages : list page) (dir : str) (c : chapter) (v : value)
    (s : state) :
  describes c v ->
  1 <= start_page c <= end_page c ->
  Z.of_nat (length pages) < end_page c ->
  PdfRestructure.split_chapter page pages dir v s
  = (Raise (IndexError (lit "Sequence index out of range")), s).
Proof.
  intros (d & -> & _ & _ & Hs & He) Hrange Hpast.
  unfold PdfRestructure.split_chapter, PdfRestructure.chapter_pages, py_getitem.
  rewrite Hs, He. cbn [mbind outcome_bind py_sub1 py_range py_index].
  rewrite (range_from _ _ (Z.to_nat (start_page c - 1))) by lia.
  rewrite mapM_pages_past_end by lia. reflexivity.
Qed.

Lemma seq_getitem_last (pages : list page) (final : page) :
  last pages = Some final -> seq_getitem pages (-1) = Ret final.
Proof.
  intros Hlast. unfold seq_getitem.
  assert (0 < length pages)%nat by (destruct pages; [discriminate|cbn; lia]).
  change (-1 <? 0) with true. cbv beta iota.
  replace (0 <=? -1 + Z.of_nat (length pages)) with true by lia.
  replace (-1 + Z.of_nat (length pages) <? Z.of_nat (length pages)) with true by lia.
  cbn [andb]. rewrite last_lookup in Hlast.
  replace (Z.to_nat (-1 + Z.of_nat (length pages))) with (pred (length pages)) by lia.
  by rewrite Hlast.
Qed.

(** X14: A chapter whose "start_page" is 0 is not rejected: index -1 counts from
    the end, so the file gets the last page of the document, followed by
    pages 1 to [end_page]. *)
Theorem start_page_zero_wraps (pages : list page) (final : page) (c : chapter) (v : value) :
  describes c v ->
  start_page c = 0 ->
  0 <= end_page c <= Z.of_nat (length pages) ->
  last pages = Some final ->
  PdfRestructure.chapter_pages page pages v
  = Ret (final :: take (Z.to_nat (end_page c)) pages).
Proof.
  intros (d & -> & _ & _ & Hs & He) Hzero Hend Hlast.
  unfold PdfRestructure.chapter_pages, py_getitem. rewrite Hs, He, Hzero.
  cbn [mbind outcome_bind py_sub1 py_range py_index].
  replace (Z.to_nat (end_page c - (0 - 1))) with (S (Z.to_nat (end_page c))) by lia.
  cbn [seq map mapM].
  change (0 - 1 + Z.of_nat 0) with (-1). rewrite (seq_getitem_last _ _ Hlast).
  cbn [mbind outcome_bind].
  rewrite <- seq_shift, map_map.
  replace (map (fun x => 0 - 1 + Z.of_nat (S x)) (seq 0 (Z.to_nat (end_page c))))
    with (map Z.of_nat (seq 0 (Z.to_nat (end_page c))))
    by (apply map_ext; intros; lia).
  rewrite (mapM_pages page) by lia. cbn [mbind outcome_bind]. by rewrite drop_0.
Qed.

(** X15: A chapter whose "end_page" lies before its "start_page" is written all
    the same, as a file without pages. *)
Theorem empty_chapter_is_written (pages : list page) (dir : str) (c : chapter) (v : value)
    (s : state) :
  describes c v ->
  end_page c < start_page c ->
  PdfRestructure.fs page s !! dir = Some Dir ->
  PdfRestructure.fs page s !! chapter_path dir c <> Some Dir ->
  exists s',
    PdfRestructure.split_chapter page pages dir v s = (Ret tt, s')
    /\ PdfRestructure.fs page s' = <[chapter_path dir c := Pdf []]> (PdfRestructure.fs page s).
Proof.
  intros Hd He Hdir Htarget.
  rewrite (split_chapter_writes page pages dir c v s Hd); [|unfold within; lia|done..].
  eexists. split; [reflexivity|]. cbn. unfold page_range.
  by replace (Z.to_nat (end_page c - start_page c + 1)) with 0%nat by lia.
Qed.

(** X16: There is no recovery from a chapter that fails: the files of the
    chapters before it stay written, the exception leaves [split_pdf], and
    the chapters after it are not looked at. *)
Theorem split_pdf_stops_at_failure (pdf_path dir : str) (pages : list page)
    (cs : list chapter) (vs rest : list value) (bad : value) (e : exn) (s : state) :
  PdfRestructure.fs page s !! pdf_path = Some (Pdf pages) ->
  PdfRestructure.fs page s !! dir = Some Dir ->
  Forall2 describes cs vs ->
  Forall (within (length pages)) cs ->
  NoDup (map file_name cs) ->
  Forall (fun c => PdfRestructure.fs page s !! chapter_path dir c <> Some Dir) cs ->
  PdfRestructure.chapter_pages page pages bad = Raise e ->
  exists s',
    PdfRestructure.split_pdf page pdf_path (VList (vs ++ bad :: rest)) dir s = (Raise e, s')
    /\ (forall c, c ∈ cs ->
          PdfRestructure.fs page s' !! chapter_path dir c
          = Some (Pdf (page_range pages (start_page c) (end_page c))))
    /\ (forall p, p ∉ map (chapter_path dir) cs ->
          PdfRestructure.fs page s' !! p = PdfRestructure.fs page s !! p).
Proof.
  intros Hpdf Hdir Hd Hin Hnd Htarget Hbad.
  unfold PdfRestructure.split_pdf, PdfRestructure.PdfReader.
  rewrite !bind_run. unfold gets at 1. rewrite Hpdf. unfold mret at 1, M_ret at 1.
  cbn [py_len py_iter]. rewrite lift_run_ret, bind_run.
  unfold PdfRestructure.print at 1, PdfRestructure.print_to at 1, modify at 1.
  rewrite lift_run_ret.
  match goal with |- context [for_each _ _ ?s1] => set (s1' := s1) end.
  destruct (split_chapters page pages dir cs vs Hd s1' Hin Hnd Hdir Htarget)
    as (s' & Hrun & Hfiles & Hframe & _).
  exists s'. split; [|done].
  assert (forall (xs ys : list value) body (a b : state),
             for_each xs body a = (Ret tt, b) ->
             for_each (xs ++ ys) body a = for_each (S:=state) ys body b) as Happ.
  { induction xs as [|x xs IH]; intros ys body a b; cbn [for_each app].
    - by intros [= ->].
    - rewrite !bind_run. destruct (body x a) as [[[]|e'] a']; [apply IH|discriminate]. }
  rewrite (Happ _ _ _ _ _ Hrun). cbn [for_each]. rewrite bind_run.
  unfold PdfRestructure.split_chapter at 1. by rewrite Hbad, lift_run_raise.
Qed.


(** *** The script ends early *)

(** X17: Without the PDF file, or without an API key, the script prints one
    line and exits with status 1 before it creates the output directory or
    calls the service. *)
Theorem pdf_main_early_exits (g : PdfRestructure.genai) (args : PdfRestructure.arguments)
    (s : state) :
  (PdfRestructure.fs page s !! PdfRestructure.pdf_file args = None ->
   PdfRestructure.run_process page (PdfRestructure.main page g args) s
   = (1, snd (PdfRestructure.print page
                (lit "Error: File not found: " ++ PdfRestructure.pdf_file args) s)))
  /\ (is_Some (PdfRestructure.fs page s !! PdfRestructure.pdf_file args) ->
      no_api_key args s ->
      PdfRestructure.run_process page (PdfRestructure.main page g args) s
      = (1, snd (PdfRestructure.print page (lit "Error: GEMINI_API_KEY required") s))).
Proof.
  unfold PdfRestructure.run_process. rewrite pdf_main_eq. cbv zeta. split.
  - intros Hpdf. rewrite bool_decide_eq_false_2; [done|]. rewrite Hpdf. by intros [].
  - intros Hpdf [Harg Henv]. rewrite bool_decide_eq_true_2 by done.
    unfold PdfRestructure.api_key.
    destruct Harg as [-> | ->], Henv as [-> | ->]; reflexivity.
Qed.

(** *** What the model's response leads to *)

Lemma boundaries_run (g : PdfRestructure.genai) (pdf_path key file text : str) (s : state) :
  PdfRestructure.upload_file g key pdf_path = inr file ->
  PdfRestructure.generate_content g file PdfRestructure.prompt = inr text ->
  PdfRestructure.get_chapter_boundaries page g pdf_path key s
  = (match json_loads (PdfRestructure.strip_fences text) with
     | inl msg => raise (JSONDecodeError msg)
     | inr result =>
         match PdfRestructure.delete_file g file with
         | Some e => raise e
         | None => lift (py_get result (lit "chapters") (VList []))
         end
     end)
      (snd (PdfRestructure.print page (lit "Analyzing PDF structure...")
              (snd (PdfRestructure.print page (lit "Uploading PDF to Gemini...") s)))).
Proof.
  intros Hup Hgen. unfold PdfRestructure.get_chapter_boundaries.
  rewrite bind_run, pdf_print_run, bind_run, Hup. cbn [PdfRestructure.call].
  unfold mret at 1, M_ret at 1. rewrite bind_run, pdf_print_run, bind_run, Hgen.
  cbn [PdfRestructure.call]. unfold mret at 1, M_ret at 1. rewrite bind_run.
  destruct (json_loads _) as [msg|result]; [reflexivity|].
  unfold mret at 1, M_ret at 1. rewrite bind_run.
  by destruct (PdfRestructure.delete_file g file).
Qed.

(** X18: A response that is not valid JSON ends the script with "Error: " and
    the parser's message on standard output, exit status 1; the uploaded
    file is not deleted, whatever [delete_file] would do. *)
Theorem invalid_json_response (g : PdfRestructure.genai) (args : PdfRestructure.arguments)
    (s s0 : state) (key file text msg : str) :
  is_Some (PdfRestructure.fs page s !! PdfRestructure.pdf_file args) ->
  PdfRestructure.api_key args (PdfRestructure.environ page s !! lit "GEMINI_API_KEY")
    = Some key ->
  key <> [] ->
  PdfRestructure.mkdir_parents page (PdfRestructure.output_dir args) s = (Ret tt, s0) ->
  PdfRestructure.upload_file g key (PdfRestructure.pdf_file args) = inr file ->
  PdfRestructure.generate_content g file PdfRestructure.prompt = inr text ->
  json_loads (PdfRestructure.strip_fences text) = inl msg ->
  PdfRestructure.get_chapter_boundaries page g (PdfRestructure.pdf_file args) key s0
  = (Raise (JSONDecodeError msg),
     snd (PdfRestructure.print page (lit "Analyzing PDF structure...")
            (snd (PdfRestructure.print page (lit "Uploading PDF to Gemini...") s0))))
  /\ exists s',
       PdfRestructure.run_process page (PdfRestructure.main page g args) s = (1, s')
       /\ PdfRestructure.fs page s' = PdfRestructure.fs page s0
       /\ PdfRestructure.out page s'
          = PdfRestructure.out page s0
            ++ [(Stdout, lit "Uploading PDF to Gemini...");
                (Stdout, lit "Analyzing PDF structure...");
                (Stdout, lit "Error: " ++ msg)].
Proof.
  intros Hpdf Hkey Hne Hmk Hup Hgen Hjson.
  assert (PdfRestructure.get_chapter_boundaries page g (PdfRestructure.pdf_file args) key s0
          = (Raise (JSONDecodeError msg),
             snd (PdfRestructure.print page (lit "Analyzing PDF structure...")
                    (snd (PdfRestructure.print page (lit "Uploading PDF to Gemini...") s0)))))
    as Hget by (by rewrite (boundaries_run _ _ _ _ _ _ Hup Hgen), Hjson).
  split; [exact Hget|].
  unfold PdfRestructure.run_process. rewrite pdf_main_eq. cbv zeta.
  rewrite bool_decide_eq_true_2, Hkey by done.
  destruct key as [|c key]; [done|]. rewrite Hmk, Hget. cbn [is_Exception].
  eexists. split; [reflexivity|]. cbn. by rewrite <- !app_assoc.
Qed.

(** X19: A response that is valid JSON but not an object - a bare list of
    chapters, say - is not used: after the uploaded file is deleted,
    [result.get] raises [AttributeError], and the script ends as for any
    other error, with exit status 1. *)
Theorem response_not_an_object (g : PdfRestructure.genai) (args : PdfRestructure.arguments)
    (s s0 : state) (key file text : str) (result : value) :
  is_Some (PdfRestructure.fs page s !! PdfRestructure.pdf_file args) ->
  PdfRestructure.api_key args (PdfRestructure.environ page s !! lit "GEMINI_API_KEY")
    = Some key ->
  key <> [] ->
  PdfRestructure.mkdir_parents page (PdfRestructure.output_dir args) s = (Ret tt, s0) ->
  PdfRestructure.upload_file g key (PdfRestructure.pdf_file args) = inr file ->
  PdfRestructure.generate_content g file PdfRestructure.prompt = inr text ->
  json_loads (PdfRestructure.strip_fences text) = inr result ->
  PdfRestructure.delete_file g file = None ->
  is_dict result = false ->
  exists s',
    PdfRestructure.run_process page (PdfRestructure.main page g args) s = (1, s')
    /\ PdfRestructure.fs page s' = PdfRestructure.fs page s0
    /\ PdfRestructure.out page s'
       = PdfRestructure.out page s0
         ++ [(Stdout, lit "Uploading PDF to Gemini...");
             (Stdout, lit "Analyzing PDF structure...");
             (Stdout, lit "Error: " ++ exn_str (no_attribute result "get"))].
Proof.
  intros Hpdf Hkey Hne Hmk Hup Hgen Hjson Hdel Hobj.
  unfold PdfRestructure.run_process. rewrite pdf_main_eq. cbv zeta.
  rewrite bool_decide_eq_true_2, Hkey by done.
  destruct key as [|c key]; [done|].
  rewrite Hmk, (boundaries_run _ _ _ _ _ _ Hup Hgen), Hjson, Hdel.
  destruct result; try discriminate;
    (eexists; split; [reflexivity|]; cbn; by rewrite <- !app_assoc).
Qed.


(** *** From the listing to the files *)

Lemma show_chapter_describes (c : chapter) (v : value) (s : state) :
  describes c v ->
  PdfRestructure.show_chapter page v s
  = (Ret tt, {| PdfRestructure.fs := PdfRestructure.fs page s;
                PdfRestructure.environ := PdfRestructure.environ page s;
                PdfRestructure.out := PdfRestructure.out page s ++ [(Stdout, listed_line c)] |}).
Proof.
  intros (d & -> & Hn & Ht & Hs & He).
  unfold PdfRestructure.show_chapter, py_getitem. rewrite Hn, Ht, Hs, He.
  by rewrite !lift_run_ret.
Qed.

Lemma show_chapters_describes (cs : list chapter) (vs : list value) :
  Forall2 describes cs vs ->
  forall s : state,
    for_each vs (PdfRestructure.show_chapter page) s
    = (Ret tt, {| PdfRestructure.fs := PdfRestructure.fs page s;
                  PdfRestructure.environ := PdfRestructure.environ page s;
                  PdfRestructure.out :=
                    PdfRestructure.out page s ++ on_stdout (map listed_line cs) |}).
Proof.
  induction 1 as [|c v cs vs Hd _ IH]; intros s; cbn [for_each map on_stdout].
  - rewrite app_nil_r. by destruct s.
  - rewrite bind_run, (show_chapter_describes _ _ _ Hd), IH. cbn.
    by rewrite <- app_assoc.
Qed.

Lemma for_each_app {S A} (xs ys : list A) (body : A -> M S unit) (a b : S) :
  for_each xs body a = (Ret tt, b) ->
  for_each (xs ++ ys) body a = for_each ys body b.
Proof.
  revert a. induction xs as [|x xs IH]; intros a; cbn [for_each app].
  - by intros [= ->].
  - rewrite !bind_run. destruct (body x a) as [[[]|e'] a']; [apply IH|discriminate].
Qed.

Lemma mkdirs_result (ps : list str) (s s' : state) :
  for_each ps (PdfRestructure.mkdir_one page) s = (Ret tt, s') ->
  (forall q n, PdfRestructure.fs page s !! q = Some n -> PdfRestructure.fs page s' !! q = Some n)
  /\ (forall q, q ∈ ps -> PdfRestructure.fs page s' !! q = Some Dir)
  /\ PdfRestructure.environ page s' = PdfRestructure.environ page s
  /\ PdfRestructure.out page s' = PdfRestructure.out page s.
Proof.
  revert s. induction ps as [|p ps IH]; intros s; cbn [for_each].
  - intros [= <-]. split_and!; try done. intros q Hq. by apply elem_of_nil in Hq.
  - rewrite bind_run.
    destruct (PdfRestructure.mkdir_one page p s) as [[[]|e] s1] eqn:E; [|discriminate].
    intros Hrest. destruct (IH _ Hrest) as (Hkeep & Hdirs & Henv & Hout).
    assert ((forall q n, PdfRestructure.fs page s !! q = Some n ->
                         PdfRestructure.fs page s1 !! q = Some n)
            /\ PdfRestructure.fs page s1 !! p = Some Dir
            /\ PdfRestructure.environ page s1 = PdfRestructure.environ page s
            /\ PdfRestructure.out page s1 = PdfRestructure.out page s)
      as (Hkeep1 & Hdir1 & Henv1 & Hout1).
    { revert E. unfold PdfRestructure.mkdir_one, PdfRestructure.set_node. unfold_M.
      destruct (PdfRestructure.fs page s !! p) as [[]|] eqn:Hp; try discriminate;
        intros [= <-]; cbn; split_and!; try done.
      - intros q n Hq. rewrite lookup_insert_ne; [done|]. intros ->. congruence.
      - apply lookup_insert_eq. }
    split_and!.
    + intros q n Hq. by apply Hkeep, Hkeep1.
    + intros q [->|Hq]%elem_of_cons; [by apply Hkeep|by apply Hdirs].
    + congruence.
    + congruence.
Qed.

Lemma mkdir_parents_result (p : str) (s s' : state) :
  PdfRestructure.mkdir_parents page p s = (Ret tt, s') ->
  (forall q n, PdfRestructure.fs page s !! q = Some n -> PdfRestructure.fs page s' !! q = Some n)
  /\ PdfRestructure.fs page s' !! p = Some Dir
  /\ PdfRestructure.environ page s' = PdfRestructure.environ page s
  /\ PdfRestructure.out page s' = PdfRestructure.out page s.
Proof.
  intros Hmk. destruct (mkdirs_result _ _ _ Hmk) as (Hkeep & Hdirs & Henv & Hout).
  split_and!; try done. apply Hdirs. apply elem_of_app. right. apply elem_of_cons. by left.
Qed.


Lemma announce_describes (cs : list chapter) (vs : list value) (s : state) :
  Forall2 describes cs vs ->
  PdfRestructure.announce page (VList vs) s
  = (Ret (length vs),
     {| PdfRestructure.fs := PdfRestructure.fs page s;
        PdfRestructure.environ := PdfRestructure.environ page s;
        PdfRestructure.out :=
          PdfRestructure.out page s
          ++ on_stdout (([10%N] ++ lit "Found " ++ str_of_nat (length vs) ++ lit " chapters:")
                        :: map listed_line cs) |}).
Proof.
  intros Hd. unfold PdfRestructure.announce. cbn [py_len py_iter].
  rewrite lift_run_ret, bind_run, pdf_print_run, lift_run_ret, bind_run.
  rewrite (show_chapters_describes cs vs Hd). cbn. by rewrite <- app_assoc.
Qed.

Lemma split_and_report_describes (pdf_path dir : str) (pages : list page)
    (cs : list chapter) (vs : list value) (n : nat) (s : state) :
  PdfRestructure.fs page s !! pdf_path = Some (Pdf pages) ->
  PdfRestructure.fs page s !! dir = Some Dir ->
  Forall2 describes cs vs ->
  Forall (within (length pages)) cs ->
  NoDup (map file_name cs) ->
  Forall (fun c => PdfRestructure.fs page s !! chapter_path dir c <> Some Dir) cs ->
  exists s',
    PdfRestructure.split_and_report page pdf_path (VList vs) dir n s = (Ret tt, s')
    /\ (forall c, c ∈ cs ->
          PdfRestructure.fs page s' !! chapter_path dir c
          = Some (Pdf (page_range pages (start_page c) (end_page c))))
    /\ (forall p, p ∉ map (chapter_path dir) cs ->
          PdfRestructure.fs page s' !! p = PdfRestructure.fs page s !! p)
    /\ PdfRestructure.out page s'
       = PdfRestructure.out page s
         ++ on_stdout
              ([[10%N] ++ lit "Splitting PDF into " ++ str_of_nat (length vs)
                ++ lit " chapters..."]
               ++ map created_line cs
               ++ [[10%N; 10003%N] ++ lit " Successfully split PDF into " ++ str_of_nat n
                   ++ lit " chapters";
                   lit "  Output directory: " ++ dir]).
Proof.
  intros Hpdf Hdir Hd Hin Hnd Htarget.
  unfold PdfRestructure.split_and_report, PdfRestructure.split_pdf, PdfRestructure.PdfReader.
  rewrite !bind_run. unfold gets at 1. rewrite Hpdf. unfold mret at 1, M_ret at 1.
  cbn [py_len py_iter]. rewrite lift_run_ret, bind_run, pdf_print_run, lift_run_ret.
  match goal with |- context [for_each vs _ ?s1] => set (s1' := s1) end.
  destruct (split_chapters page pages dir cs vs Hd s1' Hin Hnd Hdir Htarget)
    as (s' & -> & Hfiles & Hframe & Hout).
  cbv beta iota. rewrite bind_run, pdf_print_run, pdf_print_run.
  eexists. split; [reflexivity|].
  cbn [PdfRestructure.fs PdfRestructure.out]. split_and!; [done..|].
  rewrite Hout. subst s1'. cbn [PdfRestructure.out].
  unfold on_stdout. rewrite !map_app, map_map, <- !app_assoc. reflexivity.
Qed.

(** X20: With a described, non-empty chapter list in the response, page bounds
    inside the document and distinct file names, the whole script exits
    with status 0: it lists the chapters, writes one file for each with its
    page range, and reports success - all on standard output. *)
Theorem pdf_main_splits (g : PdfRestructure.genai) (args : PdfRestructure.arguments)
    (s s0 : state) (key file text : str) (d : list (str * value)) (pages : list page)
    (cs : list chapter) (vs : list value) :
  PdfRestructure.fs page s !! PdfRestructure.pdf_file args = Some (Pdf pages) ->
  PdfRestructure.api_key args (PdfRestructure.environ page s !! lit "GEMINI_API_KEY")
    = Some key ->
  key <> [] ->
  PdfRestructure.mkdir_parents page (PdfRestructure.output_dir args) s = (Ret tt, s0) ->
  PdfRestructure.upload_file g key (PdfRestructure.pdf_file args) = inr file ->
  PdfRestructure.generate_content g file PdfRestructure.prompt = inr text ->
  json_loads (PdfRestructure.strip_fences text) = inr (VDict d) ->
  PdfRestructure.delete_file g file = None ->
  dict_lookup (lit "chapters") d = Some (VList vs) ->
  vs <> [] ->
  Forall2 describes cs vs ->
  Forall (within (length pages)) cs ->
  NoDup (map file_name cs) ->
  Forall (fun c => PdfRestructure.fs page s0 !! chapter_path (PdfRestructure.output_dir args) c
                   <> Some Dir) cs ->
  let dir := PdfRestructure.output_dir args in
  let n := str_of_nat (length vs) in
  exists s',
    PdfRestructure.run_process page (PdfRestructure.main page g args) s = (0, s')
    /\ (forall c, c ∈ cs ->
          PdfRestructure.fs page s' !! chapter_path dir c
          = Some (Pdf (page_range pages (start_page c) (end_page c))))
    /\ (forall p, p ∉ map (chapter_path dir) cs ->
          PdfRestructure.fs page s' !! p = PdfRestructure.fs page s0 !! p)
    /\ PdfRestructure.out page s'
       = PdfRestructure.out page s
         ++ on_stdout
              ([lit "Uploading PDF to Gemini..."; lit "Analyzing PDF structure...";
                [10%N] ++ lit "Found " ++ n ++ lit " chapters:"]
               ++ map listed_line cs
               ++ [[10%N] ++ lit "Splitting PDF into " ++ n ++ lit " chapters..."]
               ++ map created_line cs
               ++ [[10%N; 10003%N] ++ lit " Successfully split PDF into " ++ n
                   ++ lit " chapters";
                   lit "  Output directory: " ++ dir]).
Proof.
  intros Hpdf Hkey Hne Hmk Hup Hgen Hjson Hdel Hch Hvs Hd Hin Hnd Htarget dir n.
  destruct (mkdir_parents_result _ _ _ Hmk) as (Hkeep & Hdir & _ & Hout0).
  unfold PdfRestructure.run_process. rewrite pdf_main_eq. cbv zeta.
  rewrite bool_decide_eq_true_2, Hkey by (by rewrite Hpdf).
  destruct key as [|k key]; [done|].
  rewrite Hmk, (boundaries_run _ _ _ _ _ _ Hup Hgen), Hjson, Hdel.
  cbn [py_get]. rewrite Hch. cbn [default from_option id]. unfold lift at 1.
  assert (py_truthy (VList vs) = true) as -> by (by destruct vs).
  rewrite !pdf_print_run. cbn [snd].
  rewrite (announce_describes cs vs _ Hd).
  match goal with |- context [PdfRestructure.split_and_report _ _ _ _ _ ?s2] =>
    destruct (split_and_report_describes (PdfRestructure.pdf_file args) dir pages cs vs
                (length vs) s2 (Hkeep _ _ Hpdf) Hdir Hd Hin Hnd Htarget)
      as (s' & Hrun & Hfiles & Hframe & Hout) end.
  fold dir. rewrite Hrun.
  exists s'. split_and!; [done..|].
  rewrite Hout. cbn [PdfRestructure.out]. rewrite Hout0. subst n.
  unfold on_stdout. rewrite !map_app, <- !app_assoc. reflexivity.
Qed.




(** X21: The listing loop of [main] stands outside both [try] blocks: a record
    without "chapter_number" ends the script in a traceback on standard
    error, with exit status 1, after the records before it were listed and
    before any file is written. *)
Theorem listing_failure_is_uncaught (g : PdfRestructure.genai)
    (args : PdfRestructure.arguments) (s s0 : state) (key file text : str)
    (d bad : list (str * value)) (cs : list chapter) (vs rest : list value) :
  is_Some (PdfRestructure.fs page s !! PdfRestructure.pdf_file args) ->
  PdfRestructure.api_key args (PdfRestructure.environ page s !! lit "GEMINI_API_KEY")
    = Some key ->
  key <> [] ->
  PdfRestructure.mkdir_parents page (PdfRestructure.output_dir args) s = (Ret tt, s0) ->
  PdfRestructure.upload_file g key (PdfRestructure.pdf_file args) = inr file ->
  PdfRestructure.generate_content g file PdfRestructure.prompt = inr text ->
  json_loads (PdfRestructure.strip_fences text) = inr (VDict d) ->
  PdfRestructure.delete_file g file = None ->
  dict_lookup (lit "chapters") d = Some (VList (vs ++ VDict bad :: rest)) ->
  Forall2 describes cs vs ->
  dict_lookup (lit "chapter_number") bad = None ->
  exists s',
    PdfRestructure.run_process page (PdfRestructure.main page g args) s = (1, s')
    /\ PdfRestructure.fs page s' = PdfRestructure.fs page s0
    /\ PdfRestructure.out page s'
       = PdfRestructure.out page s0
         ++ on_stdout
              ([lit "Uploading PDF to Gemini..."; lit "Analyzing PDF structure...";
                [10%N] ++ lit "Found " ++ str_of_nat (length (vs ++ VDict bad :: rest))
                ++ lit " chapters:"]
               ++ map listed_line cs)
         ++ [(Stderr, format_exc (KeyError (lit "chapter_number")))].
Proof.
  intros Hpdf Hkey Hne Hmk Hup Hgen Hjson Hdel Hch Hd Hbad.
  unfold PdfRestructure.run_process. rewrite pdf_main_eq. cbv zeta.
  rewrite bool_decide_eq_true_2, Hkey by done.
  destruct key as [|k key]; [done|].
  rewrite Hmk, (boundaries_run _ _ _ _ _ _ Hup Hgen), Hjson, Hdel.
  cbn [py_get]. rewrite Hch. cbn [default from_option id]. unfold lift at 1.
  assert (py_truthy (VList (vs ++ VDict bad :: rest)) = true) as -> by (by destruct vs).
  unfold PdfRestructure.announce. cbn [py_len py_iter].
  rewrite lift_run_ret, bind_run, pdf_print_run, lift_run_ret, bind_run.
  rewrite (for_each_app _ _ _ _ _ (show_chapters_describes cs vs Hd _)).
  cbn [for_each]. rewrite bind_run.
  unfold PdfRestructure.show_chapter at 1. cbn [py_getitem]. rewrite Hbad, lift_run_raise.
  eexists. split; [reflexivity|].
  cbn [snd PdfRestructure.print_to modify PdfRestructure.fs PdfRestructure.out].
  split; [done|].
  rewrite !pdf_print_run. cbn [snd PdfRestructure.out].
  unfold on_stdout. rewrite !map_app. cbn [map app]. rewrite <- !app_assoc. reflexivity.
Qed.

(** *** What the script keeps *)

Lemma keeps_files_refl (s : state) : keeps_files s s.
Proof. split_and!; try done. exists []. by rewrite app_nil_r. Qed.

Lemma keeps_files_trans (s1 s2 s3 : state) :
  keeps_files s1 s2 -> keeps_files s2 s3 -> keeps_files s1 s3.
Proof.
  intros (Hf & Hd & He & new1 & Ho & Hs) (Hf' & Hd' & He' & new2 & Ho' & Hs').
  split_and!; [auto..|congruence|].
  exists (new1 ++ new2). split; [by rewrite Ho', Ho, app_assoc|by apply Forall_app].
Qed.

Lemma tidy_ret {A} (a : A) : tidy (page:=page) (mret a).
Proof. intros s. apply keeps_files_refl. Qed.

Lemma tidy_raise {A} (e : exn) : tidy (page:=page) (raise (A:=A) e).
Proof. intros s. apply keeps_files_refl. Qed.

Lemma tidy_exit {A} (code : Z) : tidy (page:=page) (sys_exit (A:=A) code).
Proof. apply tidy_raise. Qed.

Lemma tidy_lift {A} (o : outcome A) : tidy (page:=page) (lift o).
Proof. intros s. apply keeps_files_refl. Qed.

Lemma tidy_gets {A} (f : state -> A) : tidy (gets f).
Proof. intros s. apply keeps_files_refl. Qed.

Lemma tidy_call {A} (r : exn + A) : tidy (PdfRestructure.call page r).
Proof. destruct r; [apply tidy_raise|apply tidy_ret]. Qed.

Lemma tidy_print line : tidy (PdfRestructure.print page line).
Proof. intros s. split_and!; try done. eexists. split; [reflexivity|]. by repeat constructor. Qed.

Lemma tidy_bind {A B} (m : M state A) (f : A -> M state B) :
  tidy m -> (forall a, tidy (f a)) -> tidy (m ≫= f).
Proof.
  intros Hm Hf s. rewrite bind_run. specialize (Hm s).
  destruct (m s) as [[a|e] s1]; [|exact Hm].
  eapply keeps_files_trans; [exact Hm|apply Hf].
Qed.

Lemma tidy_try {A} (body : M state A) handlers :
  tidy body -> (forall e h, handlers e = Some h -> tidy h) -> tidy (try_except body handlers).
Proof.
  intros Hb Hh s. unfold try_except. specialize (Hb s).
  destruct (body s) as [[a|e] s1]; [exact Hb|].
  destruct (handlers e) as [h|] eqn:E; [|exact Hb].
  eapply keeps_files_trans; [exact Hb|by eapply Hh].
Qed.

Lemma tidy_for_each {A} (xs : list A) (body : A -> M state unit) :
  (forall x, tidy (body x)) -> tidy (for_each xs body).
Proof.
  intros Hb. induction xs as [|x xs IH]; cbn [for_each].
  - apply tidy_ret.
  - apply tidy_bind; [apply Hb|intros _; apply IH].
Qed.

Lemma tidy_mkdir_one p : tidy (PdfRestructure.mkdir_one page p).
Proof.
  intros s. unfold PdfRestructure.mkdir_one, PdfRestructure.set_node. unfold_M.
  destruct (PdfRestructure.fs page s !! p) as [[]|] eqn:Hp; try apply keeps_files_refl.
  unfold keeps_files. cbn. split_and!; try done.
  - intros q Hq. rewrite lookup_insert. case_decide; [by eexists|done].
  - intros q Hq. rewrite lookup_insert_ne; [done|]. intros ->. congruence.
  - exists []. by rewrite app_nil_r.
Qed.

Lemma tidy_write_pdf parent path pages : tidy (PdfRestructure.write_pdf page parent path pages).
Proof.
  intros s. unfold PdfRestructure.write_pdf, PdfRestructure.set_node. unfold_M.
  destruct (PdfRestructure.fs page s !! parent) as [[]|];
    destruct (PdfRestructure.fs page s !! path) as [[]|] eqn:Hp;
    try apply keeps_files_refl.
  all: unfold keeps_files; cbn; split_and!; try done;
    [intros q Hq; rewrite lookup_insert; case_decide; [by eexists|done]
    |intros q Hq; rewrite lookup_insert_ne; [done|]; intros ->; congruence
    |exists []; by rewrite app_nil_r].
Qed.

Ltac tidy_step :=
  lazymatch goal with
  | |- tidy (mret _) => apply tidy_ret
  | |- tidy (raise _) => apply tidy_raise
  | |- tidy (sys_exit _) => apply tidy_exit
  | |- tidy (lift _) => apply tidy_lift
  | |- tidy (gets _) => apply tidy_gets
  | |- tidy (PdfRestructure.call _ _) => apply tidy_call
  | |- tidy (PdfRestructure.print _ _) => apply tidy_print
  | |- tidy (PdfRestructure.write_pdf _ _ _ _) => apply tidy_write_pdf
  | |- tidy (_ ≫= _) => apply tidy_bind; [|intros ?]
  | |- tidy (for_each _ _) => apply tidy_for_each; intros ?
  | |- tidy (try_except _ _) =>
      apply tidy_try;
      [|intros ? ? Hh; unfold PdfRestructure.main_handlers in Hh;
        destruct (is_Exception _); [injection Hh as <-|discriminate]]
  | |- tidy (match ?x with _ => _ end) => destruct x
  end.

Lemma tidy_boundaries g pdf_path key :
  tidy (PdfRestructure.get_chapter_boundaries page g pdf_path key).
Proof. unfold PdfRestructure.get_chapter_boundaries. repeat tidy_step. Qed.

Lemma tidy_split_pdf pdf_path chapters dir :
  tidy (PdfRestructure.split_pdf page pdf_path chapters dir).
Proof.
  unfold PdfRestructure.split_pdf, PdfRestructure.PdfReader, PdfRestructure.split_chapter.
  repeat tidy_step.
Qed.

Lemma tidy_announce chapters : tidy (PdfRestructure.announce page chapters).
Proof. unfold PdfRestructure.announce, PdfRestructure.show_chapter. repeat tidy_step. Qed.

(** X22: Whatever the service answers, [main] never removes a file, never
    replaces a directory, leaves the environment alone, and prints every
    one of its lines - error messages included - on standard output. *)
Theorem pdf_script_keeps_files (g : PdfRestructure.genai) (args : PdfRestructure.arguments)
    (s : state) :
  keeps_files s (snd (PdfRestructure.main page g args s)).
Proof.
  revert s. change (tidy (PdfRestructure.main page g args)).
  unfold PdfRestructure.main, PdfRestructure.path_exists, PdfRestructure.mkdir_parents,
    PdfRestructure.split_and_report.
  cbv zeta.
  repeat first
    [ apply tidy_boundaries | apply tidy_split_pdf | apply tidy_announce
    | apply tidy_mkdir_one | tidy_step ].
Qed.


(** *** The default output directory *)

Lemma rsplit_None (sep : N) (p : str) : sep ∉ p -> PdfRestructure.rsplit sep p = None.
Proof.
  induction p as [|c p IH]; [done|]. intros Hp. apply not_elem_of_cons in Hp as [Hc Hp].
  cbn [PdfRestructure.rsplit]. rewrite (IH Hp).
  destruct (N.eqb_spec c sep); [congruence|done].
Qed.

Lemma rsplit_last (sep : N) (a b : str) :
  sep ∉ b -> PdfRestructure.rsplit sep (a ++ sep :: b) = Some (a, b).
Proof.
  intros Hb. induction a as [|c a IH]; cbn [app PdfRestructure.rsplit].
  - by rewrite (rsplit_None _ _ Hb), N.eqb_refl.
  - by rewrite IH.
Qed.

(** X23: Without [--output-dir], the chapters of [<dir>/<name>.<ext>] go to
    [<dir>/<name>_chapters]: only the last extension is dropped.  The
    directory is one that [pathlib] leaves as it is, and the name does not
    consist of dots. *)
Theorem default_output_dir (args : PdfRestructure.arguments) (dir name ext : str) :
  PdfRestructure.output_dir_arg args = None \/ PdfRestructure.output_dir_arg args = Some [] ->
  PdfRestructure.pdf_file args = dir ++ lit "/" ++ name ++ lit "." ++ ext ->
  plain_directory dir ->
  (exists c, c ∈ name /\ c <> 46%N) -> 47%N ∉ name ->
  ext <> [] -> 47%N ∉ ext -> 46%N ∉ ext ->
  PdfRestructure.output_dir args = dir ++ lit "/" ++ name ++ lit "_chapters".
Proof.
  intros Harg Hfile (Hdir & Hslash & _ & Hcomp) (c0 & Hc0 & _) Hname' Hext Hext' Hext''.
  assert (dir <> lit ".") as Hdot by (intros ->; vm_compute in Hcomp; discriminate).
  assert (name <> []) as Hname by (intros ->; by apply elem_of_nil in Hc0).
  unfold PdfRestructure.output_dir.
  assert (match PdfRestructure.output_dir_arg args with
          | Some ((_ :: _) as d) => d
          | _ => path_join (PdfRestructure.path_parent (PdfRestructure.pdf_file args))
                   (PdfRestructure.path_stem (PdfRestructure.pdf_file args) ++ lit "_chapters")
          end
          = path_join (PdfRestructure.path_parent (PdfRestructure.pdf_file args))
              (PdfRestructure.path_stem (PdfRestructure.pdf_file args) ++ lit "_chapters"))
    as -> by (by destruct Harg as [-> | ->]).
  rewrite Hfile.
  assert (PdfRestructure.rsplit 47 (dir ++ lit "/" ++ name ++ lit "." ++ ext)
          = Some (dir, name ++ lit "." ++ ext)) as Hsplit.
  { change (lit "/" ++ ?x) with (47%N :: x). apply rsplit_last.
    rewrite !not_elem_of_app. split_and!; [done| |done].
    apply (bool_decide_unpack _). by vm_compute. }
  assert (PdfRestructure.rsplit 46 (name ++ lit "." ++ ext) = Some (name, ext)) as Hstem.
  { change (lit "." ++ ?x) with (46%N :: x). by apply rsplit_last. }
  unfold PdfRestructure.path_parent, PdfRestructure.path_stem, PdfRestructure.path_name.
  rewrite Hsplit, Hstem.
  destruct dir as [|d0 dir']; [done|]. destruct name as [|n0 name']; [done|].
  destruct ext as [|e0 ext']; [done|].
  unfold path_join. by rewrite !bool_decide_eq_false_2.
Qed.

(** *** Stripping the code fence *)

Lemma lstrip_id (c : N) (s : str) : char_isspace c = false -> lstrip (c :: s) = c :: s.
Proof. intros Hc. cbn [lstrip]. by rewrite Hc. Qed.

Lemma py_strip_trimmed (c l : N) (s : str) :
  head s = Some c -> last s = Some l ->
  char_isspace c = false -> char_isspace l = false ->
  py_strip s = s.
Proof.
  intros Hhead Hlast Hc Hl. unfold py_strip.
  destruct s as [|c' s]; [done|]. injection Hhead as ->. rewrite (lstrip_id _ _ Hc).
  apply last_Some in Hlast as [s' ->].
  rewrite rev_unit, (lstrip_id _ _ Hl).
  change (l :: rev s') with (rev [l] ++ rev s').
  by rewrite <- rev_app_distr, rev_involutive.
Qed.

Lemma fenced_is_trimmed (fence body : str) :
  head fence = Some 96%N ->
  py_strip (fence ++ body ++ lit "```") = fence ++ body ++ lit "```".
Proof.
  intros Hfence. apply (py_strip_trimmed 96 96); try reflexivity.
  - by destruct fence.
  - by rewrite !last_app.
Qed.

Lemma backtick_not_space : char_isspace 96 = false.
Proof. reflexivity. Qed.

Lemma startswith_app (p s : str) : startswith (p ++ s) p = true.
Proof. unfold startswith. apply bool_decide_eq_true. by rewrite take_app_length. Qed.

Lemma endswith_app (s p : str) : endswith (s ++ p) p = true.
Proof.
  unfold endswith. apply andb_true_iff. split; apply bool_decide_eq_true.
  - rewrite length_app. replace (length s + length p - length p)%nat with (length s) by lia.
    by rewrite drop_app_length.
  - rewrite length_app. lia.
Qed.

(** X24: A response wrapped in a code fence, with or without the "json" tag, is
    reduced to what stands between the fences, stripped of blanks. *)
Theorem strip_fences_fenced (c : N) (rest : str) :
  c <> 96%N -> c <> 106%N ->
  PdfRestructure.strip_fences (lit "```json" ++ (c :: rest) ++ lit "```")
  = py_strip (c :: rest)
  /\ PdfRestructure.strip_fences (lit "```" ++ (c :: rest) ++ lit "```")
     = py_strip (c :: rest).
Proof.
  intros Htick Hj.
  assert (forall body : str, take (length body + 3 - 3) (body ++ lit "```") = body) as Htake.
  { intros body. replace (length body + 3 - 3)%nat with (length body) by lia.
    by rewrite take_app_length. }
  assert (startswith ((c :: rest) ++ lit "```") (lit "```") = false) as Hbody.
  { unfold startswith. apply bool_decide_eq_false. cbn. intros [= ?]. done. }
  unfold PdfRestructure.strip_fences. split.
  - assert (py_strip (lit "```json" ++ (c :: rest) ++ lit "```")
            = lit "```json" ++ (c :: rest) ++ lit "```") as ->.
    { by apply fenced_is_trimmed. }
    rewrite startswith_app.
    change (drop 7 (lit "```json" ++ ?x)) with x.
    rewrite Hbody, endswith_app, length_app.
    change (length (lit "```")) with 3%nat. by rewrite Htake.
  - assert (py_strip (lit "```" ++ (c :: rest) ++ lit "```")
            = lit "```" ++ (c :: rest) ++ lit "```") as ->.
    { by apply fenced_is_trimmed. }
    assert (startswith (lit "```" ++ (c :: rest) ++ lit "```") (lit "```json") = false) as ->.
    { unfold startswith. apply bool_decide_eq_false. cbn. intros [= ?]. done. }
    rewrite startswith_app.
    change (drop 3 (lit "```" ++ ?x)) with x.
    rewrite endswith_app, length_app.
    change (length (lit "```")) with 3%nat. by rewrite Htake.
Qed.


Lemma lstrip_head (s : str) (c : N) : head (lstrip s) = Some c -> char_isspace c = false.
Proof.
  induction s as [|c' s IH]; [done|]. cbn [lstrip].
  destruct (char_isspace c') eqn:E; [exact IH|]. by intros [= <-].
Qed.

Lemma head_rev (s : str) : head (rev s) = last s.
Proof.
  destruct (last s) as [l|] eqn:E.
  - apply last_Some in E as [s' ->]. by rewrite rev_unit.
  - apply last_None in E as ->. done.
Qed.

Lemma last_rev (s : str) : last (rev s) = head s.
Proof. rewrite <- (rev_involutive s) at 2. by rewrite head_rev. Qed.

Lemma py_strip_ends (s : str) :
  (forall c, head (py_strip s) = Some c -> char_isspace c = false)
  /\ (forall l, last (py_strip s) = Some l -> char_isspace l = false).
Proof.
  unfold py_strip. split.
  - intros c. rewrite head_rev.
    destruct (lstrip_suffix (rev (lstrip s))) as [blanks E].
    destruct (lstrip (rev (lstrip s))) as [|y Y] eqn:HY; [done|].
    intros Hlast.
    assert (last (rev (lstrip s)) = Some c) as Hc.
    { rewrite E, last_app. by rewrite Hlast. }
    rewrite last_rev in Hc. by apply lstrip_head in Hc.
  - intros l. rewrite last_rev. apply lstrip_head.
Qed.

(** X25: A response without a code fence is only stripped of the blanks around
    it. *)
Theorem strip_fences_unfenced (text : str) (c l : N) :
  head (py_strip text) = Some c -> c <> 96%N ->
  last (py_strip text) = Some l -> l <> 96%N ->
  PdfRestructure.strip_fences text = py_strip text.
Proof.
  intros Hhead Hc Hlast Hl. unfold PdfRestructure.strip_fences.
  destruct (py_strip_ends text) as [Hspace Hspace'].
  assert (startswith (py_strip text) (lit "```json") = false) as ->.
  { unfold startswith. apply bool_decide_eq_false.
    destruct (py_strip text) as [|c' t]; [done|]. injection Hhead as ->.
    cbn. intros [= ? _]. done. }
  assert (startswith (py_strip text) (lit "```") = false) as ->.
  { unfold startswith. apply bool_decide_eq_false.
    destruct (py_strip text) as [|c' t]; [done|]. injection Hhead as ->.
    cbn. intros [= ? _]. done. }
  assert (endswith (py_strip text) (lit "```") = false) as ->.
  { unfold endswith. apply andb_false_iff. left. apply bool_decide_eq_false.
    intros Hdrop. apply (f_equal last) in Hdrop.
    destruct (last_Some (py_strip text) l) as [[t Ht] _]; [done|].
    rewrite Ht in Hdrop. change (length (lit "```")) with 3%nat in Hdrop.
    rewrite drop_app_le, last_app in Hdrop by (rewrite length_app; cbn; lia).
    cbn in Hdrop. by injection Hdrop. }
  apply (py_strip_trimmed c l); auto.
Qed.

End SplitterBehaviour.

(** * Further concrete runs *)

#[local] Existing Instance Runs.rt.

Lemma construct_returns_iff_witness :
  (exists p, Agent.construct_autonomous_instruction Sample.tasks_data Sample.course_info = Ret p)
  /\ exists msg,
       Agent.construct_autonomous_instruction (VList []) Sample.course_info
       = Raise (AttributeError msg).
Proof.
  destruct (construct_returns_iff Sample.tasks_data Sample.course_info) as [Hiff _].
  destruct (construct_returns_iff (VList []) Sample.course_info) as [_ Hkind].
  split.
  - apply Hiff. split; [reflexivity|]. eexists. split; reflexivity.
  - destruct (Hkind _ eq_refl) as [msg [Hmsg|Hmsg]]; [|discriminate Hmsg].
    exists msg. by rewrite <- Hmsg.
Defined.

Lemma load_phase_output_witness :
  exists s',
    Agent.load_phase (lit "/c") (Sample.course (Sample.text "TASKS") (Sample.text "{}"))
    = (Ret (Sample.tasks_data, VDict []), s')
    /\ Agent.out s'
       = [(Stdout, lit "Loading course data..."); (Stdout, lit "Loaded 3 tasks");
          (Stdout, lit "Course: Unknown")].
Proof.
  destruct (load_phase_output (lit "/c") (lit "TASKS") (lit "{}")
              (match Sample.tasks_data with VDict d => d | _ => [] end) [] 3
              (Sample.course (Sample.text "TASKS") (Sample.text "{}")))
    as (s' & Hrun & _ & Hout); try (vm_compute; reflexivity).
  exists s'. split; [exact Hrun|exact Hout].
Defined.

Lemma tasks_not_an_object_witness :
  fst (Agent.run_process (Agent.main (Sample.client None None) Sample.argv)
         (Sample.course (Sample.text "[ ]") (Sample.text "INFO"))) = 1.
Proof.
  unfold Sample.argv.
  rewrite (tasks_not_an_object (Sample.client None None) (lit "ai-student") (lit "/c")
             (lit "[ ]") (lit "INFO") [] (VList []) Sample.course_info);
    try (vm_compute; reflexivity).
  eexists. vm_compute. reflexivity.
Defined.

Lemma load_errors_reported_witness :
  let s := Sample.course None (Sample.text "INFO") in
  exists s',
    Agent.run_process (Agent.main (Sample.client None None) Sample.argv) s = (1, s')
    /\ last (Agent.out s')
       = Some (Stderr, lit "Error: Tasks file not found: /c/todo/course_tasks.json").
Proof.
  intros s. unfold Sample.argv.
  destruct (load_errors_reported (Sample.client None None) (lit "ai-student") (lit "/c") [] s)
    as (Hmissing & _ & _).
  - eexists. vm_compute. reflexivity.
  - rewrite Hmissing by (vm_compute; reflexivity).
    eexists. split; [reflexivity|]. vm_compute. reflexivity.
Defined.

Lemma missing_course_directory_witness :
  exists s',
    Agent.run_process (Agent.main (Sample.client None None) [lit "ai-student"; lit "/gone"])
      (Sample.course None None) = (1, s')
    /\ last (Agent.out s')
       = Some (Stderr, lit "Traceback (most recent call last): Course directory not found: /gone").
Proof.
  rewrite missing_course_directory by (vm_compute; reflexivity).
  eexists. split; [reflexivity|]. vm_compute. reflexivity.
Defined.

Lemma text_block_line_witness :
  Agent.show_block (Agent.TextBlock (lit "Working on task 1")) (Sample.course None None)
  = Agent.print Stdout (lit "Claude: Working on task 1") (Sample.course None None).
Proof.
  destruct (text_block_line (lit "Working on task 1") (Sample.course None None))
    as (line & Hrun & _ & Htake & Hshort & _).
  rewrite Hrun. f_equal.
  rewrite <- (take_drop 8 line), Htake, Hshort; [reflexivity|]. vm_compute. lia.
Defined.

Lemma session_summary_witness :
  let s := Sample.course (Sample.text "TASKS") (Sample.text "INFO") in
  exists s',
    Agent.session (Sample.client None None) Sample.options Sample.tasks_data
      Sample.course_info s = (Ret tt, s')
    /\ Agent.message_count s' = 2%nat
    /\ Agent.total_cost s' = 0.5%float.
Proof.
  intros s.
  destruct (session_summary (Sample.client None None) Sample.options Sample.tasks_data
              Sample.course_info
              (match Agent.construct_autonomous_instruction Sample.tasks_data
                       Sample.course_info with Ret p => p | Raise _ => [] end)
              Runs.messages s)
    as (s' & shown & Hrun & _ & Hcount & Hcost & _); try reflexivity.
  exists s'. split_and!; [exact Hrun|exact Hcount|].
  rewrite Hcost. vm_compute. reflexivity.
Defined.

Lemma interrupted_session_reports_cost_witness :
  let s := Sample.course (Sample.text "TASKS") (Sample.text "INFO") in
  exists s',
    try_except
      (Agent.session (Sample.client None (Some KeyboardInterrupt)) Sample.options
         Sample.tasks_data Sample.course_info) Agent.session_handlers s
    = (Raise (SystemExit 0), s')
    /\ last (Agent.out s') = Some (Stdout, lit "Cost so far: $<float>").
Proof.
  intros s.
  destruct (interrupted_session_reports_cost (Sample.client None (Some KeyboardInterrupt))
              Sample.options Sample.tasks_data Sample.course_info
              (match Agent.construct_autonomous_instruction Sample.tasks_data
                       Sample.course_info with Ret p => p | Raise _ => [] end)
              Runs.messages s)
    as (s' & shown & Hrun & _ & Hout); try reflexivity.
  exists s'. split; [exact Hrun|]. rewrite Hout, !last_app. reflexivity.
Defined.

Lemma prepare_options_witness :
  Agent.cwd Runs.windows_options = lit "C:/course"
  /\ Agent.add_dirs Runs.windows_options = [lit "C:/course/knowledge_base"]
  /\ is_Some (Agent.fs Runs.windows !! lit "C:/Users/a/AppData/npm/claude.cmd").
Proof.
  destruct (prepare_options (lit "C:/course") Runs.windows
              (snd (Agent.prepare (lit "C:/course") Runs.windows)) Runs.windows_options)
    as (Hcwd & Hdirs & Hcli & _).
  - vm_compute. reflexivity.
  - split_and!; [exact Hcwd|reflexivity|]. by apply (Hcli _ eq_refl).
Defined.

Lemma agent_exit_status_0_or_1_witness :
  let run client :=
    fst (Agent.run_process (Agent.main client Sample.argv)
           (Sample.course (Sample.text "TASKS") (Sample.text "INFO"))) in
  (run (Sample.client None None) = 0 \/ run (Sample.client None None) = 1)
  /\ (run (Sample.client (Some (ValueError (lit "bad options"))) None) = 0
      \/ run (Sample.client (Some (ValueError (lit "bad options"))) None) = 1).
Proof.
  intros run. split; apply agent_exit_status_0_or_1; intros opts p code;
    split_and!; discriminate.
Defined.

Lemma output_filename_safe_witness :
  PdfRestructure.output_filename (chapter_value (Sample.chap 1 "../a b" 1 2))
  = Ret (lit "Chapter_01_a_b.pdf")
  /\ 47%N ∉ lit "Chapter_01_a_b.pdf".
Proof.
  split; [vm_compute; reflexivity|].
  destruct (output_filename_safe (chapter_value (Sample.chap 1 "../a b" 1 2))
              (lit "Chapter_01_a_b.pdf"))
    as (number & title & _ & _ & _ & _ & Hslash & _).
  - vm_compute. reflexivity.
  - exact Hslash.
Defined.

Lemma chapter_past_last_page_witness :
  PdfRestructure.split_chapter nat Runs.pages (lit "/b")
    (chapter_value (Sample.chap 2 "Methods" 3 6)) Sample.book
  = (Raise (IndexError (lit "Sequence index out of range")), Sample.book).
Proof.
  apply (chapter_past_last_page nat Runs.pages (lit "/b") (Sample.chap 2 "Methods" 3 6)).
  - apply describes_chapter_value.
  - cbn. lia.
  - cbn. lia.
Defined.

Lemma start_page_zero_wraps_witness :
  PdfRestructure.chapter_pages nat Runs.pages (chapter_value (Sample.chap 1 "Intro" 0 2))
  = Ret [14; 10; 11]%nat.
Proof.
  apply (start_page_zero_wraps nat Runs.pages 14%nat (Sample.chap 1 "Intro" 0 2)).
  - apply describes_chapter_value.
  - reflexivity.
  - cbn. lia.
  - reflexivity.
Defined.

Lemma empty_chapter_is_written_witness :
  exists s',
    PdfRestructure.split_chapter nat Runs.pages (lit "/b")
      (chapter_value (Sample.chap 3 "Notes" 4 2)) Sample.book = (Ret tt, s')
    /\ PdfRestructure.fs nat s' !! lit "/b/Chapter_03_Notes.pdf"
       = Some (PdfRestructure.Pdf nat []).
Proof.
  destruct (empty_chapter_is_written nat Runs.pages (lit "/b") (Sample.chap 3 "Notes" 4 2)
              (chapter_value (Sample.chap 3 "Notes" 4 2)) Sample.book)
    as (s' & Hrun & Hfs).
  - apply describes_chapter_value.
  - cbn. lia.
  - vm_compute. reflexivity.
  - vm_compute. discriminate.
  - exists s'. split; [exact Hrun|]. rewrite Hfs. apply lookup_insert_eq.
Defined.

Lemma split_pdf_stops_at_failure_witness :
  exists s',
    PdfRestructure.split_pdf nat (lit "/b/book.pdf")
      (VList (map chapter_value
                [Sample.chap 1 "Intro" 1 2; Sample.chap 2 "Methods" 3 6;
                 Sample.chap 3 "Notes" 5 5]))
      (lit "/b") Sample.book
    = (Raise (IndexError (lit "Sequence index out of range")), s')
    /\ PdfRestructure.fs nat s' !! lit "/b/Chapter_01_Intro.pdf"
       = Some (PdfRestructure.Pdf nat [10; 11]%nat)
    /\ PdfRestructure.fs nat s' !! lit "/b/Chapter_03_Notes.pdf" = None.
Proof.
  destruct (split_pdf_stops_at_failure nat (lit "/b/book.pdf") (lit "/b") Runs.pages
              [Sample.chap 1 "Intro" 1 2] [chapter_value (Sample.chap 1 "Intro" 1 2)]
              [chapter_value (Sample.chap 3 "Notes" 5 5)]
              (chapter_value (Sample.chap 2 "Methods" 3 6))
              (IndexError (lit "Sequence index out of range")) Sample.book)
    as (s' & Hrun & Hfiles & Hframe).
  - vm_compute. reflexivity.
  - vm_compute. reflexivity.
  - repeat constructor; apply describes_chapter_value.
  - repeat constructor; unfold within; cbn; lia.
  - apply (bool_decide_unpack _). vm_compute. reflexivity.
  - repeat constructor; vm_compute; discriminate.
  - vm_compute. reflexivity.
  - exists s'. split_and!.
    + exact Hrun.
    + apply (Hfiles (Sample.chap 1 "Intro" 1 2)). apply elem_of_cons. by left.
    + rewrite Hframe; [vm_compute; reflexivity|].
      apply (bool_decide_unpack _). vm_compute. reflexivity.
Defined.

Lemma pdf_main_early_exits_witness :
  let g := Sample.service (inr (lit "CHAPTERS")) in
  (exists s',
      PdfRestructure.run_process nat (PdfRestructure.main nat g Runs.other_args) Sample.book
      = (1, s')
      /\ PdfRestructure.out nat s' = [(Stdout, lit "Error: File not found: /b/thesis.pdf")]
      /\ PdfRestructure.fs nat s' = PdfRestructure.fs nat Sample.book)
  /\ (exists s',
      PdfRestructure.run_process nat (PdfRestructure.main nat g Sample.args)
        Runs.book_without_key = (1, s')
      /\ PdfRestructure.out nat s' = [(Stdout, lit "Error: GEMINI_API_KEY required")]
      /\ PdfRestructure.fs nat s' = PdfRestructure.fs nat Sample.book).
Proof.
  intros g. split.
  - destruct (pdf_main_early_exits nat g Runs.other_args Sample.book) as [Hfile _].
    rewrite Hfile by (vm_compute; reflexivity).
    eexists. split; [reflexivity|]. split; reflexivity.
  - destruct (pdf_main_early_exits nat g Sample.args Runs.book_without_key) as [_ Hkey].
    rewrite Hkey.
    + eexists. split; [reflexivity|]. split; reflexivity.
    + eexists. vm_compute. reflexivity.
    + split; left; vm_compute; reflexivity.
Defined.

Lemma invalid_json_response_witness :
  exists s',
    PdfRestructure.run_process nat
      (PdfRestructure.main nat (Sample.service (inr (lit "Sorry, I cannot read this file.")))
         Sample.args) Sample.book = (1, s')
    /\ last (PdfRestructure.out nat s')
       = Some (Stdout, lit "Error: Expecting value: line 1 column 1 (char 0)").
Proof.
  destruct (invalid_json_response nat
              (Sample.service (inr (lit "Sorry, I cannot read this file."))) Sample.args
              Sample.book
              (snd (PdfRestructure.mkdir_parents nat (PdfRestructure.output_dir Sample.args)
                      Sample.book))
              (lit "key") (lit "files/1") (lit "Sorry, I cannot read this file.")
              (lit "Expecting value: line 1 column 1 (char 0)"))
    as (_ & s' & Hrun & _ & Hout);
    try (vm_compute; reflexivity); try discriminate.
  - eexists. vm_compute. reflexivity.
  - exists s'. split; [exact Hrun|]. rewrite Hout, last_app. reflexivity.
Defined.

Lemma response_not_an_object_witness :
  exists s',
    PdfRestructure.run_process nat
      (PdfRestructure.main nat (Sample.service (inr (lit "[ ]"))) Sample.args) Sample.book
    = (1, s')
    /\ last (PdfRestructure.out nat s')
       = Some (Stdout, lit "Error: 'list' object has no attribute 'get'").
Proof.
  destruct (response_not_an_object nat (Sample.service (inr (lit "[ ]"))) Sample.args
              Sample.book
              (snd (PdfRestructure.mkdir_parents nat (PdfRestructure.output_dir Sample.args)
                      Sample.book))
              (lit "key") (lit "files/1") (lit "[ ]") (VList []))
    as (s' & Hrun & _ & Hout);
    try (vm_compute; reflexivity); try discriminate.
  - eexists. vm_compute. reflexivity.
  - exists s'. split; [exact Hrun|]. rewrite Hout, last_app. reflexivity.
Defined.

Lemma pdf_main_splits_witness :
  exists s',
    PdfRestructure.run_process nat
      (PdfRestructure.main nat (Sample.service (inr (lit "CHAPTERS"))) Sample.args)
      Sample.book = (0, s')
    /\ PdfRestructure.fs nat s' !! lit "/b/book_chapters/Chapter_01_Intro.pdf"
       = Some (PdfRestructure.Pdf nat [10; 11]%nat)
    /\ PdfRestructure.fs nat s' !! lit "/b/book_chapters/Chapter_02_Methods.pdf"
       = Some (PdfRestructure.Pdf nat [12; 13; 14]%nat).
Proof.
  destruct (pdf_main_splits nat (Sample.service (inr (lit "CHAPTERS"))) Sample.args
              Sample.book
              (snd (PdfRestructure.mkdir_parents nat (PdfRestructure.output_dir Sample.args)
                      Sample.book))
              (lit "key") (lit "files/1") (lit "CHAPTERS")
              [(lit "chapters", VList (map chapter_value Runs.chapters))]
              Runs.pages Runs.chapters (map chapter_value Runs.chapters))
    as (s' & Hrun & Hfiles & _);
    try (vm_compute; reflexivity); try discriminate.
  - repeat constructor; apply describes_chapter_value.
  - repeat constructor; unfold within; cbn; lia.
  - apply (bool_decide_unpack _). vm_compute. reflexivity.
  - repeat constructor; vm_compute; discriminate.
  - exists s'. split_and!.
    + exact Hrun.
    + apply (Hfiles (Sample.chap 1 "Intro" 1 2)). apply elem_of_cons. by left.
    + apply (Hfiles (Sample.chap 2 "Methods" 3 5)).
      apply elem_of_cons. right. apply elem_of_cons. by left.
Defined.

Lemma listing_failure_is_uncaught_witness :
  exists s',
    PdfRestructure.run_process nat
      (PdfRestructure.main nat (Sample.service (inr (lit "BROKEN"))) Sample.args)
      Sample.book = (1, s')
    /\ last (PdfRestructure.out nat s')
       = Some (Stderr, lit "Traceback (most recent call last): 'chapter_number'")
    /\ PdfRestructure.fs nat s' !! lit "/b/book_chapters/Chapter_01_Intro.pdf" = None.
Proof.
  destruct (listing_failure_is_uncaught nat (Sample.service (inr (lit "BROKEN")))
              Sample.args Sample.book
              (snd (PdfRestructure.mkdir_parents nat (PdfRestructure.output_dir Sample.args)
                      Sample.book))
              (lit "key") (lit "files/1") (lit "BROKEN")
              [(lit "chapters",
                VList (map chapter_value Runs.chapters ++ [VDict Runs.untitled]))]
              Runs.untitled Runs.chapters (map chapter_value Runs.chapters) [])
    as (s' & Hrun & Hfs & Hout);
    try (vm_compute; reflexivity); try discriminate.
  - eexists. vm_compute. reflexivity.
  - repeat constructor; apply describes_chapter_value.
  - exists s'. split_and!.
    + exact Hrun.
    + rewrite Hout, !last_app. reflexivity.
    + rewrite Hfs. vm_compute. reflexivity.
Defined.

Lemma default_output_dir_witness :
  PdfRestructure.output_dir
    {| PdfRestructure.pdf_file := lit "/books/algebra.v2.pdf";
       PdfRestructure.output_dir_arg := Some [];
       PdfRestructure.api_key_arg := None |}
  = lit "/books/algebra.v2_chapters".
Proof.
  apply (default_output_dir _ (lit "/books") (lit "algebra.v2") (lit "pdf")).
  - by right.
  - reflexivity.
  - split_and!; [discriminate|discriminate|vm_compute; reflexivity|vm_compute; reflexivity].
  - exists 97%N. split; [|discriminate].
    apply (bool_decide_unpack _). vm_compute. reflexivity.
  - apply (bool_decide_unpack _). vm_compute. reflexivity.
  - discriminate.
  - apply (bool_decide_unpack _). vm_compute. reflexivity.
  - apply (bool_decide_unpack _). vm_compute. reflexivity.
Defined.

Lemma strip_fences_fenced_witness :
  PdfRestructure.strip_fences (lit "```json
{}
```") = lit "{}"
  /\ PdfRestructure.strip_fences (lit "```
{}
```") = lit "{}".
Proof.
  destruct (strip_fences_fenced 10 (lit "{}
")) as [Hjson Hplain]; try discriminate.
  split; [rewrite <- Hjson at 1|rewrite <- Hplain at 1]; vm_compute; reflexivity.
Defined.

Lemma strip_fences_unfenced_witness :
  PdfRestructure.strip_fences (lit "  {}
") = lit "{}".
Proof.
  rewrite (strip_fences_unfenced _ 123 125); try discriminate; vm_compute; reflexivity.
Defined.
